(** * Markdown renderer plugins of otterwiki: a shallow embedding

    The development follows [otterwiki/renderer_plugins.py]: the footnote,
    task-list, mark, fancy-block, spoiler and fold plugins for mistune.
    Python values are modelled as the code uses them: [str] as [string]
    (one [ascii] per code point below 256), [int] as [Z], ordered [dict]s as
    association lists in insertion order, exceptions as the [Raise] case of
    a result type. *)

From Stdlib Require Import String Ascii List ZArith Lia Bool DecimalString.
From Stdlib Require Import Sorted.
From Equations Require Import Equations.
From Equations.Prop Require Import Logic.
Import ListNotations.

Set Warnings "-register-all".
Open Scope string_scope.
Open Scope Z_scope.
Open Scope list_scope.

Infix "+++" := String.append (right associativity, at level 60).

(** ** Exceptions *)

Inductive exn : Type := KeyError | ValueError | IndexError | TypeError.

Inductive result (A : Type) : Type :=
| Ok : A -> result A
| Raise : exn -> result A.
Arguments Ok {A} _.
Arguments Raise {A} _.

Definition bind {A B : Type} (r : result A) (k : A -> result B) : result B :=
  match r with
  | Ok a => k a
  | Raise e => Raise e
  end.

Notation "x <- r ;; k" := (bind r (fun x => k))
  (at level 61, r at next level, right associativity).

(** ** Python built-ins used by the plugins *)

Module Py.

Definition chr (n : nat) : ascii := ascii_of_nat n.
Definition str1 (n : nat) : string := String (chr n) EmptyString.

(** The characters the source writes as escapes or inside quotes. *)
Definition nl : string := str1 10.
Definition dq : string := str1 34.

(** [str(i)] for an [int]. *)
Definition str (i : Z) : string := NilZero.string_of_int (Z.to_int i).

Definition len (s : string) : Z := Z.of_nat (String.length s).

(** [str.isspace] on one code point below 256. *)
Definition isspace (c : ascii) : bool :=
  let n := nat_of_ascii c in
  ((9 <=? n) && (n <=? 13) || (28 <=? n) && (n <=? 32)
   || (n =? 133) || (n =? 160))%nat.

Fixpoint lstrip (s : string) : string :=
  match s with
  | EmptyString => EmptyString
  | String c s' => if isspace c then lstrip s' else s
  end.

Fixpoint rstrip (s : string) : string :=
  match s with
  | EmptyString => EmptyString
  | String c s' =>
      match rstrip s' with
      | EmptyString => if isspace c then EmptyString else String c EmptyString
      | r => String c r
      end
  end.

Definition strip (s : string) : string := rstrip (lstrip s).

(** [str.lower] on one code point below 256: A-Z and the Latin-1 capitals. *)
Definition lower_char (c : ascii) : ascii :=
  let n := nat_of_ascii c in
  if ((65 <=? n) && (n <=? 90)
      || (192 <=? n) && (n <=? 222) && negb (n =? 215))%nat
  then ascii_of_nat (n + 32) else c.

Fixpoint lower (s : string) : string :=
  match s with
  | EmptyString => EmptyString
  | String c s' => String (lower_char c) (lower s')
  end.

Definition startswith (s p : string) : bool := String.prefix p s.

(** [s[n:]] for [n >= 0]. *)
Fixpoint drop (n : nat) (s : string) : string :=
  match n, s with
  | O, _ => s
  | S n', String _ s' => drop n' s'
  | S _, EmptyString => EmptyString
  end.

(** [sep.join(l)]. *)
Fixpoint join (sep : string) (l : list string) : string :=
  match l with
  | [] => EmptyString
  | [x] => x
  | x :: rest => x +++ sep +++ join sep rest
  end.

(** [c in s] for a one-character [c]. *)
Fixpoint contains (c : ascii) (s : string) : bool :=
  match s with
  | EmptyString => false
  | String d s' => Ascii.eqb c d || contains c s'
  end.

(** [x in l] on a list of strings. *)
Definition mem (x : string) (l : list string) : bool :=
  existsb (String.eqb x) l.

(** [l.index(x)]: the first position of [x], [ValueError] when absent. *)
Fixpoint index (l : list string) (x : string) : result Z :=
  match l with
  | [] => Raise ValueError
  | y :: l' => if String.eqb y x then Ok 0 else i <- index l' x ;; Ok (i + 1)
  end.

(** [l.insert(i, x)]: a negative [i] counts from the end, and the position
    is clamped to the list. *)
Definition insert (i : Z) (x : string) (l : list string) : list string :=
  let n := Z.of_nat (List.length l) in
  let p := Z.to_nat (if i <? 0 then Z.max 0 (n + i) else Z.min i n) in
  firstn p l ++ x :: skipn p l.

(** [l.remove(x)]: drops the first [x], [ValueError] when absent. *)
Fixpoint remove (x : string) (l : list string) : result (list string) :=
  match l with
  | [] => Raise ValueError
  | y :: l' => if String.eqb y x then Ok l' else r <- remove x l' ;; Ok (y :: r)
  end.

(** [enumerate(l)]. *)
Fixpoint enumerate_from {A : Type} (i : Z) (l : list A) : list (Z * A) :=
  match l with
  | [] => []
  | x :: l' => (i, x) :: enumerate_from (i + 1) l'
  end.
Definition enumerate {A : Type} (l : list A) : list (Z * A) :=
  enumerate_from 0 l.

(** [s[:n]] for [n >= 0]. *)
Fixpoint take (n : nat) (s : string) : string :=
  match n, s with
  | S n', String c s' => String c (take n' s')
  | _, _ => EmptyString
  end.

(** [s.endswith(p)]. *)
Definition endswith (s p : string) : bool :=
  (String.length p <=? String.length s)%nat
  && String.eqb (drop (String.length s - String.length p) s) p.

(** [s[:-n]] for [n > 0]. *)
Definition drop_last (n : nat) (s : string) : string :=
  take (String.length s - n) s.

(** [s.replace(old, new, 1)] for a non-empty [old]: the first occurrence. *)
Fixpoint replace_first (old new s : string) : string :=
  if String.prefix old s then new +++ drop (String.length old) s
  else match s with
       | EmptyString => EmptyString
       | String c s' => String c (replace_first old new s')
       end.

End Py.

(** ** The fragment of [re] the plugins' anchored patterns use

    A pattern is a sequence of greedy repetitions [c{min,max}] of a
    character class, each inside or outside capture group 1.  Matching is
    Python's backtracking order: every repetition first takes as many
    characters as it can and gives them back one at a time. *)

Module Re.

Inductive cls : Type :=
| CChar (c : ascii)          (* one literal character *)
| COneOf (s : string)        (* [...] *)
| CSpace                     (* \s *)
| CNotNewline.               (* . *)

Definition cls_match (k : cls) (c : ascii) : bool :=
  match k with
  | CChar d => Ascii.eqb c d
  | COneOf s => Py.contains c s
  | CSpace => Py.isspace c
  | CNotNewline => negb (Ascii.eqb c (Py.chr 10))
  end.

Record item : Type := Item {
  icls : cls;
  imin : nat;
  imax : option nat;          (* None: unbounded *)
  igroup : bool               (* inside group 1 *)
}.

Definition below (n : nat) (max : option nat) : bool :=
  match max with
  | None => true
  | Some m => (n <? m)%nat
  end.

(** How many characters a greedy repetition takes at the start of [s]. *)
Fixpoint greedy (k : cls) (max : option nat) (taken : nat) (s : string) : nat :=
  match s with
  | EmptyString => taken
  | String c s' =>
      if below taken max && cls_match k c
      then greedy k max (S taken) s' else taken
  end.

(** Try the lengths [n], [n-1], ..., [min] and keep the first success. *)
Fixpoint try_down {R : Type} (min n : nat) (f : nat -> option R) : option R :=
  if (n <? min)%nat then None
  else match f n with
       | Some r => Some r
       | None => match n with
                 | O => None
                 | S n' => try_down min n' f
                 end
       end.

Fixpoint take (n : nat) (s : string) : string :=
  match n, s with
  | S n', String c s' => String c (take n' s')
  | _, _ => EmptyString
  end.

(** The text each repetition matched, and the text left after the match. *)
Fixpoint match_items (p : list item) (s : string)
  : option (list string * string) :=
  match p with
  | [] => Some ([], s)
  | it :: p' =>
      try_down (imin it) (greedy (icls it) (imax it) 0 s)
        (fun k =>
           match match_items p' (Py.drop k s) with
           | Some (caps, rest) => Some (take k s :: caps, rest)
           | None => None
           end)
  end.

Fixpoint group1_of (p : list item) (caps : list string) : string :=
  match p, caps with
  | it :: p', c :: caps' =>
      (if igroup it then c else EmptyString) +++ group1_of p' caps'
  | _, _ => EmptyString
  end.

(** A match object: [m.group(1)] and the text after [m.end()]. *)
Record match_obj : Type := Match { group1 : string; after : string }.

(** [pattern.match(s)] for a pattern that starts with [^]. *)
Definition match_ (p : list item) (s : string) : option match_obj :=
  match match_items p s with
  | Some (caps, rest) => Some (Match (group1_of p caps) rest)
  | None => None
  end.

End Re.

(** ** Tokens

    A block token is a dict with a ['type'] and optional ['children'],
    ['text'] and ['params'] entries; [None] stands for an absent key. *)

Inductive pyval : Type :=
| PNone
| PBool (b : bool)
| PInt (z : Z)
| PStr (s : string)
| PInts (l : list Z).

Inductive token : Type := Token {
  type : string;
  children : option (list token);
  text : option string;
  params : option (list pyval)
}.

Definition set_text (t : token) (s : string) : token :=
  Token (type t) (children t) (Some s) (params t).

Definition set_children (t : token) (ch : list token) : token :=
  Token (type t) (Some ch) (text t) (params t).

(** The number of nodes of a token tree, the measure of the tree walks. *)
Fixpoint tsize (t : token) : nat :=
  match t with
  | Token _ (Some ch) _ _ => S (list_sum (map tsize ch))
  | Token _ None _ _ => 1%nat
  end.

Definition lsize (l : list token) : nat := list_sum (map tsize l).

(** ** Task lists: [mistunePluginTaskLists] *)

Module TaskLists.

(** [TASK_LIST_ITEM = re.compile(r'^(\[[ xX]\])\s+')] *)
Definition TASK_LIST_ITEM : list Re.item :=
  [ Re.Item (Re.CChar "[") 1 (Some 1%nat) true;
    Re.Item (Re.COneOf " xX") 1 (Some 1%nat) true;
    Re.Item (Re.CChar "]") 1 (Some 1%nat) true;
    Re.Item Re.CSpace 1 None false ].

(** [_rewrite_list_item].  The item is a new value where Python updates the
    dict in place; an exception loses the partial update with it. *)
Definition _rewrite_list_item (item : token) : result token :=
  match children item with
  | None => Raise KeyError                       (* item['children'] *)
  | Some [] => Ok item
  | Some (first_child :: rest) =>
      let text0 := match text first_child with    (* .get('text', '') *)
                   | Some t => t
                   | None => EmptyString
                   end in
      match Re.match_ TASK_LIST_ITEM text0 with
      | None => Ok item
      | Some m =>
          let mark := Re.group1 m in
          let first_child := set_text first_child (Re.after m) in
          match params item with
          | None => Raise KeyError               (* item['params'] *)
          | Some [] => Raise IndexError          (* params[0] *)
          | Some (p0 :: _) =>
              let params1 :=
                if String.eqb mark "[ ]" then [p0; PBool false]
                else [p0; PBool true] in
              Ok (Token "task_list_item" (Some (first_child :: rest))
                    (text item) (Some params1))
          end
      end
  end.

(** The first statement of the loop body of [_rewrite_all_list_items]. *)
Definition visit (tok : token) : result token :=
  if String.eqb (type tok) "list_item" then _rewrite_list_item tok else Ok tok.

Lemma _rewrite_list_item_size (item item' : token) :
  _rewrite_list_item item = Ok item' -> tsize item' = tsize item.
Proof.
  unfold _rewrite_list_item.
  destruct item as [ty [[|fc rest]|] tx pa]; simpl; try discriminate.
  - intros H; inversion H; reflexivity.
  - destruct (Re.match_ _ _).
    + destruct pa as [[|p0 ps]|]; try discriminate.
      intros H; inversion H; subst; clear H. simpl.
      destruct fc as [ty' [ch'|] tx' pa']; reflexivity.
    + intros H; inversion H; reflexivity.
Qed.

Lemma visit_size (tok tok' : token) :
  visit tok = Ok tok' -> tsize tok' = tsize tok.
Proof.
  unfold visit. destruct (String.eqb _ _).
  - apply _rewrite_list_item_size.
  - intros H; inversion H; reflexivity.
Qed.

Lemma tsize_pos (tok : token) : (0 < tsize tok)%nat.
Proof. destruct tok as [ty [c|] tx pa]; simpl; lia. Qed.

Lemma children_size (tok : token) (ch : list token) :
  children tok = Some ch -> (lsize ch < tsize tok)%nat.
Proof.
  destruct tok as [ty [c|] tx pa]; simpl; intros H; inversion H; subst.
  unfold lsize. lia.
Qed.

(** [_rewrite_all_list_items]: the loop over [tokens], with the recursion
    into the children of the token as the item rewrite left it. *)
Equations? _rewrite_all_list_items (tokens : list token)
  : result (list token) by wf (lsize tokens) lt :=
  _rewrite_all_list_items [] := Ok [];
  _rewrite_all_list_items (tok :: rest) with inspect (visit tok) := {
    | exist _ (Raise e) _ := Raise e
    | exist _ (Ok tok1) Hvisit with inspect (children tok1) := {
        | exist _ None _ with _rewrite_all_list_items rest := {
            | Raise e := Raise e
            | Ok rest' := Ok (tok1 :: rest') }
        | exist _ (Some ch) Hch with _rewrite_all_list_items ch := {
            | Raise e := Raise e
            | Ok ch' with _rewrite_all_list_items rest := {
                | Raise e := Raise e
                | Ok rest' := Ok (set_children tok1 ch' :: rest') } } } }.
Proof.
  all: unfold lsize in *; simpl.
  all: pose proof (tsize_pos tok).
  - pose proof (visit_size _ _ Hvisit).
    pose proof (children_size _ _ Hch). unfold lsize in *. lia.
  - lia.
  - lia.
Qed.

(** [task_lists_hook]: the before-render hook. *)
Definition task_lists_hook (tokens : list token) : result (list token) :=
  _rewrite_all_list_items tokens.

(** [render_html_task_list_item(self, text, level, checked)] *)
Definition render_html_task_list_item (text : string) (level : pyval)
  (checked : bool) : string :=
  let checkbox := "<input class=" +++ Py.dq +++ "task-list-item-checkbox"
                  +++ Py.dq +++ " " +++ "type=" +++ Py.dq +++ "checkbox"
                  +++ Py.dq +++ " " in
  let checkbox := if checked then checkbox +++ " checked/>"
                  else checkbox +++ "/>" in
  let text := if Py.startswith text "<p>"
              then Py.replace_first "<p>" ("<p>" +++ checkbox) text
              else checkbox +++ text in
  "<li class=" +++ Py.dq +++ "task-list-item" +++ Py.dq +++ ">"
  +++ text +++ "</li>" +++ Py.nl.

End TaskLists.

(** ** Parse state

    The entries of the per-document [state] dict that the plugins read and
    write.  [None] is an absent key; the engine's preprocessing creates
    ['def_footnotes'] as an empty dict and ['footnotes'] as an empty list. *)

Definition dict : Type := list (string * string).

Module Dict.

Definition keys (d : dict) : list string := map fst d.

Definition mem (k : string) (d : dict) : bool := Py.mem k (keys d).

Fixpoint get (k : string) (d : dict) : option string :=
  match d with
  | [] => None
  | (k', v) :: d' => if String.eqb k' k then Some v else get k d'
  end.

(** [d[k] = v]: a new key goes last, a known key keeps its place. *)
Fixpoint set (k v : string) (d : dict) : dict :=
  match d with
  | [] => [(k, v)]
  | (k', v') :: d' =>
      if String.eqb k' k then (k', v) :: d' else (k', v') :: set k v d'
  end.

End Dict.

Record State : Type := mkState {
  def_footnotes : option dict;
  footnotes : option (list string);
  footnote_index : option Z
}.

(** What the engine's preprocessing hands to the parsers. *)
Definition initial_state : State := mkState (Some []) (Some []) None.

(** An inline token is a tuple: the node type, then the renderer's
    positional arguments. *)
Definition inline_token : Type := (string * list pyval)%type.

(** ** The engine

    What a plugin's [__call__] touches of the [md] object: the ordered rule
    lists of the inline and block parsers, the names that have a rule method
    or a renderer method registered, and the two hook lists. *)

Record Md : Type := mkMd {
  inline_rules : list string;
  inline_rule_methods : list string;
  block_rules : list string;
  block_rule_methods : list string;
  renderer_NAME : string;
  renderer_methods : list string;
  before_render_hooks : list string;
  after_render_hooks : list string
}.

Module Engine.

(** Storing under a name in a method table: a known name is overwritten. *)
Definition register (name : string) (l : list string) : list string :=
  if Py.mem name l then l else l ++ [name].

Definition inline_register_rule (name : string) (md : Md) : Md :=
  mkMd (inline_rules md) (register name (inline_rule_methods md))
       (block_rules md) (block_rule_methods md) (renderer_NAME md)
       (renderer_methods md) (before_render_hooks md) (after_render_hooks md).

Definition block_register_rule (name : string) (md : Md) : Md :=
  mkMd (inline_rules md) (inline_rule_methods md)
       (block_rules md) (register name (block_rule_methods md))
       (renderer_NAME md) (renderer_methods md)
       (before_render_hooks md) (after_render_hooks md).

Definition renderer_register (name : string) (md : Md) : Md :=
  mkMd (inline_rules md) (inline_rule_methods md)
       (block_rules md) (block_rule_methods md) (renderer_NAME md)
       (register name (renderer_methods md))
       (before_render_hooks md) (after_render_hooks md).

Definition set_inline_rules (l : list string) (md : Md) : Md :=
  mkMd l (inline_rule_methods md) (block_rules md) (block_rule_methods md)
       (renderer_NAME md) (renderer_methods md)
       (before_render_hooks md) (after_render_hooks md).

Definition set_block_rules (l : list string) (md : Md) : Md :=
  mkMd (inline_rules md) (inline_rule_methods md) l (block_rule_methods md)
       (renderer_NAME md) (renderer_methods md)
       (before_render_hooks md) (after_render_hooks md).

Definition append_before_render_hook (h : string) (md : Md) : Md :=
  mkMd (inline_rules md) (inline_rule_methods md)
       (block_rules md) (block_rule_methods md) (renderer_NAME md)
       (renderer_methods md) (before_render_hooks md ++ [h])
       (after_render_hooks md).

Definition append_after_render_hook (h : string) (md : Md) : Md :=
  mkMd (inline_rules md) (inline_rule_methods md)
       (block_rules md) (block_rule_methods md) (renderer_NAME md)
       (renderer_methods md) (before_render_hooks md)
       (after_render_hooks md ++ [h]).

End Engine.

(** ** Footnotes: [mistunePluginFootnotes] *)

Module Footnotes.

(** [num2alphadict = dict(zip(range(1, 27), 'abcdefghijklmnopqrstuvwxyz'))] *)
Definition num2alphadict : list (Z * ascii) :=
  combine (map Z.of_nat (seq 1 26))
          (list_ascii_of_string "abcdefghijklmnopqrstuvwxyz").

Fixpoint lookup (k : Z) (d : list (Z * ascii)) : result string :=
  match d with
  | [] => Raise KeyError
  | (k', c) :: d' => if k' =? k then Ok (String c EmptyString) else lookup k d'
  end.

(** The statements of [_letter_from_index] after the recursive call. *)
Definition last_letter (outval : string) (num : Z) : result string :=
  let remainder := num mod 26 in
  if 0 <? remainder
  then c <- lookup remainder num2alphadict ;; Ok (outval +++ c)
  else Ok (outval +++ "z").

Equations? _letter_from_index (num : Z) : result string
  by wf (Z.to_nat num) lt :=
  _letter_from_index num with Z_lt_dec 0 ((num - 1) / 26) := {
    | left _ with _letter_from_index ((num - 1) / 26) := {
        | Ok prefix := last_letter (EmptyString +++ prefix) num
        | Raise e := Raise e }
    | right _ := last_letter EmptyString num }.
Proof.
  assert (0 < num) by (destruct (Z_lt_dec 0 num); [assumption|];
    exfalso; assert ((num - 1) / 26 < 0) by (apply Z.div_lt_upper_bound; lia);
    lia).
  assert ((num - 1) / 26 < num) by (apply Z.div_lt_upper_bound; lia).
  lia.
Qed.

(** [render_html_footnote_ref(self, key, index, fn)] *)
Definition render_html_footnote_ref (key : string) (index fn : Z) : string :=
  let i := Py.str index in
  let html := "<sup class=" +++ Py.dq +++ "footnote-ref" +++ Py.dq
              +++ " id=" +++ Py.dq +++ "fnref-" +++ i +++ Py.dq +++ ">" in
  html +++ "<a href=" +++ Py.dq +++ "#fn-" +++ i +++ Py.dq +++ ">"
       +++ i +++ "</a></sup>".

(** [render_html_footnotes(self, text)] *)
Definition render_html_footnotes (text : string) : string :=
  "<hr/><section class=" +++ Py.dq +++ "footnotes" +++ Py.dq +++ ">"
  +++ Py.nl +++ "<ol>" +++ Py.nl +++ text +++ "</ol>" +++ Py.nl
  +++ "</section>" +++ Py.nl.

Definition arrow_up : string :=
  "<i class=" +++ Py.dq +++ "fas fa-long-arrow-alt-up" +++ Py.dq +++ "></i>".

(** One entry of [ref_list]:
    [f'<a href="#fnref-{r}" class="footnote">{letter}</a>']. *)
Definition ref_link (r : Z) (letter : string) : string :=
  "<a href=" +++ Py.dq +++ "#fnref-" +++ Py.str r +++ Py.dq
  +++ " class=" +++ Py.dq +++ "footnote" +++ Py.dq +++ ">"
  +++ letter +++ "</a>".

(** The loop [for i, r in enumerate(refs)] that fills [ref_list]. *)
Fixpoint ref_list_of (l : list (Z * Z)) : result (list string) :=
  match l with
  | [] => Ok []
  | (i, r) :: l' =>
      letter <- _letter_from_index (i + 1) ;;
      rest <- ref_list_of l' ;;
      Ok (ref_link r letter :: rest)
  end.

(** The value of [back] in [render_html_footnote_item]. *)
Definition back_links (refs : list Z) : result string :=
  match refs with
  | [r0] =>
      Ok ("<a href=" +++ Py.dq +++ "#fnref-" +++ Py.str r0 +++ Py.dq
          +++ " class=" +++ Py.dq +++ "footnote" +++ Py.dq +++ ">"
          +++ arrow_up +++ "</a> ")
  | _ =>
      ref_list <- ref_list_of (Py.enumerate refs) ;;
      Ok (arrow_up +++ " " +++ Py.join ", " ref_list +++ " ")
  end.

(** The statements of [render_html_footnote_item] after [back] is set. *)
Definition place_back (back text key : string) : string :=
  let text1 := Py.rstrip text in
  let text2 := if Py.startswith text1 "<p>"
               then "<p>" +++ back +++ Py.drop 3 text1
               else back +++ text1 in
  "<li id=" +++ Py.dq +++ "fn-" +++ key +++ Py.dq +++ ">"
  +++ text2 +++ "</li>" +++ Py.nl.

(** [render_html_footnote_item(self, text, key, refs)] *)
Definition render_html_footnote_item (text key : string) (refs : list Z)
  : result string :=
  back <- back_links refs ;;
  Ok (place_back back text key).

(** [text.splitlines()] on code points below 256: a line ends at LF, CR,
    CR LF, VT, FF, FS, GS, RS or NEL, and no empty last line is produced. *)
Definition is_linebreak (c : ascii) : bool :=
  let n := nat_of_ascii c in
  ((10 <=? n) && (n <=? 13) || (28 <=? n) && (n <=? 30) || (n =? 133))%nat.

Fixpoint splitlines_from (prev_cr : bool) (cur s : string) : list string :=
  match s with
  | EmptyString => if String.eqb cur EmptyString then [] else [cur]
  | String c s' =>
      if prev_cr && Ascii.eqb c (Py.chr 10) then splitlines_from false cur s'
      else if is_linebreak c
           then cur :: splitlines_from (Ascii.eqb c (Py.chr 13)) EmptyString s'
           else splitlines_from false (cur +++ String c EmptyString) s'
  end.

Definition splitlines (s : string) : list string :=
  splitlines_from false EmptyString s.

(** The loop [for second_line in lines[1:]: if second_line: break], with
    [second_line] starting as the empty string. *)
Fixpoint second_line_of (l : list string) : string :=
  match l with
  | [] => EmptyString
  | x :: l' => if String.eqb x EmptyString then second_line_of l' else x
  end.

(** The pieces of [s] between its line feeds, the last one included. *)
Fixpoint split_lf (cur s : string) : list string :=
  match s with
  | EmptyString => [cur]
  | String c s' =>
      if Ascii.eqb c (Py.chr 10) then cur :: split_lf EmptyString s'
      else split_lf (cur +++ String c EmptyString) s'
  end.

Fixpoint leading_spaces (s : string) : nat :=
  match s with
  | String c s' => if Ascii.eqb c " " then S (leading_spaces s') else O
  | EmptyString => O
  end.

(** [re.compile(r'^ {n,}', flags=re.M).sub('', text)]: at each line start a
    run of at least [n] blanks is removed whole. *)
Definition dedent (n : nat) (text : string) : string :=
  Py.join Py.nl
    (map (fun line =>
            let k := leading_spaces line in
            if (n <=? k)%nat then Py.drop k line else line)
         (split_lf EmptyString text)).

(** [refs = [i + 1 for i, j in enumerate(footnotes) if j == k]] *)
Definition refs_of (footnotes : list string) (k : string) : list Z :=
  map (fun p => fst p + 1)
      (filter (fun p => String.eqb (snd p) k) (Py.enumerate footnotes)).

Section Parsing.

(** [mistune.util.unikey], the normalisation of a footnote key. *)
Variable unikey : string -> string.
(** [block.parse_text(text, state)] of the engine, taken as reading the
    state only. *)
Variable parse_text : string -> State -> list token.
(** The engine's inline rendering of a token's text, and its renderer
    methods for the node types of the base grammar. *)
Variable inline_render : string -> string.
Variable base_render : string -> string -> option (list pyval) -> string.

(** [parse_inline_footnote(self, inline, m, state)], with [g0 = m.group(0)]
    and [g1 = m.group(1)]. *)
Definition parse_inline_footnote (g0 g1 : string) (state : State)
  : result (inline_token * State) :=
  let key := unikey g1 in
  match def_footnotes state with
  | None => Ok (("text", [PStr g0]), state)
  | Some d =>
      if match d with [] => true | _ => false end || negb (Dict.mem key d)
      then Ok (("text", [PStr g0]), state)
      else
        let index := match footnote_index state with
                     | Some i => i
                     | None => 0
                     end in
        let index := index + 1 in
        let state := mkState (def_footnotes state) (footnotes state)
                             (Some index) in
        match footnotes state with
        | None => Raise KeyError                 (* state['footnotes'] *)
        | Some fs =>
            let state := mkState (def_footnotes state) (Some (fs ++ [key]))
                                 (footnote_index state) in
            (* footnote number *)
            i <- Py.index (Dict.keys d) key ;;
            let fn := i + 1 in
            Ok (("footnote_ref", [PStr key; PInt fn; PInt index]), state)
        end
  end.

(** [parse_def_footnote(self, block, m, state)], with [g2 = m.group(2)] and
    [g3 = m.group(3)]. *)
Definition parse_def_footnote (g2 g3 : string) (state : State)
  : result State :=
  let key := unikey g2 in
  match def_footnotes state with
  | None => Raise KeyError                       (* state['def_footnotes'] *)
  | Some d =>
      if negb (Dict.mem key d)
      then Ok (mkState (Some (Dict.set key g3 d)) (footnotes state)
                       (footnote_index state))
      else Ok state
  end.

(** [parse_footnote_item(self, block, k, refs, state)] *)
Definition parse_footnote_item (k : string) (refs : list Z) (state : State)
  : result token :=
  match def_footnotes state with
  | None => Raise KeyError
  | Some d =>
      match Dict.get k d with
      | None => Raise KeyError
      | Some text0 =>
          let stripped_text := Py.strip text0 in
          let children0 :=
            if negb (Py.contains (Py.chr 10) stripped_text)
            then [Token "paragraph" None (Some stripped_text) None]
            else
              let lines := splitlines text0 in
              let second_line := second_line_of (tl lines) in
              let spaces := (String.length second_line
                             - String.length (Py.lstrip second_line))%nat in
              parse_text (dedent spaces text0) state in
          Ok (Token "footnote_item" (Some children0) None
                (Some [PStr k; PInts refs]))
      end
  end.

(** The loop [for k in state.get('def_footnotes')] of the hook. *)
Fixpoint footnote_items (ks : list string) (fns : list string)
  (state : State) : result (list token) :=
  match ks with
  | [] => Ok []
  | k :: ks' =>
      item <- parse_footnote_item k (refs_of fns k) state ;;
      rest <- footnote_items ks' fns state ;;
      Ok (item :: rest)
  end.

(** Modelled from the spec: the engine's renderer dispatch
    ([render(node, inline_context, state)] with the functions of
    [register_renderer]).  A token's children (or else its text) are rendered
    first and handed to the method registered for the node type, followed
    by the token's params in their order. *)
Definition dispatch (ty body : string) (ps : option (list pyval))
  : result string :=
  if String.eqb ty "footnotes" then Ok (render_html_footnotes body)
  else if String.eqb ty "footnote_item" then
    match ps with
    | Some [PStr key; PInts refs] => render_html_footnote_item body key refs
    | _ => Raise TypeError
    end
  else Ok (base_render ty body ps).

(** Modelled from the spec: the engine's rendering of one block token and
    of a token list, through [dispatch]. *)
Fixpoint render_token (t : token) : result string :=
  body <- match children t with
          | Some ch =>
              (fix render_list (l : list token) : result string :=
                 match l with
                 | [] => Ok EmptyString
                 | c :: l' =>
                     a <- render_token c ;;
                     b <- render_list l' ;;
                     Ok (a +++ b)
                 end) ch
          | None =>
              match text t with
              | Some s => Ok (inline_render s)
              | None => Ok EmptyString
              end
          end ;;
  dispatch (type t) body (params t).

(** Modelled from the spec: [block.render(tokens, inline, state)] of the
    engine, the concatenation of the rendered tokens. *)
Fixpoint render (tokens : list token) : result string :=
  match tokens with
  | [] => Ok EmptyString
  | t :: l =>
      a <- render_token t ;;
      b <- render l ;;
      Ok (a +++ b)
  end.

(** Modelled from the spec: the inline side of the renderer dispatch.  The
    method of the token's node type receives the rest of the tuple as its
    positional arguments. *)
Definition render_inline_token (tok : inline_token) : result string :=
  if String.eqb (fst tok) "footnote_ref" then
    match snd tok with
    | [PStr key; PInt index; PInt fn] =>
        Ok (render_html_footnote_ref key index fn)
    | _ => Raise TypeError
    end
  else Ok (base_render (fst tok) EmptyString (Some (snd tok))).

(** [md_footnotes_hook(self, md, result, state)] *)
Definition md_footnotes_hook (result0 : string) (state : State)
  : result string :=
  match footnotes state with
  | None | Some [] => Ok result0
  | Some fns =>
      match def_footnotes state with
      | None => Raise TypeError                  (* iterating over None *)
      | Some d =>
          children0 <- footnote_items (Dict.keys d) fns state ;;
          let tokens := [Token "footnotes" (Some children0) None None] in
          output <- render tokens ;;
          Ok (result0 +++ output)
      end
  end.

(** Modelled from the spec: one document.  The block pass hands every
    definition match to [parse_def_footnote]; rendering then hands every
    reference match to [parse_inline_footnote], in output order, threading
    the one state through. *)
Fixpoint parse_defs (defs : list (string * string)) (state : State)
  : result State :=
  match defs with
  | [] => Ok state
  | (g2, g3) :: defs' =>
      state1 <- parse_def_footnote g2 g3 state ;;
      parse_defs defs' state1
  end.

(** Modelled from the spec: the reference matches of one document, handed
    to [parse_inline_footnote] in output order. *)
Fixpoint parse_refs (refs : list (string * string)) (state : State)
  : result (list inline_token * State) :=
  match refs with
  | [] => Ok ([], state)
  | (g0, g1) :: refs' =>
      r <- parse_inline_footnote g0 g1 state ;;
      rs <- parse_refs refs' (snd r) ;;
      Ok (fst r :: fst rs, snd rs)
  end.

(** Modelled from the spec: the definitions, then the references, of one
    document, from the state the engine starts a parse with. *)
Definition parse_document (defs refs : list (string * string))
  : result (list inline_token * State) :=
  state <- parse_defs defs initial_state ;;
  parse_refs refs state.

End Parsing.

(** [__call__(self, md)] *)
Definition __call__ (md : Md) : result Md :=
  let md := Engine.inline_register_rule "footnote" md in
  index <- Py.index (inline_rules md) "std_link" ;;
  let md :=
    if negb (index =? -1)
    then Engine.set_inline_rules
           (Py.insert index "footnote" (inline_rules md)) md
    else Engine.set_inline_rules (inline_rules md ++ ["footnote"]) md in
  let md := Engine.block_register_rule "def_footnote" md in
  index <- Py.index (block_rules md) "def_link" ;;
  let md :=
    if negb (index =? -1)
    then Engine.set_block_rules
           (Py.insert index "def_footnote" (block_rules md)) md
    else Engine.set_block_rules (block_rules md ++ ["def_footnote"]) md in
  let md :=
    if String.eqb (renderer_NAME md) "html"
    then Engine.renderer_register "footnotes"
           (Engine.renderer_register "footnote_item"
              (Engine.renderer_register "footnote_ref" md))
    else md in
  Ok (Engine.append_after_render_hook "md_footnotes_hook" md).

End Footnotes.

(** ** Mark: [mistunePluginMark] *)

Module Mark.

(** [parse_mark(self, inline, m, state)], with [g1 = m.group(1)];
    [inline_render] is [inline.render] of the engine. *)
Definition parse_mark (inline_render : string -> State -> string)
  (g1 : string) (state : State) : inline_token :=
  let text := g1 in
  ("mark", [PStr (inline_render text state)]).

(** [render_html_mark(self, text)] *)
Definition render_html_mark (text : string) : string :=
  "<mark>" +++ text +++ "</mark>".

(** [__call__(self, md)] *)
Definition __call__ (md : Md) : result Md :=
  let md := Engine.inline_register_rule "mark" md in
  index <- Py.index (inline_rules md) "codespan" ;;
  let md :=
    if negb (index =? -1)
    then Engine.set_inline_rules
           (Py.insert (index + 1) "mark" (inline_rules md)) md
    else Engine.set_inline_rules (inline_rules md ++ ["mark"]) md in
  Ok (if String.eqb (renderer_NAME md) "html"
      then Engine.renderer_register "mark" md else md).

End Mark.

(** ** Fancy blocks: [mistunePluginFancyBlocks] *)

Module FancyBlocks.

(** [FANCY_BLOCK_HEADER]: one to five [#], then [\s*], then group 1 as a
    greedy run of [.], then [\n+]. *)
Definition FANCY_BLOCK_HEADER : list Re.item :=
  [ Re.Item (Re.CChar "#") 1 (Some 5%nat) false;
    Re.Item Re.CSpace 0 None false;
    Re.Item Re.CNotNewline 0 None true;
    Re.Item (Re.CChar (Py.chr 10)) 1 None false ].

(** [a or b] where [a] is a capture group: [None] when the group took no
    part in the match, and falsy also when it is empty. *)
Definition group_or (a : option string) (b : string) : string :=
  match a with
  | Some s => if String.eqb s EmptyString then b else s
  | None => b
  end.

Definition opt_str (o : option string) : pyval :=
  match o with
  | Some s => PStr s
  | None => PNone
  end.

Section Parsing.

(** [block.parse(text, state, rules)] of the engine. *)
Variable block_parse : string -> State -> list string -> list token.

(** [parse_fancy_block(self, block, m, state)], with [rules = block.rules],
    [g3 = m.group(3)] and [g4 = m.group(4)]. *)
Definition parse_fancy_block (rules : list string) (g3 : string)
  (g4 : option string) (state : State) : result token :=
  (* get text and the newline that has been eaten up *)
  let text0 := group_or g4 (EmptyString +++ Py.nl) in
  let family := Py.lower (Py.strip g3) in
  (* find (and remove) the header from the text block *)
  let header := Re.match_ FANCY_BLOCK_HEADER text0 in
  let text1 := match header with
               | Some m => Re.after m
               | None => text0
               end in
  let header := option_map Re.group1 header in
  rules1 <- Py.remove "axt_heading" rules ;;
  rules2 <- Py.remove "setex_heading" rules1 ;;
  let children0 := block_parse text1 state rules2 in
  Ok (Token "fancy_block" (Some children0) (Some text1)
        (Some [PStr family; opt_str header])).

End Parsing.

(** The chain of [if family in [...]] tests of the renderer. *)
Definition alert_class (family : string) : string :=
  if Py.mem family ["info"; "blue"] then "alert alert-primary"
  else if Py.mem family ["warning"; "yellow"] then "alert alert-secondary"
  else if Py.mem family ["danger"; "red"] then "alert alert-danger"
  else if Py.mem family ["success"; "green"] then "alert alert-success"
  else if Py.mem family ["none"; "empty"] then "alert"
  else "alert".

(** [render_html_fancy_block(self, text, family, header)] *)
Definition render_html_fancy_block (text family : string)
  (header : option string) : string :=
  let cls := alert_class family in
  let header :=
    match header with
    | Some h => "<h4 class=" +++ Py.dq +++ "alert-heading" +++ Py.dq +++ ">"
                +++ h +++ "</h4>"
    | None => EmptyString
    end in
  let text := Py.strip text in
  "<div class=" +++ Py.dq +++ cls +++ " mb-20" +++ Py.dq
  +++ " role=" +++ Py.dq +++ "alert" +++ Py.dq +++ ">"
  +++ header +++ Py.nl +++ text +++ "</div>" +++ Py.nl.

(** [__call__(self, md)] *)
Definition __call__ (md : Md) : result Md :=
  let md := Engine.block_register_rule "fancy_block" md in
  let md := Engine.set_block_rules (block_rules md ++ ["fancy_block"]) md in
  Ok (if String.eqb (renderer_NAME md) "html"
      then Engine.renderer_register "fancy_block" md else md).

End FancyBlocks.

(** [re.compile(r'^ *' + marker, flags=re.MULTILINE).sub('', text)], the
    substitution of [SPOILER_LEADING] and [FOLD_LEADING]: at the start of each
    line, a run of blanks followed by the marker is removed. *)
Definition strip_leading (marker text : string) : string :=
  Py.join Py.nl
    (map (fun line =>
            let k := Footnotes.leading_spaces line in
            if String.prefix marker (Py.drop k line)
            then Py.drop (k + String.length marker) line
            else line)
         (Footnotes.split_lf EmptyString text)).

(** The unwrapping both block renderers start with: the text is stripped
    and loses a leading [<p>] and a trailing [</p>]. *)
Definition unwrap_paragraph (text : string) : string :=
  let text := Py.strip text in
  let text := if Py.startswith text "<p>" then Py.drop 3 text else text in
  if Py.endswith text "</p>" then Py.drop_last 4 text else text.

(** ** Spoiler: [mistunePluginSpoiler] *)

Module Spoiler.

Section Parsing.

(** [block.parse(text, state)] of the engine. *)
Variable block_parse : string -> State -> list token.

(** [parse_spoiler_block(self, block, m, state)], with [g0 = m.group(0)]. *)
Definition parse_spoiler_block (g0 : string) (state : State) : token :=
  let text := g0 in
  (* we are searching for the complete bock, so we have to remove
     the syntax >! *)
  let text := strip_leading ">!" text in
  let text := Py.strip text in
  let children0 := block_parse text state in
  Token "spoiler_block" (Some children0) (Some text) None.

End Parsing.

(** [render_html_spoiler_block(self, text)] *)
Definition render_html_spoiler_block (text : string) : string :=
  let text := unwrap_paragraph text in
  "<div class=" +++ Py.dq +++ "spoiler" +++ Py.dq +++ ">" +++ Py.nl
  +++ "  <button class=" +++ Py.dq +++ "spoiler-button" +++ Py.dq
  +++ " onclick=" +++ Py.dq +++ "otterwiki.toggle_spoiler(this)" +++ Py.dq
  +++ "><i class=" +++ Py.dq +++ "far fa-eye" +++ Py.dq
  +++ "></i></button>" +++ Py.nl
  +++ "  <p>" +++ text +++ "</p>" +++ Py.nl
  +++ "</div>" +++ Py.nl +++ Py.nl.

(** [__call__(self, md)] *)
Definition __call__ (md : Md) : result Md :=
  let md := Engine.block_register_rule "spoiler_block" md in
  index <- Py.index (block_rules md) "block_quote" ;;
  let md :=
    if negb (index =? -1)
    then Engine.set_block_rules
           (Py.insert index "spoiler_block" (block_rules md)) md
    else Engine.set_block_rules (block_rules md ++ ["spoiler_block"]) md in
  Ok (if String.eqb (renderer_NAME md) "html"
      then Engine.renderer_register "spoiler_block" md else md).

End Spoiler.

(** ** Fold: [mistunePluginFold] *)

Module Fold.

(** [FOLD_BLOCK_HEADER]: one to five [#], then [\s*], then group 1 as a
    greedy run of [.], then [\n+]. *)
Definition FOLD_BLOCK_HEADER : list Re.item :=
  [ Re.Item (Re.CChar "#") 1 (Some 5%nat) false;
    Re.Item Re.CSpace 0 None false;
    Re.Item Re.CNotNewline 0 None true;
    Re.Item (Re.CChar (Py.chr 10)) 1 None false ].

Section Parsing.

(** [block.parse(text, state)] of the engine. *)
Variable block_parse : string -> State -> list token.

(** [parse_fold_block(self, block, m, state)], with [g0 = m.group(0)]. *)
Definition parse_fold_block (g0 : string) (state : State) : token :=
  let text := g0 in
  (* we are searching for the complete bock, so we have to remove
     the syntax >| *)
  let text := Py.strip (strip_leading ">|" text) in
  (* find (and remove) the header from the text block *)
  let header := Re.match_ FOLD_BLOCK_HEADER text in
  let text := match header with
              | Some m => Re.after m
              | None => text
              end in
  let header := option_map Re.group1 header in
  (* clean up trailing spaces *)
  let text := Py.join Py.nl
                (map Py.rstrip (Footnotes.splitlines (Py.strip text))) in
  let children0 := block_parse text state in
  Token "fold_block" (Some children0) (Some text)
    (Some [FancyBlocks.opt_str header]).

End Parsing.

(** [render_html_fold_block(self, text, header=None)] *)
Definition render_html_fold_block (text : string) (header : option string)
  : string :=
  let text := unwrap_paragraph text in
  let header := match header with
                | Some h => h
                | None => "..."
                end in
  "<details class=" +++ Py.dq +++ "collapse-panel" +++ Py.dq +++ ">" +++ Py.nl
  +++ "<summary class=" +++ Py.dq +++ "collapse-header" +++ Py.dq +++ ">"
  +++ Py.nl +++ header +++ Py.nl +++ "</summary>" +++ Py.nl
  +++ "<div class=" +++ Py.dq +++ "collapse-content" +++ Py.dq +++ "><p>"
  +++ text +++ "</p></div></details>".

(** [__call__(self, md)] *)
Definition __call__ (md : Md) : result Md :=
  let md := Engine.block_register_rule "fold_block" md in
  index <- Py.index (block_rules md) "block_quote" ;;
  let md :=
    if negb (index =? -1)
    then Engine.set_block_rules
           (Py.insert index "fold_block" (block_rules md)) md
    else Engine.set_block_rules (block_rules md ++ ["fold_block"]) md in
  Ok (if String.eqb (renderer_NAME md) "html"
      then Engine.renderer_register "fold_block" md else md).

End Fold.

(** ** Math: [mistunePluginMath] *)

Module Math.

(** [parse_block(self, block, m, state)], with [g2 = m.group(2)]. *)
Definition parse_block (g2 : string) (state : State) : token :=
  let text := g2 in
  Token "math_block" None (Some text) None.

(** [render_html_block(self, text)] *)
Definition render_html_block (text : string) : string :=
  Py.nl +++ "\[" +++ text +++ "\]" +++ Py.nl.

(** [parse_inline(self, inline, m, state)], with [g1 = m.group(1)]. *)
Definition parse_inline (g1 : string) (state : State) : inline_token :=
  let text := g1 in
  ("math_inline", [PStr text]).

(** [render_html_inline(self, text)] *)
Definition render_html_inline (text : string) : string :=
  "\(" +++ text +++ "\)".

(** [__call__(self, md)] *)
Definition __call__ (md : Md) : result Md :=
  let md := Engine.block_register_rule "math_block" md in
  let md := Engine.inline_register_rule "math_inline" md in
  let md := Engine.set_block_rules (block_rules md ++ ["math_block"]) md in
  let md := Engine.set_inline_rules (inline_rules md ++ ["math_inline"]) md in
  Ok (if String.eqb (renderer_NAME md) "html"
      then Engine.renderer_register "math_inline"
             (Engine.renderer_register "math_block" md)
      else md).

End Math.

(** ** Task lists: the registration of [mistunePluginTaskLists] *)

Module TaskListsPlugin.

(** [__call__(self, md)] *)
Definition __call__ (md : Md) : result Md :=
  let md := Engine.append_before_render_hook "task_lists_hook" md in
  Ok (if String.eqb (renderer_NAME md) "html"
      then Engine.renderer_register "task_list_item" md
      else if String.eqb (renderer_NAME md) "ast"
           then Engine.renderer_register "task_list_item" md
           else md).

End TaskListsPlugin.

(** ** Definitions the statements below compare the code with *)

(** Modelled from the spec: [unikey] of the engine, which is not part of this
    repository; keys are case- and whitespace-normalised.  It only stands in
    for the parameter [unikey] where a statement is evaluated. *)
Fixpoint words_from (cur s : string) : list string :=
  match s with
  | EmptyString => if String.eqb cur EmptyString then [] else [cur]
  | String c s' =>
      if Py.isspace c
      then (if String.eqb cur EmptyString then [] else [cur])
           ++ words_from EmptyString s'
      else words_from (cur +++ String c EmptyString) s'
  end.

Definition unikey (s : string) : string :=
  Py.lower (Py.join " " (words_from EmptyString s)).

(** The bijective base-26 numerals a, b, ..., z, aa, ab, ...: each is the
    successor of the one before, the empty numeral standing before a. *)
Module Bij26.

Definition next_letter (c : ascii) : ascii := ascii_of_nat (S (nat_of_ascii c)).

(** The successor on the letters read from the last to the first: a z
    turns into an a and carries. *)
Fixpoint inc_rev (ds : list ascii) : list ascii :=
  match ds with
  | [] => ["a"%char]
  | d :: ds' =>
      if Ascii.eqb d "z" then "a"%char :: inc_rev ds'
      else next_letter d :: ds'
  end.

Fixpoint nth_rev (n : nat) : list ascii :=
  match n with
  | O => []
  | S n' => inc_rev (nth_rev n')
  end.

(** The [n]-th numeral, counted from 1. *)
Definition numeral (n : nat) : string :=
  string_of_list_ascii (rev (nth_rev n)).

(** The number a numeral stands for: its letters are the digits 1 to 26 of
    a base-26 notation without zero. *)
Definition is_letter (c : ascii) : bool :=
  ((97 <=? nat_of_ascii c) && (nat_of_ascii c <=? 122))%nat.

Definition digit_value (c : ascii) : Z := Z.of_nat (nat_of_ascii c) - 96.

Fixpoint value_rev (ds : list ascii) : Z :=
  match ds with
  | [] => 0
  | d :: ds' => digit_value d + 26 * value_rev ds'
  end.

Definition value (s : string) : Z :=
  value_rev (rev (list_ascii_of_string s)).

Definition letters_only (s : string) : bool :=
  forallb is_letter (list_ascii_of_string s).

End Bij26.

(** The token trees the engine builds: a list item has its children and a
    non-empty params tuple. *)
Fixpoint well_formed (t : token) : bool :=
  match t with
  | Token ty ch _ pa =>
      (if String.eqb ty "list_item"
       then match ch, pa with
            | Some _, Some (_ :: _) => true
            | _, _ => false
            end
       else true)
      && match ch with
         | Some l => forallb well_formed l
         | None => true
         end
  end.

(** A reference key that no definition matches. *)
Definition unresolved (key : string) (state : State) : Prop :=
  match def_footnotes state with
  | None => True
  | Some d => Dict.mem key d = false
  end.

(** The inline tokens that are footnote references. *)
Definition is_ref (tok : inline_token) : bool :=
  String.eqb (fst tok) "footnote_ref".

(** A rendered reference marker shows the number [n]: its link text. *)
Definition shows_number (html : string) (n : Z) : Prop :=
  exists pre, html = pre +++ ">" +++ Py.str n +++ "</a></sup>".

(** The key and the back-references a footnote item carries. *)
Definition item_params (t : token) : option (string * list Z) :=
  match params t with
  | Some [PStr k; PInts refs] => Some (k, refs)
  | _ => None
  end.

(** The arrow of a back-link, as the page holds it. *)
Definition up_arrow : string :=
  "<i class=" +++ Py.dq +++ "fas fa-long-arrow-alt-up" +++ Py.dq +++ "></i>".

(** A back-link to the reference at position [r], with its label: an
    anchor to [#fnref-r] of class [footnote]. *)
Definition back_link (r : Z) (label : string) : string :=
  "<a href=" +++ Py.dq +++ "#fnref-" +++ Py.str r +++ Py.dq
  +++ " class=" +++ Py.dq +++ "footnote" +++ Py.dq +++ ">"
  +++ label +++ "</a>".

(** The single back-link of an item referenced once: an arrow, no letter. *)
Definition single_link (r : Z) : string :=
  "<a href=" +++ Py.dq +++ "#fnref-" +++ Py.str r +++ Py.dq
  +++ " class=" +++ Py.dq +++ "footnote" +++ Py.dq +++ ">"
  +++ up_arrow +++ "</a> ".

(** The back-links of an item referenced several times: one per reference,
    labelled by the first numerals of the letter sequence. *)
Definition lettered_links (refs : list Z) : list string :=
  map (fun p => back_link (fst p) (snd p))
      (combine refs (map Bij26.numeral (seq 1 (List.length refs)))).

(** The list item of a footnote with its back-links: they stand in front
    of the text, inside its paragraph when the text starts with one. *)
Definition item_with (back text key : string) : string :=
  let body := Py.rstrip text in
  "<li id=" +++ Py.dq +++ "fn-" +++ key +++ Py.dq +++ ">"
  +++ (if String.prefix "<p>" body
       then "<p>" +++ back +++ Py.drop 3 body
       else back +++ body)
  +++ "</li>" +++ Py.nl.

(** The references of a text whose key has a definition, in their order. *)
Definition resolved_refs (unikey : string -> string) (d : dict)
  (refs : list (string * string)) : list (string * string) :=
  filter (fun r => Py.mem (unikey (snd r)) (map fst d)) refs.

(** The key [key] is declared at position [n] of the definitions, counted
    from zero, and at no earlier one. *)
Definition declared_at (d : dict) (key : string) (n : nat) : Prop :=
  nth_error (map fst d) n = Some key /\
  forall m : nat, (m < n)%nat -> nth_error (map fst d) m <> Some key.

(** The text of the first definition of a document whose label
    normalises to [k]. *)
Fixpoint first_definition (unikey : string -> string)
  (defs : list (string * string)) (k : string) : option string :=
  match defs with
  | [] => None
  | (g2, g3) :: defs' =>
      if String.eqb (unikey g2) k then Some g3
      else first_definition unikey defs' k
  end.

(** The reading of the numbering that the code does not follow: the [k]-th
    reference that resolves shows the number [k]. *)
Definition numbered_by_occurrence (unikey : string -> string)
  (base_render : string -> string -> option (list pyval) -> string)
  (defs refs : list (string * string)) : Prop :=
  forall toks state,
    Footnotes.parse_document unikey defs refs = Ok (toks, state) ->
    forall (k : nat) (tok : inline_token),
      nth_error (filter is_ref toks) k = Some tok ->
      exists html,
        Footnotes.render_inline_token base_render tok = Ok html /\
        shows_number html (Z.of_nat k + 1).

(** The reading of the footnotes section that the code does not follow: an
    item for each definition that some reference names, and for no other. *)
Definition items_only_for_referenced (unikey : string -> string)
  (parse_text : string -> State -> list token)
  (defs refs : list (string * string)) : Prop :=
  forall toks state d fns,
    Footnotes.parse_document unikey defs refs = Ok (toks, state) ->
    def_footnotes state = Some d ->
    footnotes state = Some fns ->
    exists items,
      Footnotes.footnote_items parse_text (Dict.keys d) fns state = Ok items /\
      map item_params items =
      map (fun k => Some (k, Footnotes.refs_of fns k))
          (filter (fun k => Py.mem k fns) (Dict.keys d)).

(** The lookup table of the fancy-block families, as the spec words it. *)
Definition family_table : list (string * string) :=
  [ ("info", "primary"); ("blue", "primary");
    ("warning", "secondary"); ("yellow", "secondary");
    ("danger", "danger"); ("red", "danger");
    ("success", "success"); ("green", "success") ].

Definition table_class (family : string) : string :=
  match Dict.get family family_table with
  | Some v => "alert alert-" +++ v
  | None => "alert"
  end.

(** The reading of the empty fancy block that the code does not follow: the
    parse completes and the text it works on is the empty string. *)
Definition absent_body_is_empty
  (block_parse : string -> State -> list string -> list token)
  (rules : list string) (g3 : string) (state : State) : Prop :=
  exists tok,
    FancyBlocks.parse_fancy_block block_parse rules g3 None state = Ok tok /\
    text tok = Some EmptyString.

(** A registration that completes only on an engine whose rule list has the
    anchor rule, and raises [ValueError] on any other. *)
Definition needs_anchor (call : Md -> result Md) (rules : Md -> list string)
  (anchor : string) : Prop :=
  forall md : Md,
    (Py.mem anchor (rules md) = false -> call md = Raise ValueError) /\
    (forall md', call md = Ok md' -> Py.mem anchor (rules md) = true).

(** A registration that, when it completes, has put the new rule at the
    position of the anchor plus [offset], by the insert branch. *)
Definition inserts_at_anchor (call : Md -> result Md)
  (rules : Md -> list string) (anchor name : string) (offset : Z) : Prop :=
  forall md md' : Md,
    call md = Ok md' ->
    exists i, Py.index (rules md) anchor = Ok i /\ 0 <= i /\
              rules md' = Py.insert (i + offset) name (rules md).

(** The position of a rule in a rule list, as the engine tries them. *)
Definition tried_before (a b : string) (rules : list string) : Prop :=
  exists i j, Py.index rules a = Ok i /\ Py.index rules b = Ok j /\ i < j.

(** The texts of the tokens of a list. *)
Definition texts (l : list token) : list (option string) := map text l.

(** The last letter [_letter_from_index] writes for [num]. *)
Definition last_digit (num : Z) : ascii :=
  if 0 <? num mod 26
  then ascii_of_nat (96 + Z.to_nat (num mod 26)) else "z"%char.

(** ** Concrete inputs *)

Module Samples.

(** Stand-ins for the engine where a statement is evaluated: a body parser
    and a block parser that wrap the text they are given in one paragraph,
    an inline renderer that returns the text, and a renderer that writes a
    paragraph tag around paragraphs and passes the rest through. *)
Definition sample_parse_text (text0 : string) (_ : State) : list token :=
  [Token "paragraph" None (Some text0) None].

Definition sample_block_parse (text0 : string) (_ : State) (_ : list string)
  : list token :=
  [Token "paragraph" None (Some text0) None].

Definition sample_inline_render (text0 : string) : string := text0.

Definition sample_base_render (ty body : string) (_ : option (list pyval))
  : string :=
  if String.eqb ty "paragraph" then "<p>" +++ body +++ "</p>" +++ Py.nl
  else body.

(** An engine with rule lists that hold the names of the base rules. *)
Definition sample_md : Md :=
  mkMd [ "escape"; "inline_html"; "auto_link"; "std_link"; "ref_link";
         "ref_link2"; "asterisk_emphasis"; "underscore_emphasis"; "codespan";
         "linebreak" ]
       []
       [ "newline"; "thematic_break"; "fenced_code"; "indent_code";
         "block_quote"; "block_html"; "list_start"; "def_link";
         "axt_heading"; "setex_heading" ]
       [] "html" [] [] [].

(** Two definitions, declared as a then b. *)
Definition two_defs : list (string * string) :=
  [ ("a", "first" +++ Py.nl); ("b", "second" +++ Py.nl) ].

(** The text refers to b first and then to a. *)
Definition refs_b_then_a : list (string * string) :=
  [ ("[^b]", "b"); ("[^a]", "a") ].

(** The text refers to a only. *)
Definition refs_a_only : list (string * string) := [ ("[^a]", "a") ].

End Samples.

(** ** Definitions of the further statements *)

(** Every character of [s] satisfies [f]; [s] is empty or starts with a
    character that does not. *)
Fixpoint all_chars (f : ascii -> bool) (s : string) : bool :=
  match s with
  | EmptyString => true
  | String c s' => f c && all_chars f s'
  end.

Definition head_fails (f : ascii -> bool) (s : string) : bool :=
  match s with
  | EmptyString => true
  | String c _ => negb (f c)
  end.

(** A run of [n] blanks. *)
Fixpoint blanks (n : nat) : string :=
  match n with
  | O => EmptyString
  | S n' => String " " (blanks n')
  end.

(** A tree that holds a token of type [list_item] somewhere. *)
Fixpoint has_list_item (t : token) : bool :=
  match t with
  | Token ty ch _ _ =>
      String.eqb ty "list_item"
      || match ch with
         | Some l => existsb has_list_item l
         | None => false
         end
  end.

(** [t'] has the shape of [t]: the same children at every level, each node
    with the type and the params of its counterpart, or a [task_list_item]
    where the counterpart is a [list_item]. *)
Inductive same_shape : token -> token -> Prop :=
| same_shape_node (ty ty' : string) (ch ch' : option (list token))
    (tx tx' : option string) (pa pa' : option (list pyval)) :
    (ty' = ty /\ pa' = pa
     \/ ty = "list_item" /\ ty' = "task_list_item") ->
    same_children ch ch' ->
    same_shape (Token ty ch tx pa) (Token ty' ch' tx' pa')
with same_children : option (list token) -> option (list token) -> Prop :=
| same_children_none : same_children None None
| same_children_some (l l' : list token) :
    same_list l l' -> same_children (Some l) (Some l')
with same_list : list token -> list token -> Prop :=
| same_list_nil : same_list [] []
| same_list_cons (t t' : token) (l l' : list token) :
    same_shape t t' -> same_list l l' -> same_list (t :: l) (t' :: l').

(** The key a [footnote_ref] token carries. *)
Definition ref_key (tok : inline_token) : string :=
  match snd tok with
  | PStr k :: _ => k
  | _ => EmptyString
  end.

(** A text without a line feed. *)
Definition lf_free (s : string) : bool :=
  all_chars (fun c => negb (Ascii.eqb c (Py.chr 10))) s.

(** The lines of a text, as the multi-line flag of [re] sees them. *)
Definition lines_of (s : string) : list string :=
  Footnotes.split_lf EmptyString s.

(** The run of one repetition: characters of the class, within the bounds. *)
Definition run_of (it : Re.item) (cap : string) : Prop :=
  all_chars (Re.cls_match (Re.icls it)) cap = true /\
  (Re.imin it <= String.length cap)%nat /\
  match Re.imax it with
  | None => True
  | Some m => (String.length cap <= m)%nat
  end.

(** What [Footnotes.dedent] does to one line. *)
Definition dedent_line (n : nat) (line : string) : string :=
  if (n <=? Footnotes.leading_spaces line)%nat
  then Py.drop (Footnotes.leading_spaces line) line else line.

(** A line of a quoted block: blanks, the marker, then the content. *)
Definition quoted (marker : string) (p : nat * string) : string :=
  blanks (fst p) +++ marker +++ snd p.

(** A rule list without the two heading rules, the others in their order. *)
Definition without_headings (rules : list string) : list string :=
  filter (fun r => negb (Py.mem r ["axt_heading"; "setex_heading"])) rules.

(** The character tests of the header pattern. *)
Definition is_hash (c : ascii) : bool := Ascii.eqb c "#".
Definition is_lf (c : ascii) : bool := Ascii.eqb c (Py.chr 10).

(** A small letter a to z. *)
Definition is_small (c : ascii) : bool :=
  ((97 <=? nat_of_ascii c) && (nat_of_ascii c <=? 122))%nat.

(** [a] is the small letter [b] or its capital. *)
Definition same_letter (a b : ascii) : bool :=
  is_small b
  && (Ascii.eqb a b || (nat_of_ascii a + 32 =? nat_of_ascii b)%nat).

(** [w] is the word [k] of small letters, written in any case. *)
Fixpoint same_word (w k : string) : bool :=
  match w, k with
  | EmptyString, EmptyString => true
  | String a w', String b k' => same_letter a b && same_word w' k'
  | _, _ => false
  end.

(** The keyword of a match reads [k]: the word [k] in capitals, small
    letters or a mix of them, with white space before and after it. *)
Definition written_as (g3 k : string) : Prop :=
  exists ws1 w ws2 : string,
    g3 = ws1 +++ w +++ ws2 /\
    all_chars Py.isspace ws1 = true /\
    all_chars Py.isspace ws2 = true /\
    same_word w k = true.

(** ** Further concrete inputs *)

Module MoreSamples.

(** A list item whose paragraph starts with a checked marker, and the item
    the rewrite makes of it. *)
Definition marked_paragraph : token :=
  Token "paragraph" None (Some "[x] buy milk") None.

Definition marked_item : token :=
  Token "list_item" (Some [marked_paragraph]) None (Some [PInt 1]).

Definition rewritten_item : token :=
  Token "task_list_item" (Some [set_text marked_paragraph "buy milk"]) None
    (Some [PInt 1; PBool true]).

(** A list that holds the item, before and after the rewrite. *)
Definition marked_list : list token :=
  [Token "list" (Some [marked_item]) None (Some [PBool false; PNone])].

Definition rewritten_list : list token :=
  [Token "list" (Some [rewritten_item]) None (Some [PBool false; PNone])].

(** A paragraph outside any list. *)
Definition plain_tokens : list token :=
  [Token "paragraph" None (Some "[x] not an item") None].

(** Two references to the definition a, and the tokens they parse to. *)
Definition refs_a_twice : list (string * string) :=
  [ ("[^a]", "a"); ("[^a]", "a") ].

Definition first_ref : inline_token :=
  ("footnote_ref", [PStr "a"; PInt 1; PInt 1]).

Definition second_ref : inline_token :=
  ("footnote_ref", [PStr "a"; PInt 1; PInt 2]).

(** Two quoted lines: the second is indented and has a marker in its
    content. *)
Definition quoted_lines : list (nat * string) :=
  [ (0%nat, " hidden"); (2%nat, ">! deeper") ].

(** The block rules of the sample engine without the heading rules. *)
Definition rules_without_axt : list string :=
  [ "newline"; "thematic_break"; "fenced_code"; "indent_code";
    "block_quote"; "block_html"; "list_start"; "def_link";
    "setex_heading" ].

Definition rules_nested : list string :=
  [ "newline"; "thematic_break"; "fenced_code"; "indent_code";
    "block_quote"; "block_html"; "list_start"; "def_link" ].

End MoreSamples.

(** * Properties *)

(** ** Task lists *)

Module TaskListsFacts.
Import TaskLists.

(** The loop of [_rewrite_all_list_items], one token at a time. *)
Lemma rewrite_cons (tok : token) (rest : list token) :
  _rewrite_all_list_items (tok :: rest) =
  match visit tok with
  | Raise e => Raise e
  | Ok tok1 =>
      match children tok1 with
      | None =>
          match _rewrite_all_list_items rest with
          | Raise e => Raise e
          | Ok rest' => Ok (tok1 :: rest')
          end
      | Some ch =>
          match _rewrite_all_list_items ch with
          | Raise e => Raise e
          | Ok ch' =>
              match _rewrite_all_list_items rest with
              | Raise e => Raise e
              | Ok rest' => Ok (set_children tok1 ch' :: rest')
              end
          end
      end
  end.
Proof.
  match goal with |- _ = ?R => remember R as rhs eqn:E end.
  simp _rewrite_all_list_items.
  generalize (inspect (visit tok)). intros [r Hr]. rewrite Hr in E.
  destruct r as [tok1|e]; simp _rewrite_all_list_items; [|congruence].
  generalize (inspect (children tok1)). intros [c Hc]. rewrite Hc in E.
  destruct c as [ch|]; simp _rewrite_all_list_items.
  - destruct (_rewrite_all_list_items ch); simpl; [|congruence].
    destruct (_rewrite_all_list_items rest); simpl; congruence.
  - destruct (_rewrite_all_list_items rest); simpl; congruence.
Qed.

Lemma _rewrite_list_item_text (item item' : token) :
  _rewrite_list_item item = Ok item' -> text item' = text item.
Proof.
  unfold _rewrite_list_item.
  destruct (children item) as [[|fc rest]|]; try discriminate.
  - intros H; inversion H; reflexivity.
  - destruct (Re.match_ _ _).
    + destruct (params item) as [[|p0 ps]|]; try discriminate.
      intros H; inversion H; reflexivity.
    + intros H; inversion H; reflexivity.
Qed.

Lemma visit_text (tok tok' : token) :
  visit tok = Ok tok' -> text tok' = text tok.
Proof.
  unfold visit. destruct (String.eqb _ _).
  - apply _rewrite_list_item_text.
  - intros H; inversion H; reflexivity.
Qed.

(** The walk leaves the text of every token of the list it is given as it
    is: an item rewrite changes the text of a child, one level down. *)
Lemma rewrite_texts (tokens : list token) :
  forall tokens', _rewrite_all_list_items tokens = Ok tokens' ->
                  texts tokens' = texts tokens.
Proof.
  induction tokens as [|tok rest IH]; intros tokens' H.
  - simp _rewrite_all_list_items in H. inversion H; reflexivity.
  - rewrite rewrite_cons in H.
    destruct (visit tok) as [tok1|] eqn:Hv; [|discriminate].
    apply visit_text in Hv.
    destruct (children tok1) as [ch|].
    + destruct (_rewrite_all_list_items ch) as [ch'|]; [|discriminate].
      destruct (_rewrite_all_list_items rest) as [rest'|]; [|discriminate].
      inversion H; subst. simpl. rewrite (IH rest' eq_refl), <- Hv.
      reflexivity.
    + destruct (_rewrite_all_list_items rest) as [rest'|]; [|discriminate].
      inversion H; subst. simpl. rewrite (IH rest' eq_refl), Hv.
      reflexivity.
Qed.

(** A token the loop body has visited is left alone by a second visit, also
    after its children were replaced by children with the same texts. *)
Lemma visit_again (tok tok1 : token) :
  visit tok = Ok tok1 ->
  match children tok1 with
  | None => visit tok1 = Ok tok1
  | Some ch =>
      forall ch', texts ch' = texts ch ->
                  visit (set_children tok1 ch') = Ok (set_children tok1 ch')
  end.
Proof.
  unfold visit.
  destruct (String.eqb (type tok) "list_item") eqn:Hty.
  - unfold _rewrite_list_item.
    destruct tok as [ty [[|fc rest]|] tx pa]; simpl in *; try discriminate.
    + intros H; inversion H; subst; simpl.
      intros [|c ch'] Hch'; [|discriminate]. simpl. rewrite Hty. reflexivity.
    + destruct (Re.match_ TASK_LIST_ITEM
                  match text fc with Some t => t | None => EmptyString end)
        as [m|] eqn:Hm.
      * destruct pa as [[|p0 ps]|]; try discriminate.
        intros H; inversion H; subst; simpl. intros ch' _. reflexivity.
      * intros H; inversion H; subst; simpl.
        intros [|c ch'] Hch'; [discriminate|]. simpl. rewrite Hty.
        unfold _rewrite_list_item; simpl.
        inversion Hch' as [[Hc Hrest]]. rewrite Hc, Hm. reflexivity.
  - intros H; inversion H; subst.
    destruct (children tok1) as [ch|] eqn:Hch.
    + intros ch' _. simpl. rewrite Hty. reflexivity.
    + rewrite Hty. reflexivity.
Qed.

Lemma rewrite_fixed_aux (n : nat) :
  forall tokens tokens',
    (lsize tokens < n)%nat ->
    _rewrite_all_list_items tokens = Ok tokens' ->
    _rewrite_all_list_items tokens' = Ok tokens'.
Proof.
  induction n as [|n IH]; intros tokens tokens' Hn H; [lia|].
  destruct tokens as [|tok rest].
  - simp _rewrite_all_list_items in H. inversion H; subst.
    now simp _rewrite_all_list_items.
  - rewrite rewrite_cons in H.
    destruct (visit tok) as [tok1|] eqn:Hv; [|discriminate].
    pose proof (visit_size _ _ Hv) as Hsz.
    pose proof (visit_again _ _ Hv) as Hagain.
    pose proof (tsize_pos tok) as Hpos.
    unfold lsize in Hn; simpl in Hn.
    destruct (children tok1) as [ch|] eqn:Hch.
    + pose proof (children_size _ _ Hch) as Hlt.
      destruct (_rewrite_all_list_items ch) as [ch'|] eqn:Hc; [|discriminate].
      destruct (_rewrite_all_list_items rest) as [rest'|] eqn:Hr;
        [|discriminate].
      inversion H; subst; clear H.
      rewrite rewrite_cons, (Hagain ch' (rewrite_texts _ _ Hc)). simpl.
      rewrite (IH ch ch'), (IH rest rest'); auto; unfold lsize in *; lia.
    + destruct (_rewrite_all_list_items rest) as [rest'|] eqn:Hr;
        [|discriminate].
      inversion H; subst; clear H.
      rewrite rewrite_cons, Hagain, Hch, (IH rest rest'); auto.
      unfold lsize; lia.
Qed.

Lemma rewrite_fixed (tokens tokens' : list token) :
  _rewrite_all_list_items tokens = Ok tokens' ->
  _rewrite_all_list_items tokens' = Ok tokens'.
Proof. apply (rewrite_fixed_aux (S (lsize tokens))). lia. Qed.

(** A visit keeps a well-formed token well-formed, and does not raise. *)
Lemma visit_well_formed (tok : token) :
  well_formed tok = true ->
  exists tok1, visit tok = Ok tok1 /\ well_formed tok1 = true.
Proof.
  unfold visit. destruct tok as [ty ch tx pa]. simpl.
  destruct (String.eqb ty "list_item") eqn:Hty.
  - destruct ch as [ch|]; [|discriminate].
    destruct pa as [[|p0 ps]|]; try discriminate. simpl.
    intros Hch. unfold _rewrite_list_item. simpl.
    destruct ch as [|fc rest].
    + eexists. split; [reflexivity|]. simpl. rewrite Hty. reflexivity.
    + destruct (Re.match_ _ _) as [m|].
      * eexists. split; [reflexivity|]. simpl in *.
        destruct fc as [ty' ch' tx' pa']. exact Hch.
      * eexists. split; [reflexivity|]. simpl. rewrite Hty. exact Hch.
  - intros H. eexists. split; [reflexivity|]. simpl. rewrite Hty. exact H.
Qed.

Lemma well_formed_children (tok : token) (ch : list token) :
  well_formed tok = true -> children tok = Some ch ->
  forallb well_formed ch = true.
Proof.
  destruct tok as [ty c tx pa]. simpl. intros H Hc; subst.
  apply andb_true_iff in H. exact (proj2 H).
Qed.

(** On the trees of the engine the walk does not raise. *)
Lemma rewrite_total_aux (n : nat) :
  forall tokens,
    (lsize tokens < n)%nat ->
    forallb well_formed tokens = true ->
    exists tokens', _rewrite_all_list_items tokens = Ok tokens'.
Proof.
  induction n as [|n IH]; intros tokens Hn Hwf; [lia|].
  destruct tokens as [|tok rest].
  - exists []. now simp _rewrite_all_list_items.
  - simpl in Hwf. apply andb_true_iff in Hwf. destruct Hwf as [Htok Hrest].
    destruct (visit_well_formed tok Htok) as [tok1 [Hv Hwf1]].
    pose proof (visit_size _ _ Hv) as Hsz.
    pose proof (tsize_pos tok) as Hpos.
    unfold lsize in Hn; simpl in Hn.
    destruct (IH rest) as [rest' Hr]; [unfold lsize; lia | exact Hrest |].
    rewrite rewrite_cons, Hv.
    destruct (children tok1) as [ch|] eqn:Hch.
    + pose proof (children_size _ _ Hch) as Hlt.
      destruct (IH ch) as [ch' Hc];
        [ unfold lsize in *; lia
        | exact (well_formed_children _ _ Hwf1 Hch) |].
      rewrite Hc, Hr. eauto.
    + rewrite Hr. eauto.
Qed.

(** C6.  The task-list rewrite is idempotent: running
    [_rewrite_all_list_items] on the tree it returned gives that tree again
    (and a walk that raised has returned no tree to run on).  On the token
    trees of the engine the walk returns a tree. *)
Theorem rewrite_twice_is_once (tokens : list token) :
  bind (_rewrite_all_list_items tokens) _rewrite_all_list_items
  = _rewrite_all_list_items tokens /\
  (forallb well_formed tokens = true ->
   exists tokens',
     _rewrite_all_list_items tokens = Ok tokens' /\
     _rewrite_all_list_items tokens' = Ok tokens').
Proof.
  split.
  - destruct (_rewrite_all_list_items tokens) as [tokens'|e] eqn:H;
      [|reflexivity].
    simpl. exact (rewrite_fixed _ _ H).
  - intros Hwf.
    destruct (rewrite_total_aux (S (lsize tokens)) tokens) as [tokens' H];
      [lia | exact Hwf |].
    exists tokens'. split; [exact H | exact (rewrite_fixed _ _ H)].
Qed.

End TaskListsFacts.

(** ** Footnote letters *)

Module LetterFacts.
Import Footnotes.

Lemma lookup_letter (r : Z) :
  1 <= r <= 26 ->
  lookup r num2alphadict
  = Ok (String (ascii_of_nat (96 + Z.to_nat r)) EmptyString).
Proof.
  intros Hr.
  assert (Hk : exists k, r = Z.of_nat (S k) /\ (k < 26)%nat).
  { exists (Z.to_nat (r - 1)). split; lia. }
  destruct Hk as [k [-> Hk]].
  do 26 (destruct k as [|k]; [reflexivity|]). lia.
Qed.

Lemma last_letter_eq (outval : string) (num : Z) :
  last_letter outval num = Ok (outval +++ String (last_digit num) EmptyString).
Proof.
  unfold last_letter, last_digit.
  pose proof (Z.mod_pos_bound num 26 ltac:(lia)) as Hb.
  destruct (0 <? num mod 26) eqn:Hpos; [|reflexivity].
  apply Z.ltb_lt in Hpos.
  rewrite lookup_letter by lia. reflexivity.
Qed.

Lemma next_letter_of_nat (k : nat) :
  (k < 255)%nat -> Bij26.next_letter (ascii_of_nat k) = ascii_of_nat (S k).
Proof.
  intros Hk. unfold Bij26.next_letter.
  rewrite nat_ascii_embedding by lia. reflexivity.
Qed.

Lemma last_digit_not_z (num : Z) :
  0 < num mod 26 -> Ascii.eqb (last_digit num) "z" = false.
Proof.
  intros Hpos. unfold last_digit.
  pose proof (Z.mod_pos_bound num 26 ltac:(lia)) as Hb.
  destruct (0 <? num mod 26) eqn:E; [|apply Z.ltb_ge in E; lia].
  apply Ascii.eqb_neq. intros Heq.
  apply (f_equal nat_of_ascii) in Heq.
  rewrite nat_ascii_embedding in Heq by lia.
  change (nat_of_ascii "z") with 122%nat in Heq. lia.
Qed.

Lemma inc_rev_cons (d : ascii) (ds : list ascii) :
  Bij26.inc_rev (d :: ds) =
  if Ascii.eqb d "z" then "a"%char :: Bij26.inc_rev ds
  else Bij26.next_letter d :: ds.
Proof. reflexivity. Qed.

(** The letters of the [n]-th numeral, last first: the last letter of [n],
    then the letters of the numeral of [(n - 1) / 26]. *)
Lemma nth_rev_step (n : nat) :
  (1 <= n)%nat ->
  Bij26.nth_rev n =
  last_digit (Z.of_nat n)
    :: Bij26.nth_rev (Z.to_nat ((Z.of_nat n - 1) / 26)).
Proof.
  induction n as [|n IH]; [lia|]. intros _.
  destruct n as [|n]; [reflexivity|].
  change (Bij26.nth_rev (S (S n))) with (Bij26.inc_rev (Bij26.nth_rev (S n))).
  rewrite IH by lia. clear IH.
  set (i := Z.of_nat (S n)).
  assert (Hi : 1 <= i) by lia.
  replace (Z.of_nat (S (S n))) with (i + 1) by lia.
  replace (i + 1 - 1) with i by lia.
  pose proof (Z.mod_pos_bound i 26 ltac:(lia)) as Hb.
  rewrite inc_rev_cons.
  destruct (Z.eq_dec (i mod 26) 0) as [Hz|Hnz].
  - assert (Hd : last_digit i = "z"%char)
      by (unfold last_digit; rewrite Hz; reflexivity).
    rewrite Hd, Ascii.eqb_refl.
    assert (Hn : (i + 1) mod 26 = 1)
      by (Z.div_mod_to_equations; lia).
    assert (Hq : Z.to_nat (i / 26) = S (Z.to_nat ((i - 1) / 26)))
      by (Z.div_mod_to_equations; lia).
    rewrite Hq. unfold last_digit at 1. rewrite Hn. reflexivity.
  - rewrite last_digit_not_z by lia.
    assert (Hq : i / 26 = (i - 1) / 26) by (Z.div_mod_to_equations; lia).
    rewrite Hq. f_equal.
    unfold last_digit.
    destruct (0 <? i mod 26) eqn:E; [|apply Z.ltb_ge in E; lia].
    rewrite next_letter_of_nat by lia.
    destruct (Z.eq_dec (i mod 26) 25) as [H25|H25].
    + assert (Hn : (i + 1) mod 26 = 0) by (Z.div_mod_to_equations; lia).
      rewrite Hn, H25. reflexivity.
    + assert (Hn : (i + 1) mod 26 = i mod 26 + 1)
        by (Z.div_mod_to_equations; lia).
      rewrite Hn.
      destruct (0 <? i mod 26 + 1) eqn:E'; [|apply Z.ltb_ge in E'; lia].
      f_equal. lia.
Qed.

Lemma string_of_list_app (l1 l2 : list ascii) :
  string_of_list_ascii (l1 ++ l2) =
  string_of_list_ascii l1 +++ string_of_list_ascii l2.
Proof. induction l1 as [|c l1 IH]; simpl; [|rewrite IH]; reflexivity. Qed.

Lemma numeral_snoc (n : nat) :
  (1 <= n)%nat ->
  Bij26.numeral n =
  Bij26.numeral (Z.to_nat ((Z.of_nat n - 1) / 26))
  +++ String (last_digit (Z.of_nat n)) EmptyString.
Proof.
  intros Hn. unfold Bij26.numeral. rewrite (nth_rev_step n Hn). simpl rev.
  rewrite string_of_list_app. reflexivity.
Qed.

Lemma letter_from_index_numeral_aux (n : nat) :
  forall num, 1 <= num -> (Z.to_nat num < n)%nat ->
              _letter_from_index num = Ok (Bij26.numeral (Z.to_nat num)).
Proof.
  induction n as [|n IH]; intros num Hnum Hn; [lia|].
  rewrite (numeral_snoc (Z.to_nat num)) by lia.
  rewrite Z2Nat.id by lia.
  simp _letter_from_index.
  destruct (Z_lt_dec 0 ((num - 1) / 26)) as [Hq|Hq]; simpl.
  - rewrite IH; [| lia | Z.div_mod_to_equations; lia ]. simpl.
    apply last_letter_eq.
  - assert (Hz : (num - 1) / 26 = 0) by (Z.div_mod_to_equations; lia).
    rewrite Hz. apply last_letter_eq.
Qed.

(** The successor adds one to the value and keeps the digits letters. *)
Lemma inc_rev_value (ds : list ascii) :
  forallb Bij26.is_letter ds = true ->
  forallb Bij26.is_letter (Bij26.inc_rev ds) = true /\
  Bij26.value_rev (Bij26.inc_rev ds) = Bij26.value_rev ds + 1.
Proof.
  induction ds as [|d ds IH]; [intros _; split; reflexivity|].
  intros H. simpl in H. apply andb_true_iff in H. destruct H as [Hd Hds].
  rewrite inc_rev_cons. destruct (Ascii.eqb_spec d "z") as [->|Hz].
  - destruct (IH Hds) as [Hl Hv]. split.
    + simpl. exact Hl.
    + cbn [Bij26.value_rev]. rewrite Hv.
      change (Bij26.digit_value "a") with 1.
      change (Bij26.digit_value "z") with 26. lia.
  - unfold Bij26.is_letter in Hd. apply andb_true_iff in Hd.
    destruct Hd as [Hlo Hhi].
    apply Nat.leb_le in Hlo. apply Nat.leb_le in Hhi.
    assert (Hne : nat_of_ascii d <> 122%nat).
    { intros E. apply Hz. rewrite <- (ascii_nat_embedding d), E. reflexivity. }
    assert (Hn : nat_of_ascii (Bij26.next_letter d) = S (nat_of_ascii d))
      by (unfold Bij26.next_letter; apply nat_ascii_embedding; lia).
    split.
    + simpl. rewrite Hds, andb_true_r. unfold Bij26.is_letter. rewrite Hn.
      apply andb_true_iff. split; apply Nat.leb_le; lia.
    + cbn [Bij26.value_rev]. unfold Bij26.digit_value. rewrite Hn. lia.
Qed.

Lemma nth_rev_value (n : nat) :
  forallb Bij26.is_letter (Bij26.nth_rev n) = true /\
  Bij26.value_rev (Bij26.nth_rev n) = Z.of_nat n.
Proof.
  induction n as [|n [Hl Hv]]; [split; reflexivity|].
  change (Bij26.nth_rev (S n)) with (Bij26.inc_rev (Bij26.nth_rev n)).
  destruct (inc_rev_value _ Hl) as [Hl' Hv']. split; [exact Hl'|]. lia.
Qed.

(** The [n]-th numeral is written with the letters a to z and stands for
    [n]. *)
Lemma numeral_value (n : nat) :
  Bij26.letters_only (Bij26.numeral n) = true /\
  Bij26.value (Bij26.numeral n) = Z.of_nat n.
Proof.
  unfold Bij26.letters_only, Bij26.value, Bij26.numeral.
  rewrite list_ascii_of_string_of_list_ascii, rev_involutive.
  destruct (nth_rev_value n) as [Hl Hv]. split; [|exact Hv].
  rewrite forallb_forall in *. intros c Hc. apply Hl.
  apply in_rev. exact Hc.
Qed.

Lemma letter_from_index_numeral (num : Z) :
  1 <= num -> _letter_from_index num = Ok (Bij26.numeral (Z.to_nat num)).
Proof.
  intros H. apply (letter_from_index_numeral_aux (S (Z.to_nat num))); lia.
Qed.

(** The loop over [enumerate(refs)] labels the references with the numerals
    in their order. *)
Lemma ref_list_of_from (refs : list Z) :
  forall i, 0 <= i ->
    ref_list_of (Py.enumerate_from i refs) =
    Ok (map (fun p => ref_link (fst p) (snd p))
          (combine refs
             (map Bij26.numeral (seq (S (Z.to_nat i)) (List.length refs))))).
Proof.
  induction refs as [|r refs IH]; intros i Hi; [reflexivity|].
  simpl. rewrite letter_from_index_numeral by lia. simpl.
  rewrite IH by lia. simpl.
  replace (Z.to_nat (i + 1)) with (S (Z.to_nat i)) by lia. reflexivity.
Qed.

Lemma refs_of_from_length (fns : list string) (k : string) :
  forall i,
    List.length (filter (fun p => String.eqb (snd p) k)
                   (Py.enumerate_from i fns))
    = count_occ string_dec fns k.
Proof.
  induction fns as [|x fns IH]; intros i; [reflexivity|].
  simpl. destruct (string_dec x k) as [->|Hne].
  - rewrite String.eqb_refl. simpl. rewrite IH. reflexivity.
  - apply String.eqb_neq in Hne. rewrite Hne. apply IH.
Qed.

Lemma nth_combine_seq (refs : list Z) :
  forall (s n : nat) (r : Z),
    nth_error refs n = Some r ->
    nth_error (combine refs (map Bij26.numeral (seq s (List.length refs)))) n
    = Some (r, Bij26.numeral (s + n)).
Proof.
  induction refs as [|x refs IH]; intros s n r Hn; [destruct n; discriminate|].
  destruct n as [|n]; simpl in *.
  - inversion Hn; subst. rewrite Nat.add_0_r. reflexivity.
  - rewrite (IH (S s) n r Hn), Nat.add_succ_r. reflexivity.
Qed.

(** C3.  [_letter_from_index i] is the [i]-th bijective base-26 numeral for
    every [i >= 1]: the [i]-th term of the sequence a, b, ..., z, aa, ab, ...,
    which is written with the letters a to z and stands for [i].  The list
    item rendered for a footnote that is referenced once holds one
    back-link, an anchor to the reference around an arrow and without a
    letter; the item of a footnote referenced several times holds the arrow
    and then one anchor per reference, each to its reference and labelled
    with the numerals a, b, c, ... in order.  The back-links stand in front
    of the text of the item, inside its paragraph when it starts with one.
    The references an item carries are as many as the references to its
    key. *)
Theorem footnote_item_back_links :
  (forall i : Z, 1 <= i ->
      _letter_from_index i = Ok (Bij26.numeral (Z.to_nat i)) /\
      Bij26.letters_only (Bij26.numeral (Z.to_nat i)) = true /\
      Bij26.value (Bij26.numeral (Z.to_nat i)) = i) /\
  (forall (text key : string) (r : Z),
      render_html_footnote_item text key [r] =
      Ok (item_with (single_link r) text key)) /\
  (forall (text key : string) (r1 r2 : Z) (refs : list Z),
      render_html_footnote_item text key (r1 :: r2 :: refs) =
      Ok (item_with
            (up_arrow +++ " "
             +++ Py.join ", " (lettered_links (r1 :: r2 :: refs)) +++ " ")
            text key)) /\
  (forall refs : list Z,
      List.length (lettered_links refs) = List.length refs /\
      forall (n : nat) (r : Z),
        nth_error refs n = Some r ->
        nth_error (lettered_links refs) n
        = Some (back_link r (Bij26.numeral (S n)))) /\
  (forall (fns : list string) (k : string),
      List.length (refs_of fns k) = count_occ string_dec fns k).
Proof.
  split.
  { intros i Hi. split; [exact (letter_from_index_numeral i Hi)|].
    destruct (numeral_value (Z.to_nat i)) as [Hl Hv].
    split; [exact Hl | lia]. }
  split; [reflexivity|].
  split.
  { intros text key r1 r2 refs.
    unfold render_html_footnote_item, back_links, Py.enumerate.
    rewrite ref_list_of_from by lia. reflexivity. }
  split.
  { intros refs. unfold lettered_links. split.
    - rewrite length_map, length_combine, length_map, length_seq. lia.
    - intros n r Hn.
      rewrite nth_error_map, (nth_combine_seq refs 1 n r Hn). reflexivity. }
  intros fns k. unfold refs_of, Py.enumerate.
  rewrite length_map. apply refs_of_from_length.
Qed.

End LetterFacts.

(** ** Lists and dicts *)

Module ListFacts.

Lemma index_range (l : list string) (x : string) (i : Z) :
  Py.index l x = Ok i -> 0 <= i < Z.of_nat (List.length l).
Proof.
  revert i. induction l as [|y l IH]; intros i; simpl; [discriminate|].
  destruct (String.eqb y x).
  - intros H; inversion H; lia.
  - destruct (Py.index l x) as [j|]; simpl; [|discriminate].
    intros H; inversion H; subst. specialize (IH j eq_refl). lia.
Qed.

Lemma index_mem (l : list string) (x : string) :
  Py.mem x l = true -> exists i, Py.index l x = Ok i.
Proof.
  unfold Py.mem. induction l as [|y l IH]; simpl; [discriminate|].
  rewrite (String.eqb_sym x y).
  destruct (String.eqb y x); simpl.
  - intros _. exists 0. reflexivity.
  - intros H. destruct (IH H) as [i Hi]. exists (i + 1).
    rewrite Hi. reflexivity.
Qed.

Lemma index_not_mem (l : list string) (x : string) :
  Py.mem x l = false -> Py.index l x = Raise ValueError.
Proof.
  unfold Py.mem. induction l as [|y l IH]; simpl; [reflexivity|].
  rewrite (String.eqb_sym x y).
  destruct (String.eqb y x); simpl; [discriminate|].
  intros H. rewrite (IH H). reflexivity.
Qed.

Lemma index_ok_mem (l : list string) (x : string) (i : Z) :
  Py.index l x = Ok i -> Py.mem x l = true.
Proof.
  intros H. destruct (Py.mem x l) eqn:E; [reflexivity|].
  rewrite (index_not_mem _ _ E) in H. discriminate.
Qed.

Lemma set_absent (k v : string) (d : dict) :
  Dict.mem k d = false -> Dict.set k v d = d ++ [(k, v)].
Proof.
  unfold Dict.mem, Py.mem, Dict.keys.
  induction d as [|[k' v'] d IH]; simpl; [reflexivity|].
  rewrite (String.eqb_sym k k').
  destruct (String.eqb k' k); simpl; [discriminate|].
  intros H. rewrite (IH H). reflexivity.
Qed.

Lemma get_app_absent (k : string) (d d' : dict) :
  Dict.mem k d = false -> Dict.get k (d ++ d') = Dict.get k d'.
Proof.
  unfold Dict.mem, Py.mem, Dict.keys.
  induction d as [|[k' v'] d IH]; simpl; [reflexivity|].
  rewrite (String.eqb_sym k k').
  destruct (String.eqb k' k); simpl; [discriminate|]. exact IH.
Qed.

Lemma get_app_present (k : string) (d d' : dict) :
  Dict.mem k d = true -> Dict.get k (d ++ d') = Dict.get k d.
Proof.
  unfold Dict.mem, Py.mem, Dict.keys.
  induction d as [|[k' v'] d IH]; simpl; [discriminate|].
  rewrite (String.eqb_sym k k').
  destruct (String.eqb k' k); simpl; [reflexivity|]. exact IH.
Qed.

End ListFacts.

(** ** Strings *)

Module StringFacts.

Lemma append_assoc (a b c : string) : (a +++ b) +++ c = a +++ b +++ c.
Proof. induction a as [|x a IH]; simpl; [|rewrite IH]; reflexivity. Qed.

Lemma append_empty_r (a : string) : a +++ EmptyString = a.
Proof. induction a as [|x a IH]; simpl; [|rewrite IH]; reflexivity. Qed.

Lemma length_append (a b : string) :
  String.length (a +++ b) = (String.length a + String.length b)%nat.
Proof. induction a as [|x a IH]; simpl; [|rewrite IH]; reflexivity. Qed.

Lemma drop_length_append (a b : string) :
  Py.drop (String.length a) (a +++ b) = b.
Proof.
  induction a as [|x a IH]; simpl; [destruct b; reflexivity | exact IH].
Qed.

(** A string is told from any other with a different ending of the same
    length. *)
Lemma ends_differ (s pre tail1 tail2 : string) (n : nat) :
  String.length s = (n + String.length tail1)%nat ->
  String.length tail2 = String.length tail1 ->
  Py.drop n s = tail1 ->
  tail1 <> tail2 ->
  s <> pre +++ tail2.
Proof.
  intros Hlen Hlen2 Hdrop Hneq Heq. apply Hneq.
  assert (Hpre : String.length pre = n).
  { apply (f_equal String.length) in Heq. rewrite length_append in Heq. lia. }
  rewrite <- Hdrop, Heq, <- Hpre. apply drop_length_append.
Qed.

End StringFacts.

(** ** Footnotes *)

Module FootnoteFacts.
Import Footnotes ListFacts.

Section Parsing.

Variable unikey : string -> string.
Variable parse_text : string -> State -> list token.
Variable inline_render : string -> string.
Variable base_render : string -> string -> option (list pyval) -> string.

Lemma parse_inline_footnote_unresolved (g0 g1 : string) (state : State) :
  unresolved (unikey g1) state ->
  parse_inline_footnote unikey g0 g1 state = Ok (("text", [PStr g0]), state).
Proof.
  unfold unresolved, parse_inline_footnote.
  destruct (def_footnotes state) as [d|]; [|reflexivity].
  intros ->. rewrite orb_true_r. reflexivity.
Qed.

(** What a reference that resolves returns and writes. *)
Lemma parse_inline_footnote_resolved (g0 g1 : string) (d : dict)
  (fs : list string) (ix : option Z) :
  Dict.mem (unikey g1) d = true ->
  exists i,
    Py.index (Dict.keys d) (unikey g1) = Ok i /\
    parse_inline_footnote unikey g0 g1 (mkState (Some d) (Some fs) ix) =
    let index := match ix with Some n => n | None => 0 end + 1 in
    Ok (("footnote_ref", [PStr (unikey g1); PInt (i + 1); PInt index]),
        mkState (Some d) (Some (fs ++ [unikey g1])) (Some index)).
Proof.
  intros Hmem. destruct (index_mem _ _ Hmem) as [i Hi]. exists i.
  split; [exact Hi|].
  unfold parse_inline_footnote; simpl. rewrite Hmem. simpl.
  destruct d as [|e d]; [discriminate|]. simpl orb. cbv iota.
  rewrite Hi. reflexivity.
Qed.

(** A reference that returns plain text leaves the state as it was. *)
Lemma parse_inline_footnote_text (g0 g1 : string) (state state' : State)
  (tok : inline_token) :
  parse_inline_footnote unikey g0 g1 state = Ok (tok, state') ->
  is_ref tok = false -> state' = state.
Proof.
  unfold parse_inline_footnote.
  destruct (def_footnotes state) as [d|]; [|intros H; inversion H; reflexivity].
  destruct (_ || _); [intros H; inversion H; reflexivity|].
  destruct (footnotes _) as [fs|]; [|discriminate].
  destruct (Py.index _ _) as [i|]; [|discriminate]. simpl.
  intros H; inversion H; subst. discriminate.
Qed.

Lemma parse_refs_all_text (refs : list (string * string)) :
  forall state toks state',
    parse_refs unikey refs state = Ok (toks, state') ->
    forallb (fun t => negb (is_ref t)) toks = true ->
    state' = state.
Proof.
  induction refs as [|[g0 g1] refs IH]; intros state toks state' H Hall.
  - inversion H; reflexivity.
  - simpl in H.
    destruct (parse_inline_footnote unikey g0 g1 state) as [[tok st1]|] eqn:E;
      [|discriminate]. simpl in H.
    destruct (parse_refs unikey refs st1) as [[toks1 st2]|] eqn:E2;
      [|discriminate]. simpl in H. inversion H; subst; clear H.
    simpl in Hall. apply andb_true_iff in Hall. destruct Hall as [Ht Hall].
    apply negb_true_iff in Ht.
    rewrite <- (parse_inline_footnote_text _ _ _ _ _ E Ht).
    exact (IH _ _ _ E2 Hall).
Qed.

(** With the state's list of references in place, parsing references never
    raises, and it keeps the definitions. *)
Lemma parse_refs_total (refs : list (string * string)) :
  forall (d : dict) (fs : list string) (ix : option Z),
  exists toks fs' ix',
    parse_refs unikey refs (mkState (Some d) (Some fs) ix) =
    Ok (toks, mkState (Some d) (Some fs') ix').
Proof.
  induction refs as [|[g0 g1] refs IH]; intros d fs ix.
  - exists [], fs, ix. reflexivity.
  - simpl. destruct (Dict.mem (unikey g1) d) eqn:Hmem.
    + destruct (parse_inline_footnote_resolved g0 g1 d fs ix Hmem)
        as [i [_ ->]]. simpl.
      destruct (IH d (fs ++ [unikey g1])
                  (Some (match ix with Some n => n | None => 0 end + 1)))
        as [toks [fs' [ix' ->]]]. simpl. eauto.
    + rewrite parse_inline_footnote_unresolved by exact Hmem. simpl.
      destruct (IH d fs ix) as [toks [fs' [ix' ->]]]. simpl. eauto.
Qed.

Ltac same_counter :=
  simpl;
  match goal with
  | |- (_, [_; _; PInt ?a]) = (_, [_; _; PInt ?b]) =>
      replace a with b by lia; reflexivity
  end.

(** The [k]-th reference that resolves carries the counter value: [k] more
    than the counter the parse started from; and its footnote number is one
    more than the position of its key among the definitions. *)
Lemma parse_refs_numbering (refs : list (string * string)) :
  forall (d : dict) (fs : list string) (ix : option Z) toks state',
    parse_refs unikey refs (mkState (Some d) (Some fs) ix)
    = Ok (toks, state') ->
    forall (k : nat) (tok : inline_token),
      nth_error (filter is_ref toks) k = Some tok ->
      exists key i,
        Py.index (Dict.keys d) key = Ok i /\
        tok = ("footnote_ref",
               [PStr key; PInt (i + 1);
                PInt (match ix with Some n => n | None => 0 end
                      + Z.of_nat k + 1)]).
Proof.
  induction refs as [|[g0 g1] refs IH]; intros d fs ix toks state' H k tok Hk.
  - inversion H; subst. destruct k; discriminate.
  - simpl in H. destruct (Dict.mem (unikey g1) d) eqn:Hmem.
    + destruct (parse_inline_footnote_resolved g0 g1 d fs ix Hmem)
        as [i [Hi E]]. rewrite E in H. simpl in H.
      destruct (parse_refs unikey refs _) as [[toks1 st2]|] eqn:E2;
        [|discriminate]. simpl in H. inversion H; subst; clear H.
      simpl in Hk. destruct k as [|k].
      * inversion Hk; subst. exists (unikey g1), i. split; [exact Hi|].
        same_counter.
      * simpl in Hk. destruct (IH _ _ _ _ _ E2 k tok Hk) as [key [j [Hj ->]]].
        exists key, j. split; [exact Hj|]. same_counter.
    + rewrite parse_inline_footnote_unresolved in H by exact Hmem.
      simpl in H.
      destruct (parse_refs unikey refs _) as [[toks1 st2]|] eqn:E2;
        [|discriminate]. simpl in H. inversion H; subst; clear H.
      simpl in Hk. exact (IH _ _ _ _ _ E2 k tok Hk).
Qed.

(** [render_html_footnote_ref] writes its second argument as the link
    text of the marker. *)
Lemma render_html_footnote_ref_shows (key : string) (index fn : Z) :
  shows_number (render_html_footnote_ref key index fn) index.
Proof.
  unfold shows_number, render_html_footnote_ref.
  exists (("<sup class=" +++ Py.dq +++ "footnote-ref" +++ Py.dq
           +++ " id=" +++ Py.dq +++ "fnref-" +++ Py.str index +++ Py.dq +++ ">")
          +++ "<a href=" +++ Py.dq +++ "#fn-" +++ Py.str index +++ Py.dq).
  repeat rewrite StringFacts.append_assoc. reflexivity.
Qed.

(** The position [list.index] returns is the first one of the name. *)
Lemma index_declared (d : dict) (key : string) (i : Z) :
  Py.index (Dict.keys d) key = Ok i ->
  exists n : nat, i = Z.of_nat n /\ declared_at d key n.
Proof.
  unfold declared_at, Dict.keys. revert i.
  induction (map fst d) as [|y l IH]; intros i; simpl; [discriminate|].
  destruct (String.eqb_spec y key) as [-> | Hy].
  - intros H; inversion H; subst. exists 0%nat.
    split; [reflexivity|]. split; [reflexivity|]. intros m Hm. lia.
  - destruct (Py.index l key) as [j|]; simpl; [|discriminate].
    intros H; inversion H; subst; clear H.
    destruct (IH j eq_refl) as [n [-> [Hn Hfirst]]].
    exists (S n). split; [lia|]. split; [exact Hn|].
    intros [|m] Hm; simpl; [congruence | apply Hfirst; lia].
Qed.

(** The references that resolve, one by one: the [k]-th of them returns
    the token of its own key, with the position of that key among the
    definitions and the counter value; and the keys of all of them are what
    the parse appends to the list of references. *)
Lemma parse_refs_resolved (refs : list (string * string)) :
  forall (d : dict) (fs : list string) (ix : option Z) toks state',
    parse_refs unikey refs (mkState (Some d) (Some fs) ix)
    = Ok (toks, state') ->
    List.length (filter is_ref toks)
    = List.length (resolved_refs unikey d refs) /\
    (forall (k : nat) (g0 g1 : string),
        nth_error (resolved_refs unikey d refs) k = Some (g0, g1) ->
        exists i,
          Py.index (Dict.keys d) (unikey g1) = Ok i /\
          nth_error (filter is_ref toks) k
          = Some ("footnote_ref",
                  [PStr (unikey g1); PInt (i + 1);
                   PInt (match ix with Some n => n | None => 0 end
                         + Z.of_nat k + 1)])) /\
    footnotes state'
    = Some (fs ++ map (fun r => unikey (snd r))
                    (resolved_refs unikey d refs)).
Proof.
  induction refs as [|[g0 g1] refs IH]; intros d fs ix toks state' H.
  - inversion H; subst. simpl. rewrite app_nil_r.
    split; [reflexivity|]. split; [|reflexivity].
    intros [|k] g0 g1 Hk; discriminate.
  - simpl in H. unfold resolved_refs. simpl filter.
    fold (resolved_refs unikey d refs).
    change (Py.mem (unikey g1) (map fst d)) with (Dict.mem (unikey g1) d).
    destruct (Dict.mem (unikey g1) d) eqn:Hmem.
    + destruct (parse_inline_footnote_resolved g0 g1 d fs ix Hmem)
        as [i [Hi E]]. rewrite E in H. simpl in H.
      destruct (parse_refs unikey refs _) as [[toks1 st2]|] eqn:E2;
        [|discriminate]. simpl in H. inversion H; subst; clear H.
      destruct (IH _ _ _ _ _ E2) as [Hlen [Hnth Hfs]].
      simpl. split; [rewrite Hlen; reflexivity|]. split.
      * intros [|k] h0 h1 Hk; simpl in Hk.
        -- inversion Hk; subst. exists i. split; [exact Hi|].
           simpl. rewrite Z.add_0_r. reflexivity.
        -- destruct (Hnth k h0 h1 Hk) as [j [Hj Hk']].
           exists j. split; [exact Hj|]. simpl. rewrite Hk'.
           do 4 f_equal. f_equal. f_equal. lia.
      * rewrite Hfs, <- app_assoc. reflexivity.
    + rewrite parse_inline_footnote_unresolved in H by exact Hmem.
      simpl in H.
      destruct (parse_refs unikey refs _) as [[toks1 st2]|] eqn:E2;
        [|discriminate]. simpl in H. inversion H; subst; clear H.
      simpl. exact (IH _ _ _ _ _ E2).
Qed.

(** C1 (as amended).  Parsing the references of a document never raises.
    The references that resolve are the references whose key has a
    definition, and each of them returns one [footnote_ref] token, in
    order.  The [k]-th of them returns the token of its own key, whose last
    component is the counter value [k] and whose footnote number is one
    more than the position at which that key is first declared among the
    definitions; the rendered marker shows that footnote number, so the
    markers are numbered by the order of the definitions. *)
Theorem reference_marker_numbers (refs : list (string * string)) (d : dict) :
  exists toks fs ix,
    parse_refs unikey refs (mkState (Some d) (Some []) None) =
    Ok (toks, mkState (Some d) (Some fs) ix) /\
    List.length (filter is_ref toks)
    = List.length (resolved_refs unikey d refs) /\
    forall (k : nat) (g0 g1 : string),
      nth_error (resolved_refs unikey d refs) k = Some (g0, g1) ->
      exists (n : nat) (html : string),
        declared_at d (unikey g1) n /\
        nth_error (filter is_ref toks) k
        = Some ("footnote_ref",
                [PStr (unikey g1); PInt (Z.of_nat n + 1);
                 PInt (Z.of_nat k + 1)]) /\
        render_inline_token base_render
          ("footnote_ref",
           [PStr (unikey g1); PInt (Z.of_nat n + 1); PInt (Z.of_nat k + 1)])
        = Ok html /\
        shows_number html (Z.of_nat n + 1).
Proof.
  destruct (parse_refs_total refs d [] None) as [toks [fs [ix H]]].
  exists toks, fs, ix. split; [exact H|].
  destruct (parse_refs_resolved refs _ _ _ _ _ H) as [Hlen [Hnth _]].
  split; [exact Hlen|].
  intros k g0 g1 Hk.
  destruct (Hnth k g0 g1 Hk) as [i [Hi Htok]].
  destruct (index_declared d (unikey g1) i Hi) as [n [-> Hn]].
  exists n,
    (render_html_footnote_ref (unikey g1) (Z.of_nat n + 1)
       (Z.of_nat k + 1)).
  split; [exact Hn|]. split; [exact Htok|]. split; [reflexivity|].
  apply render_html_footnote_ref_shows.
Qed.

(** C4.  A reference whose normalised key matches no definition is returned
    as a text node holding the matched source, and the state is returned as
    it was: no exception, no [footnote_ref], counter and reference list
    untouched.  When no reference of the document resolved, the
    after-render hook returns the rendered result as it is. *)
Theorem unresolved_reference_stays_text :
  (forall (g0 g1 : string) (state : State),
      unresolved (unikey g1) state ->
      parse_inline_footnote unikey g0 g1 state =
      Ok (("text", [PStr g0]), state)) /\
  (forall (refs : list (string * string)) (state state' : State)
          (toks : list inline_token) (result0 : string),
      footnotes state = None \/ footnotes state = Some [] ->
      parse_refs unikey refs state = Ok (toks, state') ->
      forallb (fun t => negb (is_ref t)) toks = true ->
      state' = state /\
      md_footnotes_hook parse_text inline_render base_render result0 state'
      = Ok result0).
Proof.
  split.
  - exact parse_inline_footnote_unresolved.
  - intros refs state state' toks result0 Hfs H Hall.
    pose proof (parse_refs_all_text refs _ _ _ H Hall) as ->.
    split; [reflexivity|].
    unfold md_footnotes_hook. destruct Hfs as [-> | ->]; reflexivity.
Qed.

Lemma mem_false_not_in (k : string) (l : list string) :
  Py.mem k l = false -> ~ In k l.
Proof.
  unfold Py.mem. induction l as [|x l IH]; simpl; [auto|].
  intros H. apply orb_false_iff in H. destruct H as [Hx Hl].
  intros [E | E]; [|exact (IH Hl E)].
  subst. rewrite String.eqb_refl in Hx. discriminate.
Qed.

Lemma nodup_snoc (k : string) (l : list string) :
  NoDup l -> ~ In k l -> NoDup (l ++ [k]).
Proof.
  induction l as [|x l IH]; simpl; intros Hl Hk.
  - constructor; [auto | constructor].
  - inversion Hl; subst. constructor.
    + rewrite in_app_iff. simpl. intros [E | [E | []]]; [auto|].
      apply Hk. left. symmetry. exact E.
    + apply IH; [assumption|]. intros E. apply Hk. right. exact E.
Qed.

(** The definitions stay a dict: parsing definitions never stores a key
    twice. *)
Lemma parse_defs_nodup (defs : list (string * string)) :
  forall (d : dict) (fs : option (list string)) (ix : option Z),
    NoDup (Dict.keys d) ->
    exists d',
      parse_defs unikey defs (mkState (Some d) fs ix)
      = Ok (mkState (Some d') fs ix) /\
      NoDup (Dict.keys d').
Proof.
  induction defs as [|[g2 g3] defs IH]; intros d fs ix Hd.
  - exists d. split; [reflexivity | exact Hd].
  - simpl. unfold parse_def_footnote at 1. simpl.
    destruct (Dict.mem (unikey g2) d) eqn:Hmem; simpl.
    + apply IH. exact Hd.
    + rewrite set_absent by exact Hmem. apply IH.
      unfold Dict.keys. rewrite map_app. simpl.
      apply nodup_snoc; [exact Hd|].
      apply mem_false_not_in. exact Hmem.
Qed.

(** C10.  [parse_def_footnote] on a state that has the definitions dict:
    when the normalised key is already there the state comes back as it
    was, so the first definition of a key wins; otherwise the key is added
    last with the matched text, the entries before it, the reference list
    and the counter staying as they were. *)
Theorem parse_def_footnote_first_wins (g2 g3 : string) (d : dict)
  (fs : option (list string)) (ix : option Z) :
  parse_def_footnote unikey g2 g3 (mkState (Some d) fs ix) =
  Ok (if Dict.mem (unikey g2) d
      then mkState (Some d) fs ix
      else mkState (Some (d ++ [(unikey g2, g3)])) fs ix) /\
  (forall k : string,
      Dict.get k (d ++ [(unikey g2, g3)]) =
      if Dict.mem k d then Dict.get k d
      else if String.eqb (unikey g2) k then Some g3 else None).
Proof.
  split.
  - unfold parse_def_footnote; simpl.
    destruct (Dict.mem (unikey g2) d) eqn:Hmem; simpl; [reflexivity|].
    rewrite set_absent by exact Hmem. reflexivity.
  - intros k. destruct (Dict.mem k d) eqn:Hk.
    + apply get_app_present. exact Hk.
    + rewrite get_app_absent by exact Hk. reflexivity.
Qed.

Lemma get_of_key (k : string) (d : dict) :
  In k (Dict.keys d) -> exists v, Dict.get k d = Some v.
Proof.
  induction d as [|[k' v'] d IH]; simpl; [intros []|].
  destruct (String.eqb k' k) eqn:E; [eauto|].
  intros [Hk | Hk]; [|exact (IH Hk)].
  subst. rewrite String.eqb_refl in E. discriminate.
Qed.

(** The items the hook builds: one for each key it walks, in that order,
    carrying the key and the positions of its references. *)
Lemma footnote_items_all (d : dict) (fns : list string)
  (fs : option (list string)) (ix : option Z) (ks : list string) :
  (forall k, In k ks -> In k (Dict.keys d)) ->
  exists items,
    footnote_items parse_text ks fns (mkState (Some d) fs ix) = Ok items /\
    map item_params items = map (fun k => Some (k, refs_of fns k)) ks /\
    Forall (fun t => type t = "footnote_item") items.
Proof.
  induction ks as [|k ks IH]; intros Hks.
  - exists []. repeat split. constructor.
  - destruct IH as [items [Hitems [Hpar Hty]]].
    { intros k' Hk'. apply Hks. right. exact Hk'. }
    destruct (get_of_key k d (Hks k (or_introl eq_refl))) as [v Hv].
    simpl. unfold parse_footnote_item at 1. simpl. rewrite Hv. simpl.
    rewrite Hitems. simpl. eexists. split; [reflexivity|].
    split; [simpl; rewrite Hpar; reflexivity|].
    constructor; [reflexivity | exact Hty].
Qed.

Lemma render_list_eq (l : list token) :
  (fix render_list (l : list token) : result string :=
     match l with
     | [] => Ok EmptyString
     | c :: l' =>
         a <- render_token inline_render base_render c ;;
         b <- render_list l' ;;
         Ok (a +++ b)
     end) l = render inline_render base_render l.
Proof. induction l as [|c l IH]; simpl; [|rewrite IH]; reflexivity. Qed.

(** Rendering the [footnotes] token wraps the rendering of its items. *)
Lemma render_footnotes_token (items : list token) :
  render inline_render base_render [Token "footnotes" (Some items) None None]
  = text0 <- render inline_render base_render items ;;
    Ok (render_html_footnotes text0).
Proof.
  simpl. rewrite render_list_eq.
  destruct (render inline_render base_render items) as [t|]; simpl;
    [|reflexivity].
  rewrite StringFacts.append_empty_r. reflexivity.
Qed.

(** C2 (as amended).  When the state holds at least one resolved reference,
    the hook builds one footnote item for every definition, in declaration
    order, referenced or not; each item carries the key and the positions of
    the references to it (none for a definition nobody references); and the
    hook returns the rendered result followed by these items, rendered and
    wrapped as the footnotes section. *)
Theorem footnote_section_items (result0 : string) (d : dict) (f : string)
  (fns : list string) (ix : option Z) :
  let state := mkState (Some d) (Some (f :: fns)) ix in
  exists items,
    footnote_items parse_text (Dict.keys d) (f :: fns) state = Ok items /\
    map item_params items =
    map (fun k => Some (k, refs_of (f :: fns) k)) (Dict.keys d) /\
    Forall (fun t => type t = "footnote_item") items /\
    md_footnotes_hook parse_text inline_render base_render result0 state =
    (text0 <- render inline_render base_render items ;;
     Ok (result0 +++ render_html_footnotes text0)).
Proof.
  intros state.
  destruct (footnote_items_all d (f :: fns) (Some (f :: fns)) ix (Dict.keys d))
    as [items [Hitems [Hpar Hty]]]; [auto|].
  exists items. repeat split; try assumption.
  unfold md_footnotes_hook, state. simpl def_footnotes. simpl footnotes.
  cbv iota. fold state. unfold state at 1. rewrite Hitems.
  unfold bind at 1. rewrite render_footnotes_token.
  destruct (render inline_render base_render items); reflexivity.
Qed.

End Parsing.

End FootnoteFacts.

(** ** Registration *)

Module RegistrationFacts.
Import ListFacts.

Lemma insert_zero (y : string) (l : list string) : Py.insert 0 y l = y :: l.
Proof.
  unfold Py.insert. rewrite Z.ltb_irrefl.
  replace (Z.to_nat (Z.min 0 (Z.of_nat (List.length l)))) with 0%nat by lia.
  reflexivity.
Qed.

Lemma insert_succ (i : Z) (y a : string) (l : list string) :
  1 <= i -> Py.insert i y (a :: l) = a :: Py.insert (i - 1) y l.
Proof.
  intros Hi. unfold Py.insert.
  destruct (i <? 0) eqn:E; [apply Z.ltb_lt in E; lia|].
  destruct (i - 1 <? 0) eqn:E'; [apply Z.ltb_lt in E'; lia|].
  replace (Z.to_nat (Z.min i (Z.of_nat (List.length (a :: l)))))
    with (S (Z.to_nat (Z.min (i - 1) (Z.of_nat (List.length l)))))
    by (simpl List.length; lia).
  reflexivity.
Qed.

(** Inserting [y] at the first position of [x] puts [y] at or before that
    position and moves [x] one further. *)
Lemma insert_at_index (l : list string) (x y : string) :
  String.eqb y x = false ->
  forall i, Py.index l x = Ok i ->
    Py.index (Py.insert i y l) x = Ok (i + 1) /\
    exists j, Py.index (Py.insert i y l) y = Ok j /\ j <= i.
Proof.
  intros Hyx. induction l as [|a l IH]; intros i; simpl; [discriminate|].
  destruct (String.eqb a x) eqn:Hax.
  - intros H; inversion H; subst. rewrite insert_zero. simpl.
    rewrite Hyx, Hax, String.eqb_refl. simpl. split; [reflexivity|].
    exists 0. split; [reflexivity | lia].
  - destruct (Py.index l x) as [j|] eqn:Hj; simpl; [|discriminate].
    intros H; inversion H; subst. pose proof (index_range _ _ _ Hj) as Hr.
    rewrite insert_succ by lia. replace (j + 1 - 1) with j by lia.
    destruct (IH j eq_refl) as [Hx [j' [Hy Hle]]].
    simpl. rewrite Hax, Hx. simpl. split; [reflexivity|].
    destruct (String.eqb a y).
    + exists 0. split; [reflexivity | lia].
    + rewrite Hy. simpl. exists (j' + 1). split; [reflexivity | lia].
Qed.

(** Inserting at a position leaves the rules found before it where they
    were. *)
Lemma insert_keeps_earlier (l : list string) (w z : string) :
  forall i k, Py.index l w = Ok k -> k < i ->
              Py.index (Py.insert i z l) w = Ok k.
Proof.
  induction l as [|a l IH]; intros i k; simpl; [discriminate|].
  destruct (String.eqb a w) eqn:Haw.
  - intros H Hlt; inversion H; subst. rewrite insert_succ by lia.
    simpl. rewrite Haw. reflexivity.
  - destruct (Py.index l w) as [j|] eqn:Hj; simpl; [|discriminate].
    intros H Hlt; inversion H; subst. pose proof (index_range _ _ _ Hj) as Hr.
    rewrite insert_succ by lia. simpl. rewrite Haw.
    rewrite (IH (i - 1) j eq_refl) by lia. reflexivity.
Qed.

(** Two rules inserted one after the other at the anchor are both tried
    before it. *)
Lemma two_inserts_before (l : list string) (x y z : string) (i : Z) :
  String.eqb y x = false -> String.eqb z x = false ->
  Py.index l x = Ok i ->
  exists i1,
    Py.index (Py.insert i y l) x = Ok i1 /\
    tried_before y x (Py.insert i1 z (Py.insert i y l)) /\
    tried_before z x (Py.insert i1 z (Py.insert i y l)).
Proof.
  intros Hyx Hzx Hi.
  destruct (insert_at_index l x y Hyx i Hi) as [Hx1 [j [Hy1 Hj]]].
  destruct (insert_at_index _ x z Hzx _ Hx1) as [Hx2 [j2 [Hz2 Hj2]]].
  exists (i + 1). split; [exact Hx1|]. split.
  - exists j, (i + 1 + 1). repeat split; [|exact Hx2|lia].
    apply insert_keeps_earlier; [exact Hy1 | lia].
  - exists j2, (i + 1 + 1). repeat split; [exact Hz2|exact Hx2|lia].
Qed.

Lemma index_never_minus_one (l : list string) (x : string) (i : Z) :
  Py.index l x = Ok i -> negb (i =? -1) = true.
Proof.
  intros H. apply index_range in H.
  destruct (i =? -1) eqn:E; [apply Z.eqb_eq in E; lia | reflexivity].
Qed.

Lemma spoiler_call (md : Md) (i : Z) :
  Py.index (block_rules md) "block_quote" = Ok i ->
  exists md', Spoiler.__call__ md = Ok md' /\
              block_rules md' = Py.insert i "spoiler_block" (block_rules md).
Proof.
  intros Hi. unfold Spoiler.__call__. simpl. rewrite Hi. simpl.
  rewrite (index_never_minus_one _ _ _ Hi).
  eexists. split; [reflexivity|].
  destruct (String.eqb _ "html"); reflexivity.
Qed.

Lemma fold_call (md : Md) (i : Z) :
  Py.index (block_rules md) "block_quote" = Ok i ->
  exists md', Fold.__call__ md = Ok md' /\
              block_rules md' = Py.insert i "fold_block" (block_rules md).
Proof.
  intros Hi. unfold Fold.__call__. simpl. rewrite Hi. simpl.
  rewrite (index_never_minus_one _ _ _ Hi).
  eexists. split; [reflexivity|].
  destruct (String.eqb _ "html"); reflexivity.
Qed.

(** C7.  On an engine whose block rule list has [block_quote], registering
    the Spoiler and the Fold plugins, in either order, leaves both
    [spoiler_block] and [fold_block] at positions strictly before
    [block_quote], so the engine tries them first. *)
Theorem spoiler_fold_before_block_quote (md : Md) :
  Py.mem "block_quote" (block_rules md) = true ->
  (exists md1 md2,
      Spoiler.__call__ md = Ok md1 /\ Fold.__call__ md1 = Ok md2 /\
      tried_before "spoiler_block" "block_quote" (block_rules md2) /\
      tried_before "fold_block" "block_quote" (block_rules md2)) /\
  (exists md1 md2,
      Fold.__call__ md = Ok md1 /\ Spoiler.__call__ md1 = Ok md2 /\
      tried_before "spoiler_block" "block_quote" (block_rules md2) /\
      tried_before "fold_block" "block_quote" (block_rules md2)).
Proof.
  intros Hmem. destruct (index_mem _ _ Hmem) as [i Hi]. split.
  - destruct (two_inserts_before (block_rules md) "block_quote"
                "spoiler_block" "fold_block" i eq_refl eq_refl Hi)
      as [i1 [Hi1 [Hs Hf]]].
    destruct (spoiler_call md i Hi) as [md1 [H1 R1]].
    rewrite <- R1 in Hi1.
    destruct (fold_call md1 i1 Hi1) as [md2 [H2 R2]].
    exists md1, md2. rewrite R2, R1. auto.
  - destruct (two_inserts_before (block_rules md) "block_quote"
                "fold_block" "spoiler_block" i eq_refl eq_refl Hi)
      as [i1 [Hi1 [Hf Hs]]].
    destruct (fold_call md i Hi) as [md1 [H1 R1]].
    rewrite <- R1 in Hi1.
    destruct (spoiler_call md1 i1 Hi1) as [md2 [H2 R2]].
    exists md1, md2. rewrite R2, R1. auto.
Qed.

Lemma index_raise (l : list string) (x : string) (e : exn) :
  Py.index l x = Raise e -> e = ValueError /\ Py.mem x l = false.
Proof.
  intros H. destruct (Py.mem x l) eqn:E.
  - destruct (index_mem _ _ E) as [i Hi]. congruence.
  - rewrite (index_not_mem _ _ E) in H. inversion H. auto.
Qed.

(** Case analysis on the result of the [index] call a registration makes. *)
Ltac on_index H :=
  match goal with
  | |- context [Py.index ?l ?x] =>
      let i := fresh "i" in
      let e := fresh "e" in
      destruct (Py.index l x) as [i|e] eqn:H;
      [ simpl; try rewrite (index_never_minus_one _ _ _ H)
      | let Hv := fresh "Hv" in
        let Hm := fresh "Hm" in
        destruct (index_raise _ _ _ H) as [Hv Hm]; subst e ];
      simpl
  end.

Lemma needs_anchor_intro (call : Md -> result Md)
  (rules : Md -> list string) (anchor : string) :
  (forall md, Py.mem anchor (rules md) = false -> call md = Raise ValueError) ->
  needs_anchor call rules anchor.
Proof.
  intros H md. split; [apply H|].
  intros md' Hok. destruct (Py.mem anchor (rules md)) eqn:E; [reflexivity|].
  rewrite (H md E) in Hok. discriminate.
Qed.

Lemma footnotes_needs_std_link :
  needs_anchor Footnotes.__call__ inline_rules "std_link".
Proof.
  apply needs_anchor_intro. intros md Hm.
  unfold Footnotes.__call__. simpl.
  rewrite (index_not_mem _ _ Hm). reflexivity.
Qed.

Lemma footnotes_needs_def_link :
  needs_anchor Footnotes.__call__ block_rules "def_link".
Proof.
  apply needs_anchor_intro. intros md Hm.
  unfold Footnotes.__call__. simpl.
  on_index H1; [|reflexivity].
  rewrite (index_not_mem _ _ Hm). reflexivity.
Qed.

Lemma mark_needs_codespan :
  needs_anchor Mark.__call__ inline_rules "codespan".
Proof.
  apply needs_anchor_intro. intros md Hm.
  unfold Mark.__call__. simpl.
  rewrite (index_not_mem _ _ Hm). reflexivity.
Qed.

Lemma spoiler_needs_block_quote :
  needs_anchor Spoiler.__call__ block_rules "block_quote".
Proof.
  apply needs_anchor_intro. intros md Hm.
  unfold Spoiler.__call__. simpl.
  rewrite (index_not_mem _ _ Hm). reflexivity.
Qed.

Lemma fold_needs_block_quote :
  needs_anchor Fold.__call__ block_rules "block_quote".
Proof.
  apply needs_anchor_intro. intros md Hm.
  unfold Fold.__call__. simpl.
  rewrite (index_not_mem _ _ Hm). reflexivity.
Qed.

Ltac inserted H1 :=
  match goal with
  | |- Ok _ = Ok ?md' -> _ =>
      intros Heq; inversion Heq; subst; clear Heq;
      pose proof (index_range _ _ _ H1);
      eexists; split; [reflexivity|]; split; [lia|];
      repeat match goal with
             | |- context [String.eqb ?a "html"] =>
                 destruct (String.eqb a "html")
             end;
      simpl; rewrite ?Z.add_0_r; reflexivity
  end.

Lemma footnotes_inserts_inline :
  inserts_at_anchor Footnotes.__call__ inline_rules "std_link" "footnote" 0.
Proof.
  intros md md'. unfold Footnotes.__call__. simpl.
  on_index H1; [|discriminate]. on_index H2; [|discriminate]. inserted H1.
Qed.

Lemma footnotes_inserts_block :
  inserts_at_anchor Footnotes.__call__ block_rules "def_link" "def_footnote" 0.
Proof.
  intros md md'. unfold Footnotes.__call__. simpl.
  on_index H1; [|discriminate]. on_index H2; [|discriminate]. inserted H2.
Qed.

Lemma mark_inserts :
  inserts_at_anchor Mark.__call__ inline_rules "codespan" "mark" 1.
Proof.
  intros md md'. unfold Mark.__call__. simpl.
  on_index H1; [|discriminate]. inserted H1.
Qed.

Lemma spoiler_inserts :
  inserts_at_anchor Spoiler.__call__ block_rules "block_quote"
    "spoiler_block" 0.
Proof.
  intros md md'. unfold Spoiler.__call__. simpl.
  on_index H1; [|discriminate]. inserted H1.
Qed.

Lemma fold_inserts :
  inserts_at_anchor Fold.__call__ block_rules "block_quote" "fold_block" 0.
Proof.
  intros md md'. unfold Fold.__call__. simpl.
  on_index H1; [|discriminate]. inserted H1.
Qed.

(** C9.  [list.index] returns a position, never [-1], and raises
    [ValueError] for a name that is not in the list.  So each registration
    that places its rule relative to an anchor ([std_link] and [def_link] for
    the footnotes, [codespan] for the mark, [block_quote] for the spoiler and
    the fold) raises when the anchor is absent, completes only when it is
    present, and then has always taken the insert branch: the append
    fallback never runs. *)
Theorem registration_needs_anchor :
  (forall (l : list string) (x : string),
      (Py.mem x l = false -> Py.index l x = Raise ValueError) /\
      (forall i, Py.index l x = Ok i -> 0 <= i /\ negb (i =? -1) = true)) /\
  (needs_anchor Footnotes.__call__ inline_rules "std_link" /\
   needs_anchor Footnotes.__call__ block_rules "def_link" /\
   needs_anchor Mark.__call__ inline_rules "codespan" /\
   needs_anchor Spoiler.__call__ block_rules "block_quote" /\
   needs_anchor Fold.__call__ block_rules "block_quote") /\
  (inserts_at_anchor Footnotes.__call__ inline_rules "std_link" "footnote" 0 /\
   inserts_at_anchor Footnotes.__call__ block_rules "def_link"
     "def_footnote" 0 /\
   inserts_at_anchor Mark.__call__ inline_rules "codespan" "mark" 1 /\
   inserts_at_anchor Spoiler.__call__ block_rules "block_quote"
     "spoiler_block" 0 /\
   inserts_at_anchor Fold.__call__ block_rules "block_quote" "fold_block" 0).
Proof.
  split.
  { intros l x. split; [apply index_not_mem|].
    intros i Hi. split; [apply (index_range _ _ _ Hi)|].
    apply (index_never_minus_one _ _ _ Hi). }
  split.
  { split; [apply footnotes_needs_std_link|].
    split; [apply footnotes_needs_def_link|].
    split; [apply mark_needs_codespan|].
    split; [apply spoiler_needs_block_quote|].
    apply fold_needs_block_quote. }
  split; [apply footnotes_inserts_inline|].
  split; [apply footnotes_inserts_block|].
  split; [apply mark_inserts|].
  split; [apply spoiler_inserts|].
  apply fold_inserts.
Qed.

End RegistrationFacts.

(** ** Fancy blocks *)

Module FancyBlockFacts.
Import FancyBlocks.

Lemma remove_mem (x : string) (l : list string) :
  Py.mem x l = true -> exists l', Py.remove x l = Ok l'.
Proof.
  unfold Py.mem. induction l as [|y l IH]; simpl; [discriminate|].
  rewrite (String.eqb_sym x y).
  destruct (String.eqb y x); simpl; [eauto|].
  intros H. destruct (IH H) as [l' ->]. simpl. eauto.
Qed.

Lemma remove_not_mem (x : string) (l : list string) :
  Py.mem x l = false -> Py.remove x l = Raise ValueError.
Proof.
  unfold Py.mem. induction l as [|y l IH]; simpl; [reflexivity|].
  rewrite (String.eqb_sym x y).
  destruct (String.eqb y x); simpl; [discriminate|].
  intros H. rewrite (IH H). reflexivity.
Qed.

Lemma remove_keeps_other (x y : string) (l : list string) :
  String.eqb y x = false ->
  forall l', Py.remove x l = Ok l' -> Py.mem y l = true -> Py.mem y l' = true.
Proof.
  intros Hyx. unfold Py.mem.
  induction l as [|a l IH]; intros l'; simpl; [discriminate|].
  destruct (String.eqb a x) eqn:Hax.
  - intros H; inversion H; subst.
    apply String.eqb_eq in Hax. subst a. rewrite Hyx. simpl. auto.
  - destruct (Py.remove x l) as [r|]; simpl; [|discriminate].
    intros H; inversion H; subst. simpl.
    destruct (String.eqb y a); simpl; [reflexivity|]. apply IH. reflexivity.
Qed.

(** The header pattern does not match a lone line feed. *)
Lemma no_header_in_newline :
  Re.match_ FANCY_BLOCK_HEADER Py.nl = None.
Proof. reflexivity. Qed.

Section Parsing.

Variable block_parse : string -> State -> list string -> list token.

(** C5 (as amended).  On an engine whose block rules hold both heading
    rules, [parse_fancy_block] does not raise for a match whose body group is
    absent (or empty): the body resolves to a single line feed, not to the
    empty string; no header is found in it, and the line feed is the text
    that is parsed recursively, with the heading rules removed. *)
Theorem absent_body_is_newline (rules : list string) (g3 : string)
  (state : State) :
  Py.mem "axt_heading" rules = true ->
  Py.mem "setex_heading" rules = true ->
  exists rules1 rules2,
    Py.remove "axt_heading" rules = Ok rules1 /\
    Py.remove "setex_heading" rules1 = Ok rules2 /\
    forall g4 : option string,
      g4 = None \/ g4 = Some EmptyString ->
      parse_fancy_block block_parse rules g3 g4 state =
      Ok (Token "fancy_block" (Some (block_parse Py.nl state rules2))
            (Some Py.nl) (Some [PStr (Py.lower (Py.strip g3)); PNone])).
Proof.
  intros Ha Hs.
  destruct (remove_mem _ _ Ha) as [rules1 H1].
  pose proof (remove_keeps_other "axt_heading" "setex_heading" rules
                eq_refl rules1 H1 Hs) as Hs1.
  destruct (remove_mem _ _ Hs1) as [rules2 H2].
  exists rules1, rules2. repeat split; try assumption.
  intros g4 Hg4.
  assert (Hg : group_or g4 (EmptyString +++ Py.nl) = Py.nl)
    by (destruct Hg4 as [-> | ->]; reflexivity).
  unfold parse_fancy_block. rewrite Hg, no_header_in_newline, H1.
  simpl. rewrite H2. reflexivity.
Qed.

End Parsing.

Local Arguments String.eqb : simpl never.

Lemma alert_class_table (family : string) :
  alert_class family = table_class family.
Proof.
  unfold alert_class, table_class, family_table, Py.mem. simpl.
  rewrite (String.eqb_sym "info"), (String.eqb_sym "blue"),
    (String.eqb_sym "warning"), (String.eqb_sym "yellow"),
    (String.eqb_sym "danger"), (String.eqb_sym "red"),
    (String.eqb_sym "success"), (String.eqb_sym "green").
  repeat match goal with
         | |- context [String.eqb family ?k] =>
             destruct (String.eqb family k); simpl; try reflexivity
         end.
Qed.

End FancyBlockFacts.

(** ** The statements at concrete inputs *)

Module SampleFacts.
Import Footnotes Samples.

(** The examples of the docstring of [_letter_from_index]. *)
Example letter_from_index_docstring :
  map _letter_from_index [1; 2; 26; 27; 28; 54]
  = [Ok "a"; Ok "b"; Ok "z"; Ok "aa"; Ok "ab"; Ok "bb"].
Proof. reflexivity. Qed.

Example unikey_folds_case_and_blanks :
  unikey "  Big   NOTE " = "big note" /\ unikey "Note" = unikey "note".
Proof. split; reflexivity. Qed.

(** A repeated key keeps its first definition. *)
Example first_definition_wins :
  parse_defs unikey [("Note", "one"); ("b", "two"); ("note", "three")]
    initial_state
  = Ok (mkState (Some [("note", "one"); ("b", "two")]) (Some []) None).
Proof. reflexivity. Qed.

(** Counterexample to C1 as stated.  With a declared before b and b
    referenced first, the first marker of the text shows 2, the declaration
    number of b, and not 1. *)
Lemma first_marker_shows_declaration_number :
  ~ numbered_by_occurrence unikey sample_base_render two_defs refs_b_then_a.
Proof.
  intros H.
  assert (E : parse_document unikey two_defs refs_b_then_a
              = Ok ([("footnote_ref", [PStr "b"; PInt 2; PInt 1]);
                     ("footnote_ref", [PStr "a"; PInt 1; PInt 2])],
                    mkState (Some two_defs) (Some ["b"; "a"]) (Some 2)))
    by reflexivity.
  destruct (H _ _ E 0%nat _ eq_refl) as [html [Hr [pre Hs]]].
  vm_compute in Hr. injection Hr as <-.
  revert Hs.
  change (">" +++ Py.str (Z.of_nat 0 + 1) +++ "</a></sup>")
    with ">1</a></sup>".
  apply (StringFacts.ends_differ _ pre ">2</a></sup>" ">1</a></sup>" 54);
    [reflexivity | reflexivity | reflexivity | discriminate].
Qed.

(** Counterexample to C2 as stated.  With a and b defined and only a
    referenced, the hook still builds an item for b. *)
Lemma unreferenced_definition_gets_item :
  ~ items_only_for_referenced unikey sample_parse_text two_defs refs_a_only.
Proof.
  intros H.
  assert (E : parse_document unikey two_defs refs_a_only
              = Ok ([("footnote_ref", [PStr "a"; PInt 1; PInt 1])],
                    mkState (Some two_defs) (Some ["a"]) (Some 1)))
    by reflexivity.
  destruct (H _ _ _ _ E eq_refl eq_refl) as [items [Hi Hp]].
  vm_compute in Hi. inversion Hi; subst items; clear Hi.
  vm_compute in Hp. discriminate.
Qed.

(** The footnotes section of that document: two list items, the second
    one, for b, with an arrow and no back-link. *)
Example section_of_refs_a_only :
  exists items,
    footnote_items sample_parse_text ["a"; "b"] ["a"]
      (mkState (Some two_defs) (Some ["a"]) (Some 1)) = Ok items /\
    map item_params items = [Some ("a", [1]); Some ("b", [])] /\
    md_footnotes_hook sample_parse_text sample_inline_render
      sample_base_render "<p>doc</p>"
      (mkState (Some two_defs) (Some ["a"]) (Some 1))
    = Ok ("<p>doc</p>"
          +++ render_html_footnotes
                (place_back (single_link 1) ("<p>first</p>" +++ Py.nl) "a"
                 +++ place_back (arrow_up +++ "  ")
                       ("<p>second</p>" +++ Py.nl) "b")).
Proof. eexists. repeat split. Qed.

(** Counterexample to C5 as stated.  For a match with no body group the
    text of the block is a line feed, not the empty string; and on an engine
    without the heading rules the parse raises. *)
Lemma absent_body_is_not_empty :
  ~ absent_body_is_empty sample_block_parse (block_rules sample_md) "info"
      initial_state /\
  FancyBlocks.parse_fancy_block sample_block_parse ["block_quote"; "def_link"]
    "info" None initial_state = Raise ValueError.
Proof.
  split; [|reflexivity].
  intros [tok [H Ht]]. vm_compute in H. inversion H; subst tok; clear H.
  discriminate.
Qed.

(** The amended C5 on the sample engine. *)
Lemma absent_body_is_newline_sample :
  (Py.mem "axt_heading" (block_rules sample_md) = true /\
   Py.mem "setex_heading" (block_rules sample_md) = true) /\
  exists rules1 rules2,
    Py.remove "axt_heading" (block_rules sample_md) = Ok rules1 /\
    Py.remove "setex_heading" rules1 = Ok rules2 /\
    forall g4 : option string,
      g4 = None \/ g4 = Some EmptyString ->
      FancyBlocks.parse_fancy_block sample_block_parse
        (block_rules sample_md) " Info " g4 initial_state =
      Ok (Token "fancy_block"
            (Some (sample_block_parse Py.nl initial_state rules2))
            (Some Py.nl) (Some [PStr (Py.lower (Py.strip " Info ")); PNone])).
Proof.
  split; [split; reflexivity|].
  apply (FancyBlockFacts.absent_body_is_newline sample_block_parse
           (block_rules sample_md) " Info " initial_state); reflexivity.
Defined.

(** C7 on the sample engine. *)
Lemma spoiler_fold_before_block_quote_sample :
  Py.mem "block_quote" (block_rules sample_md) = true /\
  ((exists md1 md2,
       Spoiler.__call__ sample_md = Ok md1 /\ Fold.__call__ md1 = Ok md2 /\
       tried_before "spoiler_block" "block_quote" (block_rules md2) /\
       tried_before "fold_block" "block_quote" (block_rules md2)) /\
   (exists md1 md2,
       Fold.__call__ sample_md = Ok md1 /\ Spoiler.__call__ md1 = Ok md2 /\
       tried_before "spoiler_block" "block_quote" (block_rules md2) /\
       tried_before "fold_block" "block_quote" (block_rules md2))).
Proof.
  split; [reflexivity|].
  apply (RegistrationFacts.spoiler_fold_before_block_quote sample_md).
  reflexivity.
Defined.

(** The rule list after both registrations. *)
Example block_rules_after_spoiler_and_fold :
  (md1 <- Spoiler.__call__ sample_md ;;
   md2 <- Fold.__call__ md1 ;;
   Ok (block_rules md2))
  = Ok [ "newline"; "thematic_break"; "fenced_code"; "indent_code";
         "spoiler_block"; "fold_block"; "block_quote"; "block_html";
         "list_start"; "def_link"; "axt_heading"; "setex_heading" ].
Proof. reflexivity. Qed.

(** A fancy block of family info with a title and a body. *)
Example fancy_block_info :
  FancyBlocks.parse_fancy_block sample_block_parse (block_rules sample_md)
    "info" (Some ("#### Title" +++ Py.nl +++ "Body")) initial_state
  = Ok (Token "fancy_block"
          (Some [Token "paragraph" None (Some "Body") None])
          (Some "Body") (Some [PStr "info"; PStr "Title"])) /\
  FancyBlocks.render_html_fancy_block ("<p>Body</p>" +++ Py.nl) "info"
    (Some "Title")
  = "<div class=" +++ Py.dq +++ "alert alert-primary mb-20" +++ Py.dq
    +++ " role=" +++ Py.dq +++ "alert" +++ Py.dq +++ ">"
    +++ "<h4 class=" +++ Py.dq +++ "alert-heading" +++ Py.dq +++ ">Title</h4>"
    +++ Py.nl +++ "<p>Body</p></div>" +++ Py.nl.
Proof. split; reflexivity. Qed.

(** A task list: the markers are stripped, nested items included, and a
    second run changes nothing. *)
Example task_list_rewrite :
  let item ch := Token "list_item" (Some ch) None (Some [PInt 1]) in
  let para s := Token "paragraph" None (Some s) None in
  let task ch b := Token "task_list_item" (Some ch) None
                     (Some [PInt 1; PBool b]) in
  TaskLists._rewrite_all_list_items
    [item [para "[x] done"; item [para "[ ] [X] open"]]; item [para "plain"]]
  = Ok [task [para "done"; task [para "[X] open"] false] true;
        item [para "plain"]].
Proof. reflexivity. Qed.

End SampleFacts.

(** * Further properties *)

(** ** The pattern matcher *)

Module ReFacts.

Lemma try_down_first {R : Type} (min n : nat) (f : nat -> option R) (r : R) :
  (min <= n)%nat -> f n = Some r -> Re.try_down min n f = Some r.
Proof.
  intros Hle Hf.
  assert (Hlt : (n <? min)%nat = false) by (apply Nat.ltb_ge; exact Hle).
  destruct n; simpl; rewrite Hlt, Hf; reflexivity.
Qed.

Lemma try_down_some {R : Type} (min : nat) (f : nat -> option R) (r : R) :
  forall n, Re.try_down min n f = Some r ->
            exists k, (min <= k <= n)%nat /\ f k = Some r.
Proof.
  induction n as [|n IH]; simpl.
  - destruct (0 <? min)%nat eqn:E; [discriminate|].
    apply Nat.ltb_ge in E. destruct (f 0%nat) eqn:Hf; [|discriminate].
    intros H; inversion H; subst. exists 0%nat. split; [lia | exact Hf].
  - destruct (S n <? min)%nat eqn:E; [discriminate|].
    apply Nat.ltb_ge in E. destruct (f (S n)) eqn:Hf.
    + intros H; inversion H; subst. exists (S n). split; [lia | exact Hf].
    + intros H. destruct (IH H) as [k [Hk Hfk]]. exists k. split; [lia|].
      exact Hfk.
Qed.

(** A greedy repetition takes a run of matching characters whole, when the
    run ends the text or is followed by a character outside the class and
    fits under the bound. *)
Lemma greedy_run (k : Re.cls) (max : option nat) (rest : string) :
  head_fails (Re.cls_match k) rest = true ->
  forall (pre : string) (taken : nat),
    all_chars (Re.cls_match k) pre = true ->
    match max with
    | None => True
    | Some m => (taken + String.length pre <= m)%nat
    end ->
    Re.greedy k max taken (pre +++ rest) = (taken + String.length pre)%nat.
Proof.
  intros Hrest. induction pre as [|c pre IH]; intros taken Hall Hmax.
  - simpl. rewrite Nat.add_0_r. destruct rest as [|c rest]; [reflexivity|].
    simpl in *. apply negb_true_iff in Hrest. rewrite Hrest, andb_false_r.
    reflexivity.
  - simpl in *. apply andb_true_iff in Hall. destruct Hall as [Hc Hall].
    assert (Hb : Re.below taken max = true).
    { destruct max as [m|]; [|reflexivity]. apply Nat.ltb_lt. lia. }
    rewrite Hb, Hc. simpl. rewrite IH; [lia | exact Hall |].
    destruct max as [m|]; [lia | exact I].
Qed.

Lemma take_length_append (a b : string) :
  Re.take (String.length a) (a +++ b) = a.
Proof.
  induction a as [|x a IH]; simpl; [destruct b; reflexivity|].
  rewrite IH. reflexivity.
Qed.

(** One step of a match: the repetition takes its run and the rest of the
    pattern matches what follows. *)
Lemma match_items_step (it : Re.item) (p : list Re.item)
  (pre rest after0 : string) (caps : list string) :
  all_chars (Re.cls_match (Re.icls it)) pre = true ->
  head_fails (Re.cls_match (Re.icls it)) rest = true ->
  match Re.imax it with
  | None => True
  | Some m => (String.length pre <= m)%nat
  end ->
  (Re.imin it <= String.length pre)%nat ->
  Re.match_items p rest = Some (caps, after0) ->
  Re.match_items (it :: p) (pre +++ rest) = Some (pre :: caps, after0).
Proof.
  intros Hall Hrest Hmax Hmin Hp. simpl.
  rewrite (greedy_run (Re.icls it) (Re.imax it) rest Hrest pre 0 Hall)
    by (destruct (Re.imax it); [simpl; lia | exact I]).
  simpl. apply try_down_first; [exact Hmin|].
  rewrite StringFacts.drop_length_append, Hp, take_length_append.
  reflexivity.
Qed.

Lemma take_drop (n : nat) (s : string) : Re.take n s +++ Py.drop n s = s.
Proof.
  revert s. induction n as [|n IH]; intros [|c s]; simpl; try reflexivity.
  rewrite IH. reflexivity.
Qed.

(** What a greedy repetition took are characters of its class, no more
    than its bound. *)
Lemma greedy_taken (k : Re.cls) (max : option nat) :
  forall (s : string) (taken j : nat),
    (taken + j <= Re.greedy k max taken s)%nat ->
    all_chars (Re.cls_match k) (Re.take j s) = true /\
    String.length (Re.take j s) = j.
Proof.
  induction s as [|c s IH]; intros taken j Hj; simpl in *.
  - assert (j = 0%nat) by lia. subst. split; reflexivity.
  - destruct j as [|j]; [split; reflexivity|].
    destruct (Re.below taken max && Re.cls_match k c) eqn:E; [|lia].
    apply andb_true_iff in E. destruct E as [_ Hc].
    destruct (IH (S taken) j) as [Hall Hlen]; [lia|].
    simpl. rewrite Hc, Hall, Hlen. split; reflexivity.
Qed.

Lemma greedy_bound (k : Re.cls) (m : nat) :
  forall (s : string) (taken : nat),
    (taken <= m)%nat -> (Re.greedy k (Some m) taken s <= m)%nat.
Proof.
  induction s as [|c s IH]; intros taken Ht; simpl; [exact Ht|].
  destruct (taken <? m)%nat eqn:E; simpl; [|exact Ht].
  apply Nat.ltb_lt in E.
  destruct (Re.cls_match k c); [apply IH; lia | exact Ht].
Qed.


(** A match splits the text into the runs of the repetitions, in order,
    and the text after the match. *)
Lemma match_items_sound (p : list Re.item) :
  forall (s : string) (caps : list string) (after0 : string),
    Re.match_items p s = Some (caps, after0) ->
    s = fold_right String.append after0 caps /\ Forall2 run_of p caps.
Proof.
  induction p as [|it p IH]; intros s caps after0; simpl.
  - intros H; inversion H; subst. split; [reflexivity | constructor].
  - intros H. apply try_down_some in H. destruct H as [k [Hk Hf]].
    destruct (Re.match_items p (Py.drop k s)) as [[caps1 r]|] eqn:Hp;
      [|discriminate].
    inversion Hf; subst; clear Hf.
    destruct (IH _ _ _ Hp) as [Hs Hruns].
    destruct (greedy_taken (Re.icls it) (Re.imax it) s 0 k) as [Hall Hlen];
      [simpl; lia|].
    split.
    + simpl. rewrite <- Hs. symmetry. apply take_drop.
    + constructor; [|exact Hruns].
      unfold run_of. rewrite Hlen. repeat split; try assumption; try lia.
      destruct (Re.imax it) as [m|] eqn:Hm; [|exact I].
      pose proof (greedy_bound (Re.icls it) m s 0 ltac:(lia)). lia.
Qed.

End ReFacts.

(** ** Task lists, further *)

Module TaskListsMore.
Import TaskLists.

Lemma marker_char (c : ascii) :
  Py.contains c " xX" = true -> c = " "%char \/ c = "x"%char \/ c = "X"%char.
Proof.
  simpl. rewrite orb_false_r. intros H.
  apply orb_true_iff in H. destruct H as [H | H];
    [left; apply Ascii.eqb_eq; exact H|].
  apply orb_true_iff in H. destruct H as [H | H];
    [right; left | right; right]; apply Ascii.eqb_eq; exact H.
Qed.

(** The marker pattern on a text that starts with a marker and
    whitespace: group 1 is the marker and the match ends where the
    whitespace ends. *)
Lemma task_marker_match (c : ascii) (ws rest : string) :
  Py.contains c " xX" = true ->
  ws <> EmptyString ->
  all_chars Py.isspace ws = true ->
  head_fails Py.isspace rest = true ->
  Re.match_ TASK_LIST_ITEM
    ("[" +++ String c EmptyString +++ "]" +++ ws +++ rest)
  = Some (Re.Match ("[" +++ String c EmptyString +++ "]") rest).
Proof.
  intros Hc Hws Hall Hrest. unfold Re.match_, TASK_LIST_ITEM.
  assert (Hlen : (1 <= String.length ws)%nat)
    by (destruct ws; [congruence | simpl; lia]).
  rewrite (ReFacts.match_items_step _ _ "[" _ rest
             [String c EmptyString; "]"; ws]); [reflexivity | | | | |].
  - reflexivity.
  - destruct (marker_char c Hc) as [-> | [-> | ->]]; reflexivity.
  - simpl. lia.
  - simpl. lia.
  - rewrite (ReFacts.match_items_step _ _ (String c EmptyString) _ rest
               ["]"; ws]); [reflexivity | | | | |].
    + change (Py.contains c " xX" && true = true). rewrite Hc. reflexivity.
    + reflexivity.
    + simpl. lia.
    + simpl. lia.
    + rewrite (ReFacts.match_items_step _ _ "]" _ rest [ws]);
        [reflexivity | reflexivity | | simpl; lia | simpl; lia |].
      * destruct ws as [|w ws]; [congruence|]. simpl in *.
        apply andb_true_iff in Hall. destruct Hall as [Hw _].
        destruct (Ascii.eqb_spec w "]") as [-> | _]; [discriminate|].
        reflexivity.
      * rewrite (ReFacts.match_items_step _ _ ws _ rest []);
          [reflexivity | exact Hall | exact Hrest | exact I | exact Hlen |].
        reflexivity.
Qed.

(** X1.  A list item whose first child's text starts with [[ ]], [[x]]
    or [[X]] and at least one whitespace character becomes a
    [task_list_item]: the marker and all the whitespace after it are cut
    from that text, and the params become the first param and the checked
    flag, false for the blank marker and true for x and X. *)
Theorem task_marker_rewrite (c : ascii) (ws rest : string) (fc : token)
  (others : list token) (ty : string) (tx : option string) (p0 : pyval)
  (ps : list pyval) :
  Py.contains c " xX" = true ->
  ws <> EmptyString ->
  all_chars Py.isspace ws = true ->
  head_fails Py.isspace rest = true ->
  text fc = Some ("[" +++ String c EmptyString +++ "]" +++ ws +++ rest) ->
  _rewrite_list_item (Token ty (Some (fc :: others)) tx (Some (p0 :: ps)))
  = Ok (Token "task_list_item" (Some (set_text fc rest :: others)) tx
          (Some [p0; PBool (negb (Ascii.eqb c " "))])).
Proof.
  intros Hc Hws Hall Hrest Htext. unfold _rewrite_list_item. simpl.
  rewrite Htext, (task_marker_match c ws rest Hc Hws Hall Hrest). simpl.
  destruct (marker_char c Hc) as [-> | [-> | ->]]; reflexivity.
Qed.

(** What a match of the marker pattern says of the text. *)
Lemma task_marker_match_inv (t : string) (m : Re.match_obj) :
  Re.match_ TASK_LIST_ITEM t = Some m ->
  exists (c : ascii) (ws : string),
    Py.contains c " xX" = true /\ ws <> EmptyString /\
    all_chars Py.isspace ws = true /\
    Re.group1 m = "[" +++ String c EmptyString +++ "]" /\
    t = "[" +++ String c EmptyString +++ "]" +++ ws +++ Re.after m.
Proof.
  unfold Re.match_.
  destruct (Re.match_items TASK_LIST_ITEM t) as [[caps r]|] eqn:H;
    [|discriminate].
  intros Hm; inversion Hm; subst m; clear Hm.
  destruct (ReFacts.match_items_sound _ _ _ _ H) as [Ht Hruns].
  unfold TASK_LIST_ITEM in Hruns.
  inversion Hruns as [|i1 a p1 caps1 Ha Hr1]; subst; clear Hruns.
  inversion Hr1 as [|i2 b p2 caps2 Hb Hr2]; subst; clear Hr1.
  inversion Hr2 as [|i3 d p3 caps3 Hd Hr3]; subst; clear Hr2.
  inversion Hr3 as [|i4 ws p4 caps4 Hws Hr4]; subst; clear Hr3.
  inversion Hr4; subst; clear Hr4.
  destruct Ha as [Ha1 [Ha2 Ha3]], Hb as [Hb1 [Hb2 Hb3]],
    Hd as [Hd1 [Hd2 Hd3]], Hws as [Hw1 [Hw2 _]]. simpl in *.
  destruct a as [|a0 [|a1 a]]; simpl in *; try lia.
  destruct b as [|b0 [|b1 b]]; simpl in *; try lia.
  destruct d as [|d0 [|d1 d]]; simpl in *; try lia.
  rewrite andb_true_r in Ha1, Hb1, Hd1.
  apply Ascii.eqb_eq in Ha1, Hd1. subst a0 d0.
  exists b0, ws. repeat split; try assumption.
  destruct ws; [simpl in Hw2; lia | discriminate].
Qed.

(** X2.  [_rewrite_list_item] changes an item only for a marker: when it
    returns a token other than the one it was given, the first child's text
    was a marker followed by whitespace, and the result is a
    [task_list_item] whose first child has lost them, the other children
    staying as they were. *)
Theorem rewrite_only_for_marker (item item' : token) :
  _rewrite_list_item item = Ok item' ->
  item' = item \/
  exists (fc : token) (others : list token) (c : ascii) (ws rest : string),
    children item = Some (fc :: others) /\
    text fc = Some ("[" +++ String c EmptyString +++ "]" +++ ws +++ rest) /\
    Py.contains c " xX" = true /\ ws <> EmptyString /\
    all_chars Py.isspace ws = true /\
    type item' = "task_list_item" /\
    children item' = Some (set_text fc rest :: others) /\
    text item' = text item.
Proof.
  unfold _rewrite_list_item.
  destruct (children item) as [[|fc others]|] eqn:Hch; try discriminate.
  - intros H; inversion H; auto.
  - destruct (Re.match_ TASK_LIST_ITEM _) as [m|] eqn:Hm.
    + destruct (params item) as [[|p0 ps]|]; try discriminate.
      intros H; inversion H; subst; clear H. right.
      destruct (task_marker_match_inv _ _ Hm)
        as [c [ws [Hc [Hws [Hall [_ Ht]]]]]].
      exists fc, others, c, ws, (Re.after m).
      destruct (text fc) as [t|] eqn:Htx.
      * rewrite Ht. repeat split; assumption.
      * discriminate.
    + intros H; inversion H; auto.
Qed.

Lemma same_list_set_text (fc : token) (s : string) (rest l' : list token) :
  same_list (set_text fc s :: rest) l' -> same_list (fc :: rest) l'.
Proof.
  intros H. inversion H as [|t t' l0 l0' Ht Hl]; subst.
  constructor; [|exact Hl].
  destruct fc as [ty ch tx pa]. unfold set_text in Ht. simpl in Ht.
  inversion Ht; subst. constructor; assumption.
Qed.

(** What a visit does to a token, up to the texts. *)
Lemma visit_shape (tok tok1 : token) :
  visit tok = Ok tok1 ->
  (type tok1 = type tok /\ params tok1 = params tok
   \/ type tok = "list_item" /\ type tok1 = "task_list_item") /\
  match children tok, children tok1 with
  | None, None => True
  | Some l, Some l1 => forall l', same_list l1 l' -> same_list l l'
  | _, _ => False
  end.
Proof.
  unfold visit.
  destruct (String.eqb (type tok) "list_item") eqn:Hty.
  - apply String.eqb_eq in Hty. unfold _rewrite_list_item.
    destruct (children tok) as [[|fc rest]|] eqn:Hch; try discriminate.
    + intros H; inversion H; subst. rewrite Hch. auto.
    + destruct (Re.match_ _ _) as [m|].
      * destruct (params tok) as [[|p0 ps]|]; try discriminate.
        intros H; inversion H; subst; clear H. simpl. split; [auto|].
        intros l'. apply same_list_set_text.
      * intros H; inversion H; subst. rewrite Hch. auto.
  - intros H; inversion H; subst. split; [auto|].
    destruct (children tok1); auto.
Qed.

Lemma rewrite_shape_aux (n : nat) :
  forall tokens tokens',
    (lsize tokens < n)%nat ->
    _rewrite_all_list_items tokens = Ok tokens' ->
    same_list tokens tokens'.
Proof.
  induction n as [|n IH]; intros tokens tokens' Hn H; [lia|].
  destruct tokens as [|tok rest].
  - simp _rewrite_all_list_items in H. inversion H; subst. constructor.
  - rewrite TaskListsFacts.rewrite_cons in H.
    destruct (visit tok) as [tok1|] eqn:Hv; [|discriminate].
    pose proof (visit_size _ _ Hv) as Hsz.
    pose proof (tsize_pos tok) as Hpos.
    destruct (visit_shape _ _ Hv) as [Hty Hkids].
    unfold lsize in Hn; simpl in Hn.
    destruct (children tok1) as [ch|] eqn:Hch.
    + pose proof (children_size _ _ Hch) as Hlt.
      destruct (_rewrite_all_list_items ch) as [ch'|] eqn:Hc; [|discriminate].
      destruct (_rewrite_all_list_items rest) as [rest'|] eqn:Hr;
        [|discriminate].
      inversion H; subst; clear H.
      assert (Hsame : same_list ch ch')
        by (apply IH; [unfold lsize in *; lia | exact Hc]).
      constructor; [|apply IH; [unfold lsize; lia | exact Hr]].
      destruct tok as [ty c tx pa], tok1 as [ty1 c1 tx1 pa1].
      simpl in *. subst c1. destruct c as [l|]; [|contradiction].
      constructor; [exact Hty|]. constructor. apply Hkids. exact Hsame.
    + destruct (_rewrite_all_list_items rest) as [rest'|] eqn:Hr;
        [|discriminate].
      inversion H; subst; clear H.
      constructor; [|apply IH; [unfold lsize; lia | exact Hr]].
      destruct tok as [ty c tx pa], tok1 as [ty1 c1 tx1 pa1].
      simpl in *. subst c1. destruct c as [l|]; [contradiction|].
      constructor; [exact Hty | constructor].
Qed.

(** X3.  The task-list rewrite keeps the shape of the tree: the tree it
    returns has the same tokens at every level, none added and none dropped,
    each with the type and the params it had, except that a [list_item] may
    have become a [task_list_item]; and the texts of the tokens of the list
    it was given are unchanged. *)
Theorem rewrite_keeps_shape (tokens tokens' : list token) :
  _rewrite_all_list_items tokens = Ok tokens' ->
  same_list tokens tokens' /\
  List.length tokens' = List.length tokens /\
  texts tokens' = texts tokens.
Proof.
  intros H.
  pose proof (rewrite_shape_aux (S (lsize tokens)) tokens tokens'
                ltac:(lia) H) as Hs.
  split; [exact Hs|]. split.
  - clear H. induction Hs as [|t t' l l' _ _ IH]; simpl; [reflexivity|].
    rewrite IH. reflexivity.
  - exact (TaskListsFacts.rewrite_texts _ _ H).
Qed.

Lemma no_list_item_aux (n : nat) :
  forall tokens,
    (lsize tokens < n)%nat ->
    existsb has_list_item tokens = false ->
    _rewrite_all_list_items tokens = Ok tokens.
Proof.
  induction n as [|n IH]; intros tokens Hn Hno; [lia|].
  destruct tokens as [|tok rest]; [now simp _rewrite_all_list_items|].
  simpl in Hno. apply orb_false_iff in Hno. destruct Hno as [Htok Hrest].
  pose proof (tsize_pos tok) as Hpos.
  unfold lsize in Hn; simpl in Hn.
  rewrite TaskListsFacts.rewrite_cons.
  destruct tok as [ty ch tx pa]. simpl in Htok.
  apply orb_false_iff in Htok. destruct Htok as [Hty Hch].
  unfold visit. simpl. rewrite Hty. simpl.
  rewrite (IH rest) by (unfold lsize; lia || exact Hrest).
  destruct ch as [ch|]; [|reflexivity].
  rewrite (IH ch); [reflexivity | | exact Hch].
  simpl in Hn. unfold lsize. lia.
Qed.

(** X4.  A tree without a [list_item] token passes the task-list hook as it
    is, and the hook does not raise on it. *)
Theorem no_list_item_unchanged (tokens : list token) :
  existsb has_list_item tokens = false ->
  task_lists_hook tokens = Ok tokens.
Proof.
  intros H. apply (no_list_item_aux (S (lsize tokens))); [lia | exact H].
Qed.

End TaskListsMore.

(** ** Footnotes, further *)

Module FootnotesMore.
Import Footnotes ListFacts.

Section Parsing.

Variable unikey : string -> string.
Variable parse_text : string -> State -> list token.
Variable inline_render : string -> string.
Variable base_render : string -> string -> option (list pyval) -> string.

(** What parsing references leaves in the state: the keys of the
    references that resolved, appended in order, and the counter moved on
    by their number. *)
Lemma parse_refs_state (refs : list (string * string)) :
  forall (d : dict) (fs : list string) (ix : option Z) toks state',
    parse_refs unikey refs (mkState (Some d) (Some fs) ix)
    = Ok (toks, state') ->
    state' = mkState (Some d)
               (Some (fs ++ map ref_key (filter is_ref toks)))
               (match map ref_key (filter is_ref toks) with
                | [] => ix
                | new => Some (match ix with Some n => n | None => 0 end
                               + Z.of_nat (List.length new))
                end) /\
    Forall (fun k => Dict.mem k d = true)
      (map ref_key (filter is_ref toks)) /\
    List.length toks = List.length refs.
Proof.
  induction refs as [|[g0 g1] refs IH]; intros d fs ix toks state' H.
  - inversion H; subst. simpl. rewrite app_nil_r. auto.
  - simpl in H. destruct (Dict.mem (unikey g1) d) eqn:Hmem.
    + destruct (FootnoteFacts.parse_inline_footnote_resolved
                  unikey g0 g1 d fs ix Hmem) as [i [Hi E]].
      rewrite E in H. simpl in H.
      destruct (parse_refs unikey refs _) as [[toks1 st2]|] eqn:E2;
        [|discriminate]. simpl in H. inversion H; subst; clear H.
      destruct (IH _ _ _ _ _ E2) as [Hst [Hall Hlen]].
      simpl. rewrite Hst, <- app_assoc. simpl. split; [|split].
      * f_equal.
        destruct (map ref_key (filter is_ref toks1)) as [|k1 new];
          simpl; f_equal; lia.
      * constructor; [exact Hmem | exact Hall].
      * rewrite Hlen. reflexivity.
    + rewrite FootnoteFacts.parse_inline_footnote_unresolved in H
        by exact Hmem.
      simpl in H.
      destruct (parse_refs unikey refs _) as [[toks1 st2]|] eqn:E2;
        [|discriminate]. simpl in H. inversion H; subst; clear H.
      destruct (IH _ _ _ _ _ E2) as [Hst [Hall Hlen]].
      simpl. rewrite Hlen. auto.
Qed.

Lemma mem_snoc (k u v : string) (d : dict) :
  Dict.mem k (d ++ [(u, v)]) = Dict.mem k d || String.eqb k u.
Proof.
  unfold Dict.mem, Dict.keys, Py.mem. rewrite map_app, existsb_app.
  simpl. rewrite orb_false_r. reflexivity.
Qed.

(** What parsing definitions stores: the entries that were there, and for
    every other key the text of its first definition; no key twice. *)
Lemma parse_defs_entries (defs : list (string * string)) :
  forall (d : dict) (fs : option (list string)) (ix : option Z),
    NoDup (Dict.keys d) ->
    exists d',
      parse_defs unikey defs (mkState (Some d) fs ix)
      = Ok (mkState (Some d') fs ix) /\
      NoDup (Dict.keys d') /\
      forall k v,
        In (k, v) d' <->
        In (k, v) d \/
        (Dict.mem k d = false /\ first_definition unikey defs k = Some v).
Proof.
  induction defs as [|[g2 g3] defs IH]; intros d fs ix Hd.
  - exists d. split; [reflexivity|]. split; [exact Hd|].
    intros k v. simpl. split; [auto|].
    intros [H | [_ H]]; [exact H | discriminate].
  - simpl parse_defs. unfold parse_def_footnote at 1. simpl.
    destruct (Dict.mem (unikey g2) d) eqn:Hmem; simpl.
    + destruct (IH d fs ix Hd) as [d' [E [Hnd Hiff]]].
      exists d'. split; [exact E|]. split; [exact Hnd|].
      intros k v. rewrite Hiff.
      destruct (String.eqb_spec (unikey g2) k) as [<- | Hk];
        [|reflexivity].
      rewrite Hmem. split; intros [H | [H _]]; auto; discriminate.
    + rewrite set_absent by exact Hmem.
      assert (Hd1 : NoDup (Dict.keys (d ++ [(unikey g2, g3)]))).
      { unfold Dict.keys. rewrite map_app. simpl.
        apply FootnoteFacts.nodup_snoc; [exact Hd|].
        apply FootnoteFacts.mem_false_not_in. exact Hmem. }
      destruct (IH (d ++ [(unikey g2, g3)]) fs ix Hd1)
        as [d' [E [Hnd Hiff]]].
      exists d'. split; [exact E|]. split; [exact Hnd|].
      intros k v. rewrite Hiff, in_app_iff, mem_snoc.
      destruct (String.eqb_spec (unikey g2) k) as [<- | Hk].
      * rewrite String.eqb_refl, orb_true_r, Hmem. simpl. split.
        -- intros [[H | [H | []]] | [H _]]; [auto | | discriminate].
           inversion H; subst. right. split; reflexivity.
        -- intros [H | [_ H]]; [auto|].
           inversion H; subst. left. right. left. reflexivity.
      * assert (Hkb : String.eqb k (unikey g2) = false)
          by (apply String.eqb_neq; congruence).
        rewrite Hkb, orb_false_r. simpl. split.
        -- intros [[H | [H | []]] | H]; [auto | | auto].
           inversion H; subst. congruence.
        -- intros [H | H]; auto.
Qed.

(** X5.  Parsing the definitions and the references of a document never
    raises, and it returns one token per reference.  In the state it
    leaves, the definitions hold no key twice and hold, for every key that
    some definition of the document normalises to, the text of the first
    such definition, and nothing else; the list of references holds the
    normalised keys of the references of the document whose key is defined,
    in their order, which are the keys of the reference tokens returned;
    and the counter is absent while nothing resolved and the length of that
    list afterwards. *)
Theorem document_state_invariant (defs refs : list (string * string)) :
  exists (toks : list inline_token) (d : dict) (fns : list string)
         (ix : option Z),
    parse_document unikey defs refs
    = Ok (toks, mkState (Some d) (Some fns) ix) /\
    List.length toks = List.length refs /\
    NoDup (Dict.keys d) /\
    (forall k v, In (k, v) d <-> first_definition unikey defs k = Some v) /\
    fns = map (fun r => unikey (snd r)) (resolved_refs unikey d refs) /\
    fns = map ref_key (filter is_ref toks) /\
    Forall (fun k => Dict.mem k d = true) fns /\
    match ix with
    | None => fns = []
    | Some n => n = Z.of_nat (List.length fns) /\ fns <> []
    end.
Proof.
  destruct (parse_defs_entries defs [] (Some []) None) as [d [Hd [Hnd He]]];
    [constructor|].
  destruct (FootnoteFacts.parse_refs_total unikey refs d [] None)
    as [toks [fs [ix H]]].
  destruct (parse_refs_state refs _ _ _ _ _ H) as [Hst [Hall Hlen]].
  destruct (FootnoteFacts.parse_refs_resolved unikey refs _ _ _ _ _ H)
    as [_ [_ Hkeys]].
  simpl in Hst. inversion Hst as [[Hfs Hix]]. clear Hst.
  simpl in Hkeys. inversion Hkeys as [Hfk]. clear Hkeys.
  exists toks, d, fs, ix.
  unfold parse_document.
  match type of Hd with
  | ?L = _ => change (parse_defs unikey defs initial_state) with L
  end.
  rewrite Hd. simpl. rewrite H.
  split; [reflexivity|]. split; [exact Hlen|]. split; [exact Hnd|].
  split.
  { intros k v. rewrite He. simpl. split.
    - intros [[] | [_ Hv]]; exact Hv.
    - intros Hv. right. split; [reflexivity | exact Hv]. }
  split; [exact Hfk|].
  split; [exact Hfs|]. split; [rewrite Hfs; exact Hall|].
  rewrite Hix, Hfs.
  destruct (map ref_key (filter is_ref toks)) as [|k new];
    [reflexivity|].
  split; [simpl; lia | discriminate].
Qed.

(** X6.  Two references to one definition are rendered as the same
    marker: the rendered marker of a resolved reference depends on its key
    alone, not on where the reference stands. *)
Theorem same_key_same_marker (refs : list (string * string)) (d : dict)
  (toks : list inline_token) (state' : State) (t1 t2 : inline_token) :
  parse_refs unikey refs (mkState (Some d) (Some []) None)
  = Ok (toks, state') ->
  In t1 (filter is_ref toks) -> In t2 (filter is_ref toks) ->
  ref_key t1 = ref_key t2 ->
  exists html,
    render_inline_token base_render t1 = Ok html /\
    render_inline_token base_render t2 = Ok html.
Proof.
  intros H H1 H2 Hkey.
  apply In_nth_error in H1, H2.
  destruct H1 as [k1 H1], H2 as [k2 H2].
  destruct (FootnoteFacts.parse_refs_numbering unikey refs _ _ _ _ _ H
              k1 t1 H1) as [key1 [i1 [Hi1 ->]]].
  destruct (FootnoteFacts.parse_refs_numbering unikey refs _ _ _ _ _ H
              k2 t2 H2) as [key2 [i2 [Hi2 ->]]].
  unfold ref_key in Hkey. simpl in Hkey. subst key2.
  assert (i2 = i1) by congruence. subst i2.
  eexists. split; reflexivity.
Qed.

(** X7.  [parse_footnote_item] raises exactly for a key without a
    definition, and then [KeyError]; for a defined key it returns a
    [footnote_item] that carries the key and the references it was given.
    The hook, on a state with references but without the definitions dict,
    raises [TypeError]. *)
Theorem footnote_item_errors (k : string) (refs : list Z) (state : State) :
  (unresolved k state ->
   parse_footnote_item parse_text k refs state = Raise KeyError) /\
  (~ unresolved k state ->
   exists ch,
     parse_footnote_item parse_text k refs state
     = Ok (Token "footnote_item" (Some ch) None
             (Some [PStr k; PInts refs]))) /\
  (forall (result0 f : string) (fns : list string) (ix : option Z),
      md_footnotes_hook parse_text inline_render base_render result0
        (mkState None (Some (f :: fns)) ix) = Raise TypeError).
Proof.
  unfold unresolved, parse_footnote_item. split; [|split].
  - destruct (def_footnotes state) as [d|]; [|reflexivity].
    intros Hmem. destruct (Dict.get k d) as [v|] eqn:Hv; [|reflexivity].
    exfalso. revert Hmem Hv. unfold Dict.mem, Py.mem, Dict.keys.
    induction d as [|[k' v'] d IH]; simpl; [discriminate|].
    rewrite (String.eqb_sym k k').
    destruct (String.eqb k' k); simpl; [discriminate | exact IH].
  - destruct (def_footnotes state) as [d|]; [|intros H; exfalso; auto].
    intros Hmem. destruct (Dict.mem k d) eqn:E; [|congruence].
    destruct (FootnoteFacts.get_of_key k d) as [v ->].
    { unfold Dict.mem, Py.mem in E. apply existsb_exists in E.
      destruct E as [x [Hx Hk]]. apply String.eqb_eq in Hk. subst x.
      exact Hx. }
    eexists. reflexivity.
  - reflexivity.
Qed.

End Parsing.

End FootnotesMore.

(** ** Back-links and letters, further *)

Module BackLinksMore.
Import Footnotes.

Lemma refs_of_from_in (fns : list string) (k : string) :
  forall (i r : Z),
    In r (map (fun p => fst p + 1)
            (filter (fun p => String.eqb (snd p) k)
               (Py.enumerate_from i fns)))
    <-> exists n, nth_error fns n = Some k /\ r = i + Z.of_nat n + 1.
Proof.
  induction fns as [|x fns IH]; intros i r; simpl.
  - split; [intros [] | intros [n [Hn _]]; destruct n; discriminate].
  - assert (Hrest :
      In r (map (fun p => fst p + 1)
              (filter (fun p => String.eqb (snd p) k)
                 (Py.enumerate_from (i + 1) fns)))
      <-> exists n, nth_error fns n = Some k
                    /\ r = i + Z.of_nat (S n) + 1).
    { rewrite IH. split; intros [n [Hn Hr]]; exists n; split; auto; lia. }
    destruct (String.eqb_spec x k) as [-> | Hne]; simpl.
    + rewrite Hrest. split.
      * intros [Hr | [n [Hn Hr]]]; [exists 0%nat | exists (S n)];
          simpl; split; auto; lia.
      * intros [[|n] [Hn Hr]]; [left; simpl in Hr; lia|].
        right. exists n. auto.
    + rewrite Hrest. split.
      * intros [n [Hn Hr]]. exists (S n). auto.
      * intros [[|n] [Hn Hr]]; [simpl in Hn; congruence|].
        exists n. auto.
Qed.

Lemma refs_of_from_sorted (fns : list string) (k : string) :
  forall i : Z,
    StronglySorted Z.lt
      (map (fun p => fst p + 1)
         (filter (fun p => String.eqb (snd p) k)
            (Py.enumerate_from i fns))).
Proof.
  induction fns as [|x fns IH]; intros i; simpl; [constructor|].
  destruct (String.eqb x k); simpl; [|apply IH].
  constructor; [apply IH|].
  apply Forall_forall. intros r Hr.
  apply refs_of_from_in in Hr. destruct Hr as [n [_ Hr]]. simpl. lia.
Qed.

(** X8.  The back-references the hook computes for a key are the positions,
    counted from 1, of the references to that key in the list of resolved
    references: every such position is listed, no other, and they are listed
    in increasing order, so none twice. *)
Theorem back_reference_positions (fns : list string) (k : string) :
  (forall r : Z,
      In r (refs_of fns k)
      <-> exists n, nth_error fns n = Some k /\ r = Z.of_nat n + 1) /\
  StronglySorted Z.lt (refs_of fns k).
Proof.
  unfold refs_of, Py.enumerate. split.
  - intros r. rewrite refs_of_from_in.
    split; intros [n [Hn Hr]]; exists n; split; auto; lia.
  - apply refs_of_from_sorted.
Qed.

(** X9.  Different positions get different letters: on the positions from
    1 on, [_letter_from_index] returns a label that no other position
    has. *)
Theorem letters_distinct (i j : Z) :
  1 <= i -> 1 <= j ->
  _letter_from_index i = _letter_from_index j -> i = j.
Proof.
  intros Hi Hj H.
  rewrite (LetterFacts.letter_from_index_numeral i Hi),
    (LetterFacts.letter_from_index_numeral j Hj) in H.
  inversion H as [Hn].
  pose proof (proj2 (LetterFacts.numeral_value (Z.to_nat i))) as Vi.
  pose proof (proj2 (LetterFacts.numeral_value (Z.to_nat j))) as Vj.
  rewrite Hn in Vi. lia.
Qed.

Lemma last_digit_letter (num : Z) :
  Bij26.is_letter (last_digit num) = true.
Proof.
  unfold last_digit.
  pose proof (Z.mod_pos_bound num 26 ltac:(lia)) as Hb.
  destruct (0 <? num mod 26) eqn:E; [|reflexivity].
  apply Z.ltb_lt in E. unfold Bij26.is_letter.
  rewrite nat_ascii_embedding by lia.
  apply andb_true_iff. split; apply Nat.leb_le; lia.
Qed.

(** X10.  [_letter_from_index] returns a label for every integer, zero and
    the negative ones included: the dict lookup never fails.  The label is
    written with the letters a to z, and up to 26 it is one letter. *)
Theorem letter_for_every_integer (num : Z) :
  exists s : string,
    _letter_from_index num = Ok s /\
    Bij26.letters_only s = true /\
    (num <= 26 -> String.length s = 1%nat).
Proof.
  destruct (Z_lt_dec 0 ((num - 1) / 26)) as [Hq | Hq].
  - assert (Hnum : 27 <= num) by (Z.div_mod_to_equations; lia).
    exists (Bij26.numeral (Z.to_nat num)).
    split; [apply LetterFacts.letter_from_index_numeral; lia|].
    split; [apply LetterFacts.numeral_value | lia].
  - exists (String (last_digit num) EmptyString).
    split; [|split; [|reflexivity]].
    + simp _letter_from_index.
      destruct (Z_lt_dec 0 ((num - 1) / 26)) as [Hq' | Hq'];
        [contradiction|]. simpl.
      apply LetterFacts.last_letter_eq.
    + unfold Bij26.letters_only. simpl.
      rewrite last_digit_letter. reflexivity.
Qed.

End BackLinksMore.

(** ** Lines *)

Module LineFacts.
Import Footnotes.

Lemma split_lf_nonempty (s : string) :
  forall cur, split_lf cur s <> [].
Proof.
  induction s as [|c s IH]; intros cur; simpl; [discriminate|].
  destruct (Ascii.eqb c (Py.chr 10)); [discriminate | apply IH].
Qed.

Lemma join_cons (sep x : string) (l : list string) :
  l <> [] -> Py.join sep (x :: l) = x +++ sep +++ Py.join sep l.
Proof. destruct l; [congruence | reflexivity]. Qed.

(** Joining the lines of a text with line feeds gives the text back. *)
Lemma join_split_lf (s : string) :
  forall cur, Py.join Py.nl (split_lf cur s) = cur +++ s.
Proof.
  induction s as [|c s IH]; intros cur; simpl.
  - symmetry. apply StringFacts.append_empty_r.
  - destruct (Ascii.eqb_spec c (Py.chr 10)) as [-> | Hc].
    + rewrite join_cons by apply split_lf_nonempty.
      rewrite IH. reflexivity.
    + rewrite IH, StringFacts.append_assoc. reflexivity.
Qed.

Lemma all_chars_append (f : ascii -> bool) (a b : string) :
  all_chars f (a +++ b) = all_chars f a && all_chars f b.
Proof.
  induction a as [|c a IH]; simpl; [reflexivity|].
  rewrite IH, andb_assoc. reflexivity.
Qed.

Lemma split_lf_lf_free (s : string) :
  forall cur, lf_free cur = true ->
              Forall (fun l => lf_free l = true) (split_lf cur s).
Proof.
  induction s as [|c s IH]; intros cur Hcur; simpl.
  - constructor; [exact Hcur | constructor].
  - destruct (Ascii.eqb c (Py.chr 10)) eqn:Hc.
    + constructor; [exact Hcur | apply IH; reflexivity].
    + apply IH. unfold lf_free. rewrite all_chars_append.
      fold (lf_free cur). rewrite Hcur. simpl. rewrite Hc. reflexivity.
Qed.

Lemma split_lf_line (a : string) :
  lf_free a = true ->
  forall cur s, split_lf cur (a +++ s) = split_lf (cur +++ a) s.
Proof.
  induction a as [|c a IH]; intros Ha cur s; simpl.
  - rewrite StringFacts.append_empty_r. reflexivity.
  - unfold lf_free in Ha. simpl in Ha. apply andb_true_iff in Ha.
    destruct Ha as [Hc Ha]. apply negb_true_iff in Hc. rewrite Hc.
    rewrite (IH Ha), StringFacts.append_assoc. reflexivity.
Qed.

Lemma split_lf_join (ls : list string) :
  Forall (fun l => lf_free l = true) ls ->
  forall cur,
    split_lf cur (Py.join Py.nl ls)
    = match ls with x :: r => (cur +++ x) :: r | [] => [cur] end.
Proof.
  induction ls as [|x ls IH]; intros Hall cur; [reflexivity|].
  inversion Hall as [|x0 l0 Hx Hls]; subst.
  destruct ls as [|y ls].
  - simpl Py.join. rewrite <- (StringFacts.append_empty_r x) at 1.
    rewrite (split_lf_line x Hx). reflexivity.
  - rewrite join_cons by discriminate.
    rewrite (split_lf_line x Hx).
    change (Py.nl +++ Py.join Py.nl (y :: ls))
      with (String (Py.chr 10) (Py.join Py.nl (y :: ls))).
    cbn [split_lf]. rewrite Ascii.eqb_refl.
    rewrite (IH Hls EmptyString). reflexivity.
Qed.

(** The lines of a text joined from lines without line feeds are those
    lines. *)
Lemma lines_of_join (ls : list string) :
  ls <> [] ->
  Forall (fun l => lf_free l = true) ls ->
  lines_of (Py.join Py.nl ls) = ls.
Proof.
  intros Hne Hall. unfold lines_of. rewrite (split_lf_join ls Hall).
  destruct ls; [congruence | reflexivity].
Qed.

Lemma lines_of_lf_free (s : string) :
  Forall (fun l => lf_free l = true) (lines_of s).
Proof. apply split_lf_lf_free. reflexivity. Qed.

Lemma lines_of_nonempty (s : string) : lines_of s <> [].
Proof. apply split_lf_nonempty. Qed.

Lemma drop_lf_free (n : nat) :
  forall s, lf_free s = true -> lf_free (Py.drop n s) = true.
Proof.
  induction n as [|n IH]; intros [|c s] H; simpl; auto.
  apply IH. unfold lf_free in H. simpl in H.
  apply andb_true_iff in H. exact (proj2 H).
Qed.

(** A function that works line by line and keeps lines free of line
    feeds acts on the lines of the text. *)
Lemma lines_of_map (f : string -> string) (s : string) :
  (forall l, lf_free l = true -> lf_free (f l) = true) ->
  lines_of (Py.join Py.nl (map f (lines_of s))) = map f (lines_of s).
Proof.
  intros Hf. apply lines_of_join.
  - pose proof (lines_of_nonempty s). destruct (lines_of s);
      [congruence | discriminate].
  - pose proof (lines_of_lf_free s) as H.
    induction H; simpl; constructor; auto.
Qed.

Lemma leading_spaces_dropped (s : string) :
  leading_spaces (Py.drop (leading_spaces s) s) = 0%nat.
Proof.
  induction s as [|c s IH]; simpl; [reflexivity|].
  destruct (Ascii.eqb c " ") eqn:E; simpl; [exact IH | rewrite E; reflexivity].
Qed.

Lemma dedent_line_twice (n : nat) (line : string) :
  dedent_line n (dedent_line n line) = dedent_line n line.
Proof.
  unfold dedent_line.
  destruct (n <=? leading_spaces line)%nat eqn:E; [|rewrite E; reflexivity].
  rewrite leading_spaces_dropped.
  destruct (n <=? 0)%nat; reflexivity.
Qed.

(** X11.  The indentation pattern of a multi-line footnote works line by
    line: a line that starts with at least [n] blanks loses all its leading
    blanks, not only [n] of them, and every other line is kept.  So the
    number of lines stays, afterwards every line starts with fewer than [n]
    blanks or with none, and a second pass changes nothing. *)
Theorem dedent_by_line (n : nat) (text0 : string) :
  lines_of (dedent n text0) = map (dedent_line n) (lines_of text0) /\
  List.length (lines_of (dedent n text0)) = List.length (lines_of text0) /\
  Forall (fun l => leading_spaces l = 0%nat \/ (leading_spaces l < n)%nat)
    (lines_of (dedent n text0)) /\
  dedent n (dedent n text0) = dedent n text0.
Proof.
  assert (Hf : forall l, lf_free l = true -> lf_free (dedent_line n l) = true).
  { intros l Hl. unfold dedent_line.
    destruct (n <=? leading_spaces l)%nat; [apply drop_lf_free|]; exact Hl. }
  assert (Hlines : lines_of (dedent n text0)
                   = map (dedent_line n) (lines_of text0))
    by (exact (lines_of_map (dedent_line n) text0 Hf)).
  split; [exact Hlines|]. split; [rewrite Hlines; apply length_map|]. split.
  - rewrite Hlines. apply Forall_forall. intros l Hl.
    apply in_map_iff in Hl. destruct Hl as [l0 [<- _]].
    unfold dedent_line.
    destruct (n <=? leading_spaces l0)%nat eqn:E.
    + left. apply leading_spaces_dropped.
    + right. apply Nat.leb_gt. exact E.
  - change (dedent n (dedent n text0))
      with (Py.join Py.nl (map (dedent_line n) (lines_of (dedent n text0)))).
    rewrite Hlines, map_map.
    change (dedent n text0)
      with (Py.join Py.nl (map (dedent_line n) (lines_of text0))).
    f_equal. apply map_ext. intros l. apply dedent_line_twice.
Qed.

End LineFacts.

(** ** Stripping *)

Module StripFacts.

Lemma rstrip_spaces (w : string) :
  all_chars Py.isspace w = true -> Py.rstrip w = EmptyString.
Proof.
  induction w as [|c w IH]; simpl; [reflexivity|].
  intros H. apply andb_true_iff in H. destruct H as [Hc Hw].
  rewrite (IH Hw), Hc. reflexivity.
Qed.

Lemma lstrip_spaces (w : string) :
  all_chars Py.isspace w = true -> Py.lstrip w = EmptyString.
Proof.
  induction w as [|c w IH]; simpl; [reflexivity|].
  intros H. apply andb_true_iff in H. destruct H as [Hc Hw].
  rewrite Hc. exact (IH Hw).
Qed.

Lemma rstrip_append_spaces (s w : string) :
  all_chars Py.isspace w = true -> Py.rstrip (s +++ w) = Py.rstrip s.
Proof.
  intros Hw. induction s as [|c s IH]; simpl.
  - apply rstrip_spaces. exact Hw.
  - rewrite IH. reflexivity.
Qed.

(** White space at the end of a text does not show after [strip]. *)
Lemma strip_append_spaces (s w : string) :
  all_chars Py.isspace w = true -> Py.strip (s +++ w) = Py.strip s.
Proof.
  intros Hw. unfold Py.strip. induction s as [|c s IH]; simpl.
  - rewrite (lstrip_spaces w Hw). reflexivity.
  - destruct (Py.isspace c); [exact IH|].
    change (String c (s +++ w)) with (String c s +++ w).
    apply rstrip_append_spaces. exact Hw.
Qed.

Lemma rstrip_cons (c d : ascii) (s r : string) :
  Py.rstrip s = String d r ->
  Py.rstrip (String c s) = String c (String d r).
Proof. intros H. simpl. rewrite H. reflexivity. Qed.

Lemma rstrip_twice (s : string) : Py.rstrip (Py.rstrip s) = Py.rstrip s.
Proof.
  induction s as [|c s IH]; [reflexivity|].
  destruct (Py.rstrip s) as [|d r] eqn:E.
  - simpl. rewrite E.
    destruct (Py.isspace c) eqn:Hc; [reflexivity|].
    simpl. rewrite Hc. reflexivity.
  - rewrite (rstrip_cons c d s r E). apply rstrip_cons. exact IH.
Qed.

(** A text that ends with a character that is no white space keeps its
    end. *)
Lemma rstrip_keeps_end (s : string) (c : ascii) :
  Py.isspace c = false ->
  Py.rstrip (s +++ String c EmptyString) = s +++ String c EmptyString.
Proof.
  intros Hc. induction s as [|d s IH]; simpl.
  - rewrite Hc. reflexivity.
  - rewrite IH. destruct s; reflexivity.
Qed.

Lemma lstrip_all (P : ascii -> bool) (s : string) :
  all_chars P s = true -> all_chars P (Py.lstrip s) = true.
Proof.
  induction s as [|c s IH]; simpl; [reflexivity|].
  intros H. destruct (Py.isspace c); [|exact H].
  apply andb_true_iff in H. apply IH. exact (proj2 H).
Qed.

Lemma rstrip_all (P : ascii -> bool) (s : string) :
  all_chars P s = true -> all_chars P (Py.rstrip s) = true.
Proof.
  induction s as [|c s IH]; simpl; [reflexivity|].
  intros H. apply andb_true_iff in H. destruct H as [Hc Hs].
  specialize (IH Hs). destruct (Py.rstrip s) as [|d r].
  - destruct (Py.isspace c); simpl; [reflexivity|].
    rewrite Hc. reflexivity.
  - change (all_chars P (String c (String d r)))
      with (P c && all_chars P (String d r)).
    rewrite Hc, IH. reflexivity.
Qed.

Lemma strip_all (P : ascii -> bool) (s : string) :
  all_chars P s = true -> all_chars P (Py.strip s) = true.
Proof. intros H. apply rstrip_all, lstrip_all, H. Qed.

End StripFacts.

(** ** Quoted blocks: spoiler and fold *)

Module QuoteFacts.
Import Footnotes.

Lemma blanks_spaces (k : nat) (s : string) :
  leading_spaces (blanks k +++ s) = (k + leading_spaces s)%nat.
Proof. induction k as [|k IH]; simpl; [|rewrite IH]; reflexivity. Qed.

Lemma drop_blanks (k : nat) (s : string) : Py.drop k (blanks k +++ s) = s.
Proof.
  induction k as [|k IH]; simpl; [destruct s; reflexivity | exact IH].
Qed.

Lemma drop_add (a b : nat) :
  forall s, Py.drop (a + b) s = Py.drop b (Py.drop a s).
Proof.
  induction a as [|a IH]; intros s; simpl; [reflexivity|].
  destruct s as [|c s]; [destruct b; reflexivity | apply IH].
Qed.

Lemma prefix_append (m r : string) : String.prefix m (m +++ r) = true.
Proof.
  induction m as [|c m IH]; simpl; [destruct r; reflexivity|].
  destruct (ascii_dec c c); [exact IH | congruence].
Qed.

Lemma blanks_lf_free (k : nat) : lf_free (blanks k) = true.
Proof. induction k as [|k IH]; [reflexivity | exact IH]. Qed.

Lemma quoted_lf_free (marker : string) (p : nat * string) :
  lf_free marker = true -> lf_free (snd p) = true ->
  lf_free (quoted marker p) = true.
Proof.
  intros Hm Hp. unfold quoted, lf_free.
  rewrite !LineFacts.all_chars_append.
  fold (lf_free (blanks (fst p))) (lf_free marker) (lf_free (snd p)).
  rewrite blanks_lf_free, Hm, Hp. reflexivity.
Qed.

(** What [strip_leading] does to one line. *)
Lemma strip_leading_lines (marker text0 : string) :
  strip_leading marker text0
  = Py.join Py.nl
      (map (fun line =>
              if String.prefix marker (Py.drop (leading_spaces line) line)
              then Py.drop (leading_spaces line + String.length marker) line
              else line)
           (lines_of text0)).
Proof. reflexivity. Qed.

Lemma join_snoc (sep x : string) (ls : list string) :
  ls <> [] -> Py.join sep (ls ++ [x]) = Py.join sep ls +++ sep +++ x.
Proof.
  induction ls as [|a ls IH]; [congruence|]. intros _.
  destruct ls as [|b ls]; [reflexivity|].
  change ((a :: b :: ls) ++ [x]) with (a :: ((b :: ls) ++ [x])).
  rewrite LineFacts.join_cons by (destruct ls; discriminate).
  rewrite IH by discriminate.
  rewrite (LineFacts.join_cons sep a (b :: ls)) by discriminate.
  rewrite !StringFacts.append_assoc. reflexivity.
Qed.

(** The marker is taken off every quoted line; a line feed that ends the
    block stays. *)
Lemma strip_leading_quoted (c : ascii) (m : string)
  (ps : list (nat * string)) (tail : string) :
  Ascii.eqb c " " = false ->
  lf_free (String c m) = true ->
  ps <> [] ->
  Forall (fun p => lf_free (snd p) = true) ps ->
  tail = EmptyString \/ tail = Py.nl ->
  strip_leading (String c m)
    (Py.join Py.nl (map (quoted (String c m)) ps) +++ tail)
  = Py.join Py.nl (map snd ps) +++ tail.
Proof.
  intros Hc Hm Hne Hall Htail. rewrite strip_leading_lines.
  set (f := fun line : string => _).
  assert (Hf : forall p, f (quoted (String c m) p) = snd p).
  { intros [k r]. unfold f, quoted. cbn [fst snd].
    rewrite blanks_spaces. cbn [String.append leading_spaces].
    rewrite Hc, Nat.add_0_r, drop_blanks.
    change (String c (m +++ r)) with (String c m +++ r).
    rewrite prefix_append, drop_add, drop_blanks.
    apply StringFacts.drop_length_append. }
  assert (Hq : Forall (fun l => lf_free l = true)
                 (map (quoted (String c m)) ps)).
  { apply Forall_forall. intros l Hl. apply in_map_iff in Hl.
    destruct Hl as [p [<- Hp]]. apply quoted_lf_free; [exact Hm|].
    rewrite Forall_forall in Hall. exact (Hall p Hp). }
  assert (Hqne : map (quoted (String c m)) ps <> [])
    by (destruct ps; [congruence | discriminate]).
  assert (Hsne : map snd ps <> [])
    by (destruct ps; [congruence | discriminate]).
  assert (Hmap : map f (map (quoted (String c m)) ps) = map snd ps).
  { rewrite map_map. apply map_ext. exact Hf. }
  destruct Htail as [-> | ->].
  - rewrite !StringFacts.append_empty_r.
    rewrite (LineFacts.lines_of_join _ Hqne Hq), Hmap. reflexivity.
  - replace (Py.join Py.nl (map (quoted (String c m)) ps) +++ Py.nl)
      with (Py.join Py.nl (map (quoted (String c m)) ps ++ [EmptyString]))
      by (rewrite (join_snoc Py.nl EmptyString _ Hqne),
            StringFacts.append_empty_r;
          reflexivity).
    rewrite LineFacts.lines_of_join.
    + rewrite map_app, Hmap. cbn [map].
      replace (f EmptyString) with EmptyString
        by reflexivity.
      rewrite (join_snoc Py.nl EmptyString _ Hsne),
        StringFacts.append_empty_r.
      reflexivity.
    + destruct (map (quoted (String c m)) ps); discriminate.
    + apply Forall_app. split; [exact Hq|].
      constructor; [reflexivity | constructor].
Qed.

Section Parsing.

Variable block_parse : string -> State -> list token.

(** X12.  A spoiler block is unquoted line by line: for a match made of
    lines that each start with blanks and the marker, with or without the
    line feed that ends the block, the text of the token is the lines
    without blanks and marker, joined again and stripped, and that text is
    what the nested parse gets.  Only the first marker of a line goes: a
    marker inside the content stays. *)
Theorem spoiler_block_unquoted (ps : list (nat * string)) (tail : string)
  (state : State) :
  ps <> [] ->
  Forall (fun p => lf_free (snd p) = true) ps ->
  tail = EmptyString \/ tail = Py.nl ->
  Spoiler.parse_spoiler_block block_parse
    (Py.join Py.nl (map (quoted ">!") ps) +++ tail) state
  = Token "spoiler_block"
      (Some (block_parse (Py.strip (Py.join Py.nl (map snd ps))) state))
      (Some (Py.strip (Py.join Py.nl (map snd ps)))) None.
Proof.
  intros Hne Hall Htail. unfold Spoiler.parse_spoiler_block.
  rewrite (strip_leading_quoted ">" "!" ps tail eq_refl eq_refl
             Hne Hall Htail).
  rewrite StripFacts.strip_append_spaces
    by (destruct Htail as [-> | ->]; reflexivity).
  reflexivity.
Qed.

End Parsing.

End QuoteFacts.

(** ** The header of a fancy block and of a fold block *)

Module HeaderFacts.
Import FancyBlocks.

Lemma space_is_no_hash (d : ascii) :
  Py.isspace d = true -> is_hash d = false.
Proof.
  intros Hd. unfold is_hash. destruct (Ascii.eqb_spec d "#") as [-> |];
    [discriminate | reflexivity].
Qed.

(** A match of the header pattern splits the text into a run of one to
    five [#], white space, the header up to a line feed, line feeds, and
    the text after the match. *)
Lemma header_match_sound (s : string) (m : Re.match_obj) :
  Re.match_ FANCY_BLOCK_HEADER s = Some m ->
  exists hashes ws nls,
    s = hashes +++ ws +++ Re.group1 m +++ nls +++ Re.after m /\
    all_chars is_hash hashes = true /\
    (1 <= String.length hashes <= 5)%nat /\
    all_chars Py.isspace ws = true /\
    lf_free (Re.group1 m) = true /\
    all_chars is_lf nls = true /\ (1 <= String.length nls)%nat.
Proof.
  unfold Re.match_.
  destruct (Re.match_items FANCY_BLOCK_HEADER s) as [[caps r]|] eqn:E;
    [|discriminate].
  intros H. inversion H; subst m; clear H.
  destruct (ReFacts.match_items_sound _ _ _ _ E) as [Hs Hruns].
  inversion Hruns as [|i1 c1 p1 l1 R1 Hr1]; subst.
  inversion Hr1 as [|i2 c2 p2 l2 R2 Hr2]; subst.
  inversion Hr2 as [|i3 c3 p3 l3 R3 Hr3]; subst.
  inversion Hr3 as [|i4 c4 p4 l4 R4 Hr4]; subst.
  inversion Hr4; subst.
  exists c1, c2, c4. cbn [Re.group1 Re.after].
  destruct R1 as [A1 [B1 C1]], R2 as [A2 _], R3 as [A3 _], R4 as [A4 [B4 _]].
  simpl in B1, C1, B4.
  simpl Re.group1_of. rewrite !StringFacts.append_empty_r.
  split; [reflexivity|]. split; [exact A1|]. split; [lia|].
  split; [exact A2|]. split; [exact A3|]. split; [exact A4 | lia].
Qed.

(** The header pattern matches a heading line: the run of [#], the white
    space, a header that starts with neither, and the line feeds after it
    are taken, and the header is group 1. *)
Lemma header_match (hashes ws title nls rest : string) :
  all_chars is_hash hashes = true ->
  (1 <= String.length hashes <= 5)%nat ->
  all_chars Py.isspace ws = true ->
  title <> EmptyString ->
  head_fails Py.isspace title = true ->
  head_fails is_hash title = true ->
  lf_free title = true ->
  all_chars is_lf nls = true ->
  nls <> EmptyString ->
  head_fails is_lf rest = true ->
  Re.match_ FANCY_BLOCK_HEADER (hashes +++ ws +++ title +++ nls +++ rest)
  = Some (Re.Match title rest).
Proof.
  intros Hh Hlen Hws Hne Hsp Hha Hlf Hnl Hnne Hrest.
  destruct title as [|c t]; [congruence|]. clear Hne.
  destruct nls as [|n0 nls']; [congruence|]. clear Hnne.
  assert (Hn0 : is_lf n0 = true)
    by (simpl in Hnl; apply andb_true_iff in Hnl; exact (proj1 Hnl)).
  assert (Hm : Re.match_items FANCY_BLOCK_HEADER
                 (hashes +++ ws +++ String c t +++ String n0 nls' +++ rest)
               = Some ([hashes; ws; String c t; String n0 nls'], rest)).
  { unfold FANCY_BLOCK_HEADER. apply ReFacts.match_items_step.
    - exact Hh.
    - destruct ws as [|d ws']; [exact Hha|].
      simpl in Hws. apply andb_true_iff in Hws.
      change (negb (is_hash d) = true).
      rewrite (space_is_no_hash d (proj1 Hws)). reflexivity.
    - simpl. lia.
    - simpl. lia.
    - apply ReFacts.match_items_step.
      + exact Hws.
      + exact Hsp.
      + exact I.
      + simpl. lia.
      + apply ReFacts.match_items_step.
        * exact Hlf.
        * change (negb (negb (is_lf n0)) = true). rewrite Hn0. reflexivity.
        * exact I.
        * simpl. lia.
        * apply ReFacts.match_items_step.
          -- exact Hnl.
          -- exact Hrest.
          -- exact I.
          -- simpl. lia.
          -- reflexivity. }
  unfold Re.match_. rewrite Hm. simpl.
  rewrite StringFacts.append_empty_r. reflexivity.
Qed.

(** The pattern needs a line feed: it matches no text of one line. *)
Lemma header_needs_line_feed (s : string) :
  lf_free s = true -> Re.match_ FANCY_BLOCK_HEADER s = None.
Proof.
  intros Hs. destruct (Re.match_ FANCY_BLOCK_HEADER s) as [m|] eqn:E;
    [|reflexivity].
  destruct (header_match_sound s m E)
    as [hashes [ws [nls [Heq [_ [_ [_ [_ [Hnl Hlen]]]]]]]]].
  exfalso. rewrite Heq in Hs. unfold lf_free in Hs.
  rewrite !LineFacts.all_chars_append in Hs.
  destruct nls as [|n0 nls']; [simpl in Hlen; lia|].
  simpl in Hnl. apply andb_true_iff in Hnl. destruct Hnl as [Hn0 _].
  unfold is_lf in Hn0. simpl in Hs. rewrite Hn0 in Hs. simpl in Hs.
  rewrite !andb_false_r in Hs. discriminate.
Qed.

(** The pattern matches only a text that starts with [#]. *)
Lemma header_needs_hash (s : string) :
  head_fails is_hash s = true -> Re.match_ FANCY_BLOCK_HEADER s = None.
Proof.
  intros Hs. destruct (Re.match_ FANCY_BLOCK_HEADER s) as [m|] eqn:E;
    [|reflexivity].
  destruct (header_match_sound s m E)
    as [hashes [ws [nls [Heq [Hh [Hlen _]]]]]].
  exfalso. destruct hashes as [|h hs]; [simpl in Hlen; lia|].
  rewrite Heq in Hs. simpl in Hs, Hh. apply andb_true_iff in Hh.
  rewrite (proj1 Hh) in Hs. discriminate.
Qed.

Section Parsing.

Variable block_parse : string -> State -> list string -> list token.

(** X13.  A fancy block whose body starts with a heading line gets that
    line as its header: for a body made of one to five [#], white space, a
    header text without line feed that starts with neither white space nor
    [#], one or more line feeds and the rest, the token carries the header
    text, and the rest, not the heading line, is its text and is what the
    nested parse gets. *)
Theorem fancy_block_heading_is_header (rules rules1 rules2 : list string)
  (g3 hashes ws title nls rest : string) (state : State) :
  Py.remove "axt_heading" rules = Ok rules1 ->
  Py.remove "setex_heading" rules1 = Ok rules2 ->
  all_chars is_hash hashes = true ->
  (1 <= String.length hashes <= 5)%nat ->
  all_chars Py.isspace ws = true ->
  title <> EmptyString ->
  head_fails Py.isspace title = true ->
  head_fails is_hash title = true ->
  lf_free title = true ->
  all_chars is_lf nls = true ->
  nls <> EmptyString ->
  head_fails is_lf rest = true ->
  parse_fancy_block block_parse rules g3
    (Some (hashes +++ ws +++ title +++ nls +++ rest)) state
  = Ok (Token "fancy_block" (Some (block_parse rest state rules2))
          (Some rest) (Some [PStr (Py.lower (Py.strip g3)); PStr title])).
Proof.
  intros H1 H2 Hh Hlen Hws Hne Hsp Hha Hlf Hnl Hnne Hrest.
  unfold parse_fancy_block.
  assert (Hg : group_or (Some (hashes +++ ws +++ title +++ nls +++ rest))
                 (EmptyString +++ Py.nl)
               = hashes +++ ws +++ title +++ nls +++ rest).
  { destruct hashes as [|h hs]; [simpl in Hlen; lia | reflexivity]. }
  rewrite Hg.
  rewrite (header_match hashes ws title nls rest Hh Hlen Hws Hne Hsp Hha
             Hlf Hnl Hnne Hrest).
  rewrite H1. simpl. rewrite H2. reflexivity.
Qed.

(** X14.  A fancy block takes a header only from a heading line at the
    start of its body.  Whenever the parse completes, either the token has
    no header and its text is the whole body, or the body is a run of one to
    five [#], white space, the header, which holds no line feed, one or more
    line feeds, and then the token's text.  A body that does not start with
    [#], or that has no line feed, is kept whole. *)
Theorem fancy_block_header_only_from_heading (rules : list string)
  (g3 : string) (g4 : option string) (state : State) (tok : token) :
  parse_fancy_block block_parse rules g3 g4 state = Ok tok ->
  let body := group_or g4 Py.nl in
  let family := Py.lower (Py.strip g3) in
  ((params tok = Some [PStr family; PNone] /\ text tok = Some body) \/
   (exists hashes ws title nls rest,
       params tok = Some [PStr family; PStr title] /\
       text tok = Some rest /\
       body = hashes +++ ws +++ title +++ nls +++ rest /\
       all_chars is_hash hashes = true /\
       (1 <= String.length hashes <= 5)%nat /\
       all_chars Py.isspace ws = true /\
       lf_free title = true /\
       all_chars is_lf nls = true /\ (1 <= String.length nls)%nat)) /\
  (head_fails is_hash body = true \/ lf_free body = true ->
   params tok = Some [PStr family; PNone] /\ text tok = Some body).
Proof.
  intros H body family. unfold parse_fancy_block in H.
  change (group_or g4 (EmptyString +++ Py.nl)) with body in H.
  destruct (Py.remove "axt_heading" rules) as [r1|]; [|discriminate].
  simpl in H.
  destruct (Py.remove "setex_heading" r1) as [r2|]; [|discriminate].
  simpl in H. inversion H; subst tok; clear H. cbn [params text].
  split.
  - destruct (Re.match_ FANCY_BLOCK_HEADER body) as [m|] eqn:E.
    + right. destruct (header_match_sound body m E)
        as [hashes [ws [nls [Heq [Hh [Hlen [Hws [Hlf [Hnl Hn]]]]]]]]].
      exists hashes, ws, (Re.group1 m), nls, (Re.after m).
      repeat split; try assumption; lia.
    + left. split; reflexivity.
  - intros [Hb | Hb].
    + rewrite (header_needs_hash body Hb). split; reflexivity.
    + rewrite (header_needs_line_feed body Hb). split; reflexivity.
Qed.

End Parsing.

End HeaderFacts.

(** ** Fold blocks *)

Module FoldFacts.
Import Footnotes.

Lemma lstrip_head (s : string) : head_fails Py.isspace (Py.lstrip s) = true.
Proof.
  induction s as [|c s IH]; simpl; [reflexivity|].
  destruct (Py.isspace c) eqn:Hc; [exact IH|]. simpl. rewrite Hc.
  reflexivity.
Qed.

Lemma rstrip_head (s : string) :
  head_fails Py.isspace s = true ->
  head_fails Py.isspace (Py.rstrip s) = true.
Proof.
  destruct s as [|c s]; [reflexivity|]. simpl. intros Hc.
  destruct (Py.rstrip s).
  - apply negb_true_iff in Hc. rewrite Hc. simpl. rewrite Hc. reflexivity.
  - simpl. exact Hc.
Qed.

Lemma lstrip_fixed (s : string) :
  head_fails Py.isspace s = true -> Py.lstrip s = s.
Proof.
  destruct s as [|c s]; [reflexivity|]. simpl. intros Hc.
  apply negb_true_iff in Hc. rewrite Hc. reflexivity.
Qed.

Lemma strip_twice (s : string) : Py.strip (Py.strip s) = Py.strip s.
Proof.
  unfold Py.strip.
  rewrite (lstrip_fixed _ (rstrip_head _ (lstrip_head s))).
  apply StripFacts.rstrip_twice.
Qed.

Lemma all_chars_impl (P Q : ascii -> bool) (s : string) :
  (forall c, P c = true -> Q c = true) ->
  all_chars P s = true -> all_chars Q s = true.
Proof.
  intros HPQ. induction s as [|c s IH]; simpl; [reflexivity|].
  intros H. apply andb_true_iff in H. destruct H as [Hc Hs].
  rewrite (HPQ c Hc), (IH Hs). reflexivity.
Qed.

(** No line of [splitlines] holds a line break. *)
Lemma splitlines_no_break (s : string) :
  forall (prev : bool) (cur : string),
    all_chars (fun c => negb (is_linebreak c)) cur = true ->
    Forall (fun l => all_chars (fun c => negb (is_linebreak c)) l = true)
      (splitlines_from prev cur s).
Proof.
  induction s as [|c s IH]; intros prev cur Hcur; simpl.
  - destruct (String.eqb cur EmptyString); constructor;
      [exact Hcur | constructor].
  - destruct (prev && Ascii.eqb c (Py.chr 10)); [apply IH; exact Hcur|].
    destruct (is_linebreak c) eqn:Hc.
    + constructor; [exact Hcur | apply IH; reflexivity].
    + apply IH. rewrite LineFacts.all_chars_append, Hcur. simpl.
      rewrite Hc. reflexivity.
Qed.

Lemma no_break_lf_free (l : string) :
  all_chars (fun c => negb (is_linebreak c)) l = true -> lf_free l = true.
Proof.
  apply all_chars_impl. intros c Hc.
  destruct (Ascii.eqb_spec c (Py.chr 10)) as [-> |]; [discriminate|].
  reflexivity.
Qed.

(** The cleaning of the fold text leaves lines without white space at
    their end and without a line break inside. *)
Lemma cleaned_lines (x : string) :
  Forall (fun l => Py.rstrip l = l /\
                   all_chars (fun c => negb (is_linebreak c)) l = true)
    (lines_of (Py.join Py.nl (map Py.rstrip (splitlines x)))).
Proof.
  pose proof (splitlines_no_break x false EmptyString eq_refl) as Hnb.
  fold (splitlines x) in Hnb.
  destruct (splitlines x) as [|l0 ls] eqn:E.
  - simpl. constructor; [split; reflexivity | constructor].
  - rewrite LineFacts.lines_of_join.
    + apply Forall_forall. intros l Hl. apply in_map_iff in Hl.
      destruct Hl as [l1 [<- Hl1]]. rewrite Forall_forall in Hnb.
      split; [apply StripFacts.rstrip_twice|].
      apply StripFacts.rstrip_all. exact (Hnb l1 Hl1).
    + discriminate.
    + apply Forall_forall. intros l Hl. apply in_map_iff in Hl.
      destruct Hl as [l1 [<- Hl1]]. rewrite Forall_forall in Hnb.
      apply no_break_lf_free, StripFacts.rstrip_all. exact (Hnb l1 Hl1).
Qed.

Section Parsing.

Variable block_parse : string -> State -> list token.

(** X15.  A fold block with one line of content has no header, even when
    that line is a heading: the block is stripped before the header pattern
    is tried, and the pattern needs a line feed after the heading.  The
    line, heading marks included, is the text of the token, and the
    renderer will show the default summary. *)
Theorem fold_one_line_has_no_header (k : nat) (r tail : string)
  (state : State) :
  lf_free r = true ->
  tail = EmptyString \/ tail = Py.nl ->
  Fold.parse_fold_block block_parse (quoted ">|" (k, r) +++ tail) state
  = Token "fold_block"
      (Some (block_parse
               (Py.join Py.nl (map Py.rstrip (splitlines (Py.strip r))))
               state))
      (Some (Py.join Py.nl (map Py.rstrip (splitlines (Py.strip r)))))
      (Some [PNone]).
Proof.
  intros Hr Htail. unfold Fold.parse_fold_block.
  pose proof (QuoteFacts.strip_leading_quoted ">" "|" [(k, r)] tail
                eq_refl eq_refl ltac:(discriminate)
                ltac:(constructor; [exact Hr | constructor]) Htail) as Hs.
  cbn [map Py.join snd] in Hs. rewrite Hs.
  rewrite StripFacts.strip_append_spaces
    by (destruct Htail as [-> | ->]; reflexivity).
  change Fold.FOLD_BLOCK_HEADER with FancyBlocks.FANCY_BLOCK_HEADER.
  rewrite (HeaderFacts.header_needs_line_feed (Py.strip r))
    by (apply StripFacts.strip_all; exact Hr).
  cbn [option_map FancyBlocks.opt_str]. rewrite strip_twice. reflexivity.
Qed.

(** X16.  Whatever the match, the text of a fold token, which is what
    the nested parse gets, has no line that ends in white space and no line
    break but the line feed, and a header the token carries holds no line
    feed. *)
Theorem fold_block_text_clean (g0 : string) (state : State) :
  exists (body : string) (header : option string),
    Fold.parse_fold_block block_parse g0 state
    = Token "fold_block" (Some (block_parse body state)) (Some body)
        (Some [FancyBlocks.opt_str header]) /\
    Forall (fun l => Py.rstrip l = l /\
                     all_chars (fun c => negb (is_linebreak c)) l = true)
      (lines_of body) /\
    (forall title, header = Some title -> lf_free title = true).
Proof.
  unfold Fold.parse_fold_block.
  change Fold.FOLD_BLOCK_HEADER with FancyBlocks.FANCY_BLOCK_HEADER.
  set (t0 := Py.strip (strip_leading ">|" g0)).
  destruct (Re.match_ FancyBlocks.FANCY_BLOCK_HEADER t0) as [m|] eqn:E.
  - eexists. exists (Some (Re.group1 m)).
    split; [reflexivity|]. split; [apply cleaned_lines|].
    intros title Ht. inversion Ht; subst title.
    destruct (HeaderFacts.header_match_sound t0 m E)
      as [hashes [ws [nls [_ [_ [_ [_ [Hlf _]]]]]]]].
    exact Hlf.
  - eexists. exists None.
    split; [reflexivity|]. split; [apply cleaned_lines|].
    intros title Ht. discriminate.
Qed.

End Parsing.

End FoldFacts.

(** ** The family of a fancy block *)

Module FamilyFacts.
Import FancyBlocks.

Ltac by_bounds :=
  repeat match goal with
         | |- context [(?x <=? ?y)%nat] => destruct (Nat.leb_spec x y)
         | |- context [(?x =? ?y)%nat] => destruct (Nat.eqb_spec x y)
         end;
  simpl; try reflexivity; try lia.

(** A letter in either case is lowered to the small letter, and it is no
    white space. *)
Lemma letter_lower (a b : ascii) :
  same_letter a b = true ->
  Py.lower_char a = b /\ Py.isspace a = false.
Proof.
  unfold same_letter, is_small. intros H.
  apply andb_true_iff in H. destruct H as [Hb H].
  apply andb_true_iff in Hb. destruct Hb as [Hb1 Hb2].
  apply Nat.leb_le in Hb1, Hb2.
  assert (Ha : (65 <= nat_of_ascii a <= 90)%nat /\
               ascii_of_nat (nat_of_ascii a + 32) = b
               \/ (97 <= nat_of_ascii a <= 122)%nat /\ a = b).
  { apply orb_true_iff in H. destruct H as [H | H].
    - apply Ascii.eqb_eq in H. subst. right. split; [lia | reflexivity].
    - apply Nat.eqb_eq in H. left. split; [lia|].
      rewrite H. apply ascii_nat_embedding. }
  clear H. unfold Py.lower_char, Py.isspace. cbv zeta.
  remember (nat_of_ascii a) as n eqn:En. clear En.
  destruct Ha as [[Hn E] | [Hn E]].
  - split; [|by_bounds].
    replace ((65 <=? n)%nat && (n <=? 90)%nat
             || (192 <=? n)%nat && (n <=? 222)%nat && negb (n =? 215)%nat)
      with true by (symmetry; by_bounds).
    exact E.
  - split; [|by_bounds].
    replace ((65 <=? n)%nat && (n <=? 90)%nat
             || (192 <=? n)%nat && (n <=? 222)%nat && negb (n =? 215)%nat)
      with false by (symmetry; by_bounds).
    exact E.
Qed.

Lemma word_lower (w : string) :
  forall k, same_word w k = true ->
            Py.lower w = k /\
            all_chars (fun c => negb (Py.isspace c)) w = true.
Proof.
  induction w as [|a w IH]; intros [|b k] H; simpl in H; try discriminate.
  - split; reflexivity.
  - apply andb_true_iff in H. destruct H as [Hab Hw].
    destruct (letter_lower a b Hab) as [Hl Hs].
    destruct (IH k Hw) as [Hk Hall].
    simpl. rewrite Hl, Hk, Hs, Hall. split; reflexivity.
Qed.

Lemma lstrip_skip (ws x : string) :
  all_chars Py.isspace ws = true -> Py.lstrip (ws +++ x) = Py.lstrip x.
Proof.
  induction ws as [|c ws IH]; simpl; [reflexivity|].
  intros H. apply andb_true_iff in H. destruct H as [Hc Hws].
  rewrite Hc. exact (IH Hws).
Qed.

Lemma rstrip_word (w : string) :
  all_chars (fun c => negb (Py.isspace c)) w = true -> Py.rstrip w = w.
Proof.
  induction w as [|c w IH]; simpl; [reflexivity|].
  intros H. apply andb_true_iff in H. destruct H as [Hc Hw].
  apply negb_true_iff in Hc. rewrite (IH Hw), Hc.
  destruct w; reflexivity.
Qed.

Lemma lstrip_word (w : string) :
  all_chars (fun c => negb (Py.isspace c)) w = true -> Py.lstrip w = w.
Proof.
  destruct w as [|c w]; simpl; [reflexivity|].
  intros H. apply andb_true_iff in H. destruct H as [Hc _].
  apply negb_true_iff in Hc. rewrite Hc. reflexivity.
Qed.

(** The keyword of a match, trimmed and lowered, is the word it reads. *)
Lemma family_of_keyword (g3 k : string) :
  written_as g3 k -> Py.lower (Py.strip g3) = k.
Proof.
  intros [ws1 [w [ws2 [-> [H1 [H2 Hw]]]]]].
  destruct (word_lower w k Hw) as [Hl Hall].
  replace (Py.strip (ws1 +++ w +++ ws2)) with w; [exact Hl|].
  unfold Py.strip. rewrite (lstrip_skip ws1 _ H1).
  fold (Py.strip (w +++ ws2)).
  rewrite (StripFacts.strip_append_spaces w ws2 H2).
  unfold Py.strip. rewrite (lstrip_word w Hall), (rstrip_word w Hall).
  reflexivity.
Qed.

Local Arguments String.eqb : simpl never.

(** C8.  The family a fancy block carries is the keyword of the match,
    trimmed and lowercased: a keyword that reads a word of small letters,
    in capitals or small letters and with white space around it, gives
    that word as the family of the token, and the renderer, which gets the
    family and the header of the token, writes the class the fixed table
    has for that word.  The table maps info and blue to
    [alert alert-primary], warning and yellow to [alert alert-secondary],
    danger and red to [alert alert-danger], success and green to
    [alert alert-success], and none, empty and every keyword outside the
    table to the plain [alert]. *)
Theorem fancy_block_family_class :
  (forall (block_parse : string -> State -> list string -> list token)
          (rules : list string) (g3 : string) (g4 : option string)
          (state : State) (tok : token),
      parse_fancy_block block_parse rules g3 g4 state = Ok tok ->
      exists header,
        params tok = Some [PStr (Py.lower (Py.strip g3)); header]) /\
  (forall (block_parse : string -> State -> list string -> list token)
          (rules : list string) (g3 : string) (g4 : option string)
          (state : State) (tok : token) (k : string),
      parse_fancy_block block_parse rules g3 g4 state = Ok tok ->
      written_as g3 k ->
      exists header : option string,
        params tok = Some [PStr k; opt_str header] /\
        forall text : string,
        exists heading,
          render_html_fancy_block text k header =
          "<div class=" +++ Py.dq +++ table_class k +++ " mb-20" +++ Py.dq
          +++ " role=" +++ Py.dq +++ "alert" +++ Py.dq +++ ">"
          +++ heading +++ Py.nl +++ Py.strip text +++ "</div>" +++ Py.nl) /\
  (forall (text family : string) (header : option string),
      exists heading,
        render_html_fancy_block text family header =
        "<div class=" +++ Py.dq +++ table_class family +++ " mb-20" +++ Py.dq
        +++ " role=" +++ Py.dq +++ "alert" +++ Py.dq +++ ">"
        +++ heading +++ Py.nl +++ Py.strip text +++ "</div>" +++ Py.nl) /\
  map table_class
      ["info"; "blue"; "warning"; "yellow"; "danger"; "red";
       "success"; "green"; "none"; "empty"]
  = ["alert alert-primary"; "alert alert-primary";
     "alert alert-secondary"; "alert alert-secondary";
     "alert alert-danger"; "alert alert-danger";
     "alert alert-success"; "alert alert-success"; "alert"; "alert"] /\
  (forall family : string,
      Py.mem family ["info"; "blue"; "warning"; "yellow"; "danger"; "red";
                     "success"; "green"] = false ->
      table_class family = "alert").
Proof.
  assert (Hrender : forall (text family : string) (header : option string),
             exists heading,
               render_html_fancy_block text family header =
               "<div class=" +++ Py.dq +++ table_class family +++ " mb-20"
               +++ Py.dq +++ " role=" +++ Py.dq +++ "alert" +++ Py.dq +++ ">"
               +++ heading +++ Py.nl +++ Py.strip text +++ "</div>"
               +++ Py.nl).
  { intros text family header. unfold render_html_fancy_block.
    rewrite FancyBlockFacts.alert_class_table. eexists. reflexivity. }
  split.
  { intros block_parse rules g3 g4 state tok. unfold parse_fancy_block.
    destruct (Py.remove "axt_heading" rules) as [r1|]; simpl; [|discriminate].
    destruct (Py.remove "setex_heading" r1) as [r2|]; simpl; [|discriminate].
    intros H; inversion H; subst; simpl. eauto. }
  split.
  { intros block_parse rules g3 g4 state tok k H Hk.
    unfold parse_fancy_block in H.
    destruct (Py.remove "axt_heading" rules) as [r1|]; simpl in H;
      [|discriminate].
    destruct (Py.remove "setex_heading" r1) as [r2|]; simpl in H;
      [|discriminate].
    inversion H; subst tok; clear H. cbn [params].
    rewrite (family_of_keyword g3 k Hk).
    eexists. split; [reflexivity|].
    intros text. apply Hrender. }
  split; [exact Hrender|].
  split; [reflexivity|].
  intros family H. rewrite <- FancyBlockFacts.alert_class_table.
  unfold alert_class, Py.mem in *. simpl in *.
  repeat match type of H with
         | (_ || _) = false => apply orb_false_iff in H; destruct H as [? H]
         end.
  repeat match goal with
         | E : String.eqb family _ = false |- _ => rewrite E; clear E
         end.
  simpl.
  repeat match goal with
         | |- context [String.eqb family ?k] =>
             destruct (String.eqb family k); simpl; try reflexivity
         end.
Qed.

(** Keywords the statement covers. *)
Example keywords_in_any_case :
  written_as " Info " "info" /\ written_as "WARNING" "warning".
Proof.
  split.
  - exists " ", "Info", " ". repeat split.
  - exists EmptyString, "WARNING", EmptyString. repeat split.
Qed.

End FamilyFacts.

(** ** The paragraph inside a spoiler and a fold *)

Module RenderFacts.

Lemma py_take_length_append (a b : string) :
  Py.take (String.length a) (a +++ b) = a.
Proof.
  induction a as [|x a IH]; simpl; [destruct b; reflexivity|].
  rewrite IH. reflexivity.
Qed.

Lemma strip_paragraph (body w : string) :
  all_chars Py.isspace w = true ->
  Py.strip ("<p>" +++ body +++ "</p>" +++ w) = "<p>" +++ body +++ "</p>".
Proof.
  intros Hw.
  replace ("<p>" +++ body +++ "</p>" +++ w)
    with (("<p>" +++ body +++ "</p>") +++ w)
    by (rewrite !StringFacts.append_assoc; reflexivity).
  rewrite (StripFacts.strip_append_spaces _ w Hw).
  unfold Py.strip. rewrite FoldFacts.lstrip_fixed by reflexivity.
  replace ("<p>" +++ body +++ "</p>")
    with (("<p>" +++ body +++ "</p") +++ String ">" EmptyString)
    by (rewrite !StringFacts.append_assoc; reflexivity).
  apply StripFacts.rstrip_keeps_end. reflexivity.
Qed.

Lemma unwrap_of_paragraph (body w : string) :
  all_chars Py.isspace w = true ->
  unwrap_paragraph ("<p>" +++ body +++ "</p>" +++ w) = body.
Proof.
  intros Hw. unfold unwrap_paragraph. rewrite (strip_paragraph body w Hw).
  unfold Py.startswith. rewrite QuoteFacts.prefix_append.
  change (Py.drop 3 ("<p>" +++ body +++ "</p>")) with (body +++ "</p>").
  unfold Py.endswith, Py.drop_last.
  rewrite StringFacts.length_append.
  change (String.length "</p>") with 4%nat.
  replace (String.length body + 4 - 4)%nat with (String.length body) by lia.
  rewrite StringFacts.drop_length_append, py_take_length_append.
  replace (4 <=? String.length body + 4)%nat with true
    by (symmetry; apply Nat.leb_le; lia).
  reflexivity.
Qed.

(** X17.  A spoiler and a fold show a rendered paragraph once: when the
    text they get is one [<p>] element, with or without white space after
    it, the tags are taken off before the renderer adds its own, so the
    output holds the content in a single [<p>], never in two. *)
Theorem paragraph_shown_once (body w : string) (header : option string) :
  all_chars Py.isspace w = true ->
  Spoiler.render_html_spoiler_block ("<p>" +++ body +++ "</p>" +++ w)
  = "<div class=" +++ Py.dq +++ "spoiler" +++ Py.dq +++ ">" +++ Py.nl
    +++ "  <button class=" +++ Py.dq +++ "spoiler-button" +++ Py.dq
    +++ " onclick=" +++ Py.dq +++ "otterwiki.toggle_spoiler(this)" +++ Py.dq
    +++ "><i class=" +++ Py.dq +++ "far fa-eye" +++ Py.dq
    +++ "></i></button>" +++ Py.nl
    +++ "  <p>" +++ body +++ "</p>" +++ Py.nl
    +++ "</div>" +++ Py.nl +++ Py.nl /\
  Fold.render_html_fold_block ("<p>" +++ body +++ "</p>" +++ w) header
  = "<details class=" +++ Py.dq +++ "collapse-panel" +++ Py.dq +++ ">"
    +++ Py.nl
    +++ "<summary class=" +++ Py.dq +++ "collapse-header" +++ Py.dq +++ ">"
    +++ Py.nl
    +++ match header with Some h => h | None => "..." end
    +++ Py.nl +++ "</summary>" +++ Py.nl
    +++ "<div class=" +++ Py.dq +++ "collapse-content" +++ Py.dq +++ "><p>"
    +++ body +++ "</p></div></details>".
Proof.
  intros Hw.
  unfold Spoiler.render_html_spoiler_block, Fold.render_html_fold_block.
  rewrite (unwrap_of_paragraph body w Hw). split; reflexivity.
Qed.

End RenderFacts.

(** ** Registrations that append *)

Module AppendFacts.

Lemma index_app_keeps (l : list string) (x y : string) :
  forall i, Py.index l x = Ok i -> Py.index (l ++ [y]) x = Ok i.
Proof.
  induction l as [|a l IH]; intros i; simpl; [discriminate|].
  destruct (String.eqb a x); [auto|].
  destruct (Py.index l x) as [j|] eqn:Hj; simpl; [|discriminate].
  intros H. rewrite (IH j eq_refl). exact H.
Qed.

Lemma index_app_new (l : list string) (y : string) :
  Py.mem y l = false ->
  Py.index (l ++ [y]) y = Ok (Z.of_nat (List.length l)).
Proof.
  unfold Py.mem. induction l as [|a l IH]; simpl.
  - rewrite String.eqb_refl. reflexivity.
  - rewrite (String.eqb_sym y a). destruct (String.eqb a y); simpl;
      [discriminate|].
    intros H. rewrite (IH H). simpl. f_equal. lia.
Qed.

(** A rule appended to a list that does not have it is tried after every
    rule of the list, and the rules of the list keep their order. *)
Lemma appended_is_last (l : list string) (y : string) :
  Py.mem y l = false ->
  (forall x, Py.mem x l = true -> tried_before x y (l ++ [y])) /\
  (forall a b, tried_before a b l -> tried_before a b (l ++ [y])).
Proof.
  intros Hy. split.
  - intros x Hx. destruct (ListFacts.index_mem l x Hx) as [i Hi].
    exists i, (Z.of_nat (List.length l)).
    split; [apply index_app_keeps; exact Hi|].
    split; [apply index_app_new; exact Hy|].
    pose proof (ListFacts.index_range _ _ _ Hi). lia.
  - intros a b [i [j [Hi [Hj Hlt]]]]. exists i, j.
    split; [apply index_app_keeps; exact Hi|].
    split; [apply index_app_keeps; exact Hj | exact Hlt].
Qed.

Lemma fancy_blocks_call (md : Md) :
  exists md', FancyBlocks.__call__ md = Ok md' /\
              block_rules md' = block_rules md ++ ["fancy_block"] /\
              inline_rules md' = inline_rules md.
Proof.
  unfold FancyBlocks.__call__. simpl. eexists. split; [reflexivity|].
  destruct (String.eqb _ "html"); split; reflexivity.
Qed.

Lemma math_call (md : Md) :
  exists md', Math.__call__ md = Ok md' /\
              block_rules md' = block_rules md ++ ["math_block"] /\
              inline_rules md' = inline_rules md ++ ["math_inline"].
Proof.
  unfold Math.__call__. simpl. eexists. split; [reflexivity|].
  destruct (String.eqb _ "html"); split; reflexivity.
Qed.

(** X18.  The fancy-block and the math plugins need no anchor: their
    registration completes on every engine.  On an engine that does not have
    the rule yet, the new rule is tried after every rule that was there, and
    the rules that were there keep their order, in the block rules and, for
    the math plugin, in the inline rules as well. *)
Theorem appended_rules_are_tried_last (md : Md) :
  (exists md',
      FancyBlocks.__call__ md = Ok md' /\
      inline_rules md' = inline_rules md /\
      (Py.mem "fancy_block" (block_rules md) = false ->
       (forall x, Py.mem x (block_rules md) = true ->
                  tried_before x "fancy_block" (block_rules md')) /\
       (forall a b, tried_before a b (block_rules md) ->
                    tried_before a b (block_rules md')))) /\
  (exists md',
      Math.__call__ md = Ok md' /\
      (Py.mem "math_block" (block_rules md) = false ->
       (forall x, Py.mem x (block_rules md) = true ->
                  tried_before x "math_block" (block_rules md')) /\
       (forall a b, tried_before a b (block_rules md) ->
                    tried_before a b (block_rules md'))) /\
      (Py.mem "math_inline" (inline_rules md) = false ->
       (forall x, Py.mem x (inline_rules md) = true ->
                  tried_before x "math_inline" (inline_rules md')) /\
       (forall a b, tried_before a b (inline_rules md) ->
                    tried_before a b (inline_rules md')))).
Proof.
  split.
  - destruct (fancy_blocks_call md) as [md' [Hc [Hb Hi]]].
    exists md'. split; [exact Hc|]. split; [exact Hi|].
    intros Hm. rewrite Hb. apply appended_is_last. exact Hm.
  - destruct (math_call md) as [md' [Hc [Hb Hi]]].
    exists md'. split; [exact Hc|]. split.
    + intros Hm. rewrite Hb. apply appended_is_last. exact Hm.
    + intros Hm. rewrite Hi. apply appended_is_last. exact Hm.
Qed.

End AppendFacts.

(** ** The rules inside a fancy block *)

Module NestedRuleFacts.
Import FancyBlocks.

Local Arguments String.eqb : simpl never.

Lemma filter_absent (x : string) (l : list string) :
  ~ In x l -> filter (fun y => negb (String.eqb y x)) l = l.
Proof.
  induction l as [|a l IH]; simpl; [reflexivity|]. intros Hn.
  destruct (String.eqb_spec a x) as [-> | Hax]; [exfalso; auto|].
  simpl. rewrite IH; [reflexivity | auto].
Qed.

(** On a list without duplicates, [remove] drops every [x]. *)
Lemma remove_nodup (x : string) (l : list string) :
  NoDup l -> Py.mem x l = true ->
  Py.remove x l = Ok (filter (fun y => negb (String.eqb y x)) l).
Proof.
  unfold Py.mem. induction l as [|a l IH]; simpl; [discriminate|].
  intros Hnd Hm. inversion Hnd as [|a0 l0 Hna Hl]; subst.
  rewrite (String.eqb_sym x a) in Hm.
  destruct (String.eqb_spec a x) as [-> | Hax]; simpl.
  - rewrite (filter_absent x l Hna). reflexivity.
  - simpl in Hm. rewrite (IH Hl Hm). reflexivity.
Qed.

Lemma filter_headings (l : list string) :
  filter (fun y => negb (String.eqb y "setex_heading"))
    (filter (fun y => negb (String.eqb y "axt_heading")) l)
  = without_headings l.
Proof.
  unfold without_headings, Py.mem.
  induction l as [|a l IH]; simpl; [reflexivity|].
  destruct (String.eqb a "axt_heading") eqn:E1; simpl; [exact IH|].
  destruct (String.eqb a "setex_heading") eqn:E2; simpl;
    [exact IH | rewrite IH; reflexivity].
Qed.

Lemma remove_keeps_absent (x y : string) (l : list string) :
  Py.mem y l = false ->
  forall l', Py.remove x l = Ok l' -> Py.mem y l' = false.
Proof.
  unfold Py.mem. induction l as [|a l IH]; intros Hy l'; simpl;
    [discriminate|].
  simpl in Hy. apply orb_false_iff in Hy. destruct Hy as [Hya Hyl].
  destruct (String.eqb a x).
  - intros H; inversion H; subst. exact Hyl.
  - destruct (Py.remove x l) as [r|]; simpl; [|discriminate].
    intros H; inversion H; subst. simpl. rewrite Hya. simpl.
    apply IH; [exact Hyl | reflexivity].
Qed.

Section Parsing.

Variable block_parse : string -> State -> list string -> list token.

(** X19.  The text inside a fancy block is parsed without the heading
    rules.  On a rule list without duplicates that has both heading rules,
    the nested parse gets the rule list with the two heading rules taken out
    and every other rule in its place, and it gets the text the token
    carries.  When a heading rule is missing from the list,
    [parse_fancy_block] raises [ValueError] for every block. *)
Theorem fancy_block_nested_rules (rules : list string) (g3 : string)
  (g4 : option string) (state : State) :
  (NoDup rules ->
   Py.mem "axt_heading" rules = true ->
   Py.mem "setex_heading" rules = true ->
   exists body header,
     parse_fancy_block block_parse rules g3 g4 state
     = Ok (Token "fancy_block"
             (Some (block_parse body state (without_headings rules)))
             (Some body) (Some [PStr (Py.lower (Py.strip g3)); header])) /\
     Py.mem "axt_heading" (without_headings rules) = false /\
     Py.mem "setex_heading" (without_headings rules) = false) /\
  (Py.mem "axt_heading" rules = false \/
   Py.mem "setex_heading" rules = false ->
   parse_fancy_block block_parse rules g3 g4 state = Raise ValueError).
Proof.
  split.
  - intros Hnd Ha Hs.
    pose proof (remove_nodup "axt_heading" rules Hnd Ha) as H1.
    assert (Hs1 : Py.mem "setex_heading"
                    (filter (fun y => negb (String.eqb y "axt_heading"))
                       rules) = true).
    { apply (FancyBlockFacts.remove_keeps_other "axt_heading"
               "setex_heading" rules eq_refl _ H1 Hs). }
    pose proof (remove_nodup "setex_heading" _
                  (NoDup_filter _ Hnd) Hs1) as H2.
    rewrite filter_headings in H2.
    unfold parse_fancy_block. rewrite H1. cbn [bind]. rewrite H2.
    cbn [bind]. eexists. eexists. split; [reflexivity|].
    unfold without_headings, Py.mem. split.
    + destruct (existsb _ _) eqn:E; [|reflexivity].
      apply existsb_exists in E. destruct E as [x [Hx Hax]].
      apply String.eqb_eq in Hax. subst x.
      apply filter_In in Hx. destruct Hx as [_ Hx]. discriminate.
    + destruct (existsb _ _) eqn:E; [|reflexivity].
      apply existsb_exists in E. destruct E as [x [Hx Hax]].
      apply String.eqb_eq in Hax. subst x.
      apply filter_In in Hx. destruct Hx as [_ Hx]. discriminate.
  - intros Hm. unfold parse_fancy_block.
    destruct (Py.mem "axt_heading" rules) eqn:Ha.
    + destruct Hm as [Hm | Hm]; [discriminate|].
      destruct (FancyBlockFacts.remove_mem _ _ Ha) as [r1 H1].
      rewrite H1. cbn [bind].
      rewrite (FancyBlockFacts.remove_not_mem _ _
                 (remove_keeps_absent "axt_heading" "setex_heading"
                    rules Hm r1 H1)).
      reflexivity.
    + rewrite (FancyBlockFacts.remove_not_mem _ _ Ha). reflexivity.
Qed.

End Parsing.

End NestedRuleFacts.

(** ** The further properties on concrete inputs *)

Module FurtherSamples.
Import Samples MoreSamples.

(** X1 on a checked item. *)
Lemma task_marker_rewrite_sample :
  (Py.contains "x" " xX" = true /\
   all_chars Py.isspace " " = true /\
   head_fails Py.isspace "buy milk" = true) /\
  TaskLists._rewrite_list_item marked_item = Ok rewritten_item.
Proof.
  split; [repeat split|].
  apply (TaskListsMore.task_marker_rewrite "x" " " "buy milk"
           marked_paragraph [] "list_item" None (PInt 1) []);
    try reflexivity.
  discriminate.
Defined.

(** X2 on the same item. *)
Lemma rewrite_only_for_marker_sample :
  TaskLists._rewrite_list_item marked_item = Ok rewritten_item /\
  (rewritten_item = marked_item \/
   exists (fc : token) (others : list token) (c : ascii) (ws rest : string),
     children marked_item = Some (fc :: others) /\
     text fc = Some ("[" +++ String c EmptyString +++ "]" +++ ws +++ rest) /\
     Py.contains c " xX" = true /\ ws <> EmptyString /\
     all_chars Py.isspace ws = true /\
     type rewritten_item = "task_list_item" /\
     children rewritten_item = Some (set_text fc rest :: others) /\
     text rewritten_item = text marked_item).
Proof.
  split; [reflexivity|].
  apply (TaskListsMore.rewrite_only_for_marker marked_item rewritten_item).
  reflexivity.
Defined.

(** X3 on a list with one marked item. *)
Lemma rewrite_keeps_shape_sample :
  TaskLists._rewrite_all_list_items marked_list = Ok rewritten_list /\
  (same_list marked_list rewritten_list /\
   List.length rewritten_list = List.length marked_list /\
   texts rewritten_list = texts marked_list).
Proof.
  split; [reflexivity|].
  apply (TaskListsMore.rewrite_keeps_shape marked_list rewritten_list).
  reflexivity.
Defined.

(** X4 on a paragraph that only looks like a task. *)
Lemma no_list_item_unchanged_sample :
  existsb has_list_item plain_tokens = false /\
  TaskLists.task_lists_hook plain_tokens = Ok plain_tokens.
Proof.
  split; [reflexivity|].
  apply (TaskListsMore.no_list_item_unchanged plain_tokens). reflexivity.
Defined.

(** X6 on two references to the definition a. *)
Lemma same_key_same_marker_sample :
  Footnotes.parse_refs unikey refs_a_twice
    (mkState (Some two_defs) (Some []) None)
  = Ok ([first_ref; second_ref],
        mkState (Some two_defs) (Some ["a"; "a"]) (Some 2)) /\
  exists html,
    Footnotes.render_inline_token sample_base_render first_ref = Ok html /\
    Footnotes.render_inline_token sample_base_render second_ref = Ok html.
Proof.
  split; [reflexivity|].
  apply (FootnotesMore.same_key_same_marker unikey sample_base_render
           refs_a_twice two_defs [first_ref; second_ref]
           (mkState (Some two_defs) (Some ["a"; "a"]) (Some 2))
           first_ref second_ref).
  - reflexivity.
  - left. reflexivity.
  - right. left. reflexivity.
  - reflexivity.
Defined.

(** X9 at the first label of two letters. *)
Lemma letters_distinct_sample :
  (1 <= 27 /\
   Footnotes._letter_from_index 27 = Footnotes._letter_from_index 27) /\
  27 = 27.
Proof.
  split; [split; [lia | reflexivity]|].
  apply (BackLinksMore.letters_distinct 27 27); [lia | lia | reflexivity].
Defined.

(** X12 on two quoted lines and the line feed that ends the block. *)
Lemma spoiler_block_unquoted_sample :
  (Py.join Py.nl (map (quoted ">!") quoted_lines) +++ Py.nl
   = ">! hidden" +++ Py.nl +++ "  >!>! deeper" +++ Py.nl /\
   Py.strip (Py.join Py.nl (map snd quoted_lines))
   = "hidden" +++ Py.nl +++ ">! deeper") /\
  Spoiler.parse_spoiler_block sample_parse_text
    (Py.join Py.nl (map (quoted ">!") quoted_lines) +++ Py.nl)
    initial_state
  = Token "spoiler_block"
      (Some (sample_parse_text
               (Py.strip (Py.join Py.nl (map snd quoted_lines)))
               initial_state))
      (Some (Py.strip (Py.join Py.nl (map snd quoted_lines)))) None.
Proof.
  split; [split; reflexivity|].
  apply (QuoteFacts.spoiler_block_unquoted sample_parse_text quoted_lines
           Py.nl initial_state).
  - discriminate.
  - repeat constructor.
  - right. reflexivity.
Defined.

(** X13 on a block that starts with a heading of level two. *)
Lemma fancy_block_heading_is_header_sample :
  (Py.remove "axt_heading" (block_rules sample_md) = Ok rules_without_axt /\
   Py.remove "setex_heading" rules_without_axt = Ok rules_nested) /\
  FancyBlocks.parse_fancy_block sample_block_parse (block_rules sample_md)
    " Info " (Some ("##" +++ " " +++ "Title" +++ Py.nl +++ "Body"))
    initial_state
  = Ok (Token "fancy_block"
          (Some (sample_block_parse "Body" initial_state rules_nested))
          (Some "Body") (Some [PStr (Py.lower (Py.strip " Info "));
                               PStr "Title"])).
Proof.
  split; [split; reflexivity|].
  apply (HeaderFacts.fancy_block_heading_is_header sample_block_parse
           (block_rules sample_md) rules_without_axt rules_nested
           " Info " "##" " " "Title" Py.nl "Body" initial_state);
    try reflexivity.
  - simpl. lia.
  - discriminate.
  - discriminate.
Defined.

(** X14 on a block whose body does not start with a heading. *)
Lemma fancy_block_header_only_from_heading_sample :
  FancyBlocks.parse_fancy_block sample_block_parse (block_rules sample_md)
    " Info " (Some ("Body" +++ Py.nl)) initial_state
  = Ok (Token "fancy_block"
          (Some (sample_block_parse ("Body" +++ Py.nl) initial_state
                   rules_nested))
          (Some ("Body" +++ Py.nl)) (Some [PStr "info"; PNone])) /\
  (params (Token "fancy_block"
             (Some (sample_block_parse ("Body" +++ Py.nl) initial_state
                      rules_nested))
             (Some ("Body" +++ Py.nl)) (Some [PStr "info"; PNone]))
   = Some [PStr "info"; PNone] /\
   text (Token "fancy_block"
           (Some (sample_block_parse ("Body" +++ Py.nl) initial_state
                    rules_nested))
           (Some ("Body" +++ Py.nl)) (Some [PStr "info"; PNone]))
   = Some ("Body" +++ Py.nl)).
Proof.
  split; [reflexivity|].
  destruct (HeaderFacts.fancy_block_header_only_from_heading
              sample_block_parse (block_rules sample_md) " Info "
              (Some ("Body" +++ Py.nl)) initial_state _ eq_refl)
    as [_ H].
  apply H. left. reflexivity.
Defined.

(** X15 on a fold block that is one heading line. *)
Lemma fold_one_line_has_no_header_sample :
  quoted ">|" (0%nat, " # Title") +++ Py.nl = ">| # Title" +++ Py.nl /\
  Fold.parse_fold_block sample_parse_text
    (quoted ">|" (0%nat, " # Title") +++ Py.nl) initial_state
  = Token "fold_block"
      (Some (sample_parse_text "# Title" initial_state))
      (Some "# Title") (Some [PNone]).
Proof.
  split; [reflexivity|].
  exact (FoldFacts.fold_one_line_has_no_header sample_parse_text 0%nat
           " # Title" Py.nl initial_state eq_refl (or_intror eq_refl)).
Defined.

(** X17 on a paragraph followed by a line feed. *)
Lemma paragraph_shown_once_sample :
  all_chars Py.isspace Py.nl = true /\
  (Spoiler.render_html_spoiler_block
     ("<p>" +++ "hidden" +++ "</p>" +++ Py.nl)
   = Spoiler.render_html_spoiler_block "hidden" /\
   Fold.render_html_fold_block
     ("<p>" +++ "hidden" +++ "</p>" +++ Py.nl) None
   = Fold.render_html_fold_block "hidden" None).
Proof.
  split; [reflexivity|].
  exact (RenderFacts.paragraph_shown_once "hidden" Py.nl None eq_refl).
Defined.

End FurtherSamples.
